(** * The ESP32 Wifi binding of Espruino (libs/network/esp32/jswrap_esp32_network.c)

    A shallow embedding of the event-to-callback adapter: the three pending
    callback slots, the event dispatcher, the scan result builder and the
    public operations connect, disconnect, scan, getDetails and getAPDetails.

    C state is threaded explicitly through a small state monad with an
    abort outcome (ESP_ERROR_CHECK).  Pointers to runtime values
    ([JsVar *]) are [option JsVar], with [None] for the NULL pointer.
    Character buffers are lists of bytes, and a C string read from a buffer
    stops at its first NUL byte. *)

From Stdlib Require Import ZArith List Bool Lia.
From Stdlib.Strings Require Import String Ascii Byte.
From Stdlib Require Import DecimalString.
Import ListNotations.
Set Warnings "-register-all".
Local Open Scope Z_scope.
Local Open Scope string_scope.

(* ================================================================== *)
(** ** Runtime values *)

(** Modelled from the spec: the scripting runtime's value system (jsvar.h)
    is not part of the source file.  A value is null, a boolean, an
    integer, a string, an object (an ordered mapping from field name to
    value: the spec's EventRecord), an array (the spec's ScanResultList)
    or a function, the opaque handle of a completion callback.  The
    undefined value is the NULL pointer. *)
Inductive JsVar : Type :=
| JsNull
| JsBool (b : bool)
| JsInteger (z : Z)
| JsString (s : string)
| JsObject (children : list (string * JsVar))
| JsArray (items : list JsVar)
| JsFunction (id : nat).

(** A [JsVar *]. *)
Definition JsVarRef : Type := option JsVar.

(** Modelled from the spec: jsvIsFunction, "callback ... must be invocable";
    false on NULL. *)
Definition jsvIsFunction (v : JsVarRef) : bool :=
  match v with Some (JsFunction _) => true | _ => false end.

(** Modelled from the spec: jsvIsUndefined; the undefined value is NULL. *)
Definition jsvIsUndefined (v : JsVarRef) : bool :=
  match v with None => true | Some _ => false end.

(** Modelled from the spec: jsvIsNull, true on the null value only. *)
Definition jsvIsNull (v : JsVarRef) : bool :=
  match v with Some JsNull => true | _ => false end.

(** Modelled from the spec: jsvIsString, "network name must be a ...
    string"; false on NULL. *)
Definition jsvIsString (v : JsVarRef) : bool :=
  match v with Some (JsString _) => true | _ => false end.

(** Modelled from the spec: jsvIsObject, "options ... must be a structured
    record"; false on NULL. *)
Definition jsvIsObject (v : JsVarRef) : bool :=
  match v with Some (JsObject _) => true | _ => false end.

(** Modelled from the spec: jsvLockAgainSafe returns its argument (NULL for
    NULL).  Reference counts are not tracked by the model, so jsvUnLock has
    no counterpart. *)
Definition jsvLockAgainSafe (v : JsVarRef) : JsVarRef := v.

(** [v != NULL] *)
Definition notNULL {A} (v : option A) : bool :=
  match v with Some _ => true | None => false end.

(** Modelled from the spec: jsvObjectGetChild(obj, name, 0), the value of
    the named field or NULL. *)
Fixpoint lookupChild (name : string) (children : list (string * JsVar)) : JsVarRef :=
  match children with
  | [] => None
  | (k, v) :: rest => if String.eqb k name then Some v else lookupChild name rest
  end.

Definition jsvObjectGetChild (obj : JsVarRef) (name : string) : JsVarRef :=
  match obj with
  | Some (JsObject children) => lookupChild name children
  | _ => None
  end.

(** Modelled from the spec: jsvObjectSetChildAndUnLock(obj, name, child)
    on an object under construction: the field is replaced when present
    and added after the existing ones otherwise. *)
Fixpoint setChild (name : string) (child : JsVar) (children : list (string * JsVar))
  : list (string * JsVar) :=
  match children with
  | [] => [(name, child)]
  | (k, v) :: rest =>
      if String.eqb k name then (k, child) :: rest
      else (k, v) :: setChild name child rest
  end.

Definition jsvNewObject : list (string * JsVar) := [].

(* ================================================================== *)
(** ** Character buffers and C strings *)

Definition NUL : byte := x00.

Definition isNUL (b : byte) : bool := Byte.eqb b NUL.

(** The characters of the C string stored at the start of [mem]: every
    byte before the first NUL.  [mem] is the memory from the pointer on. *)
Fixpoint cstring (mem : list byte) : list byte :=
  match mem with
  | [] => []
  | b :: rest => if isNUL b then [] else b :: cstring rest
  end.

(** strncpy(dst, src, n): the [n] bytes written to [dst].  Characters are
    copied up to and including the first NUL of [src], and the remainder
    of the [n] bytes is filled with NUL; at most [n] bytes of [src] are
    read. *)
Fixpoint strncpy (src : list byte) (n : nat) {struct n} : list byte :=
  match n with
  | O => []
  | S n' =>
      match src with
      | [] => repeat NUL n
      | b :: rest => if isNUL b then repeat NUL n else b :: strncpy rest n'
      end
  end.

(** memcpy(dst, src, n): the [n] bytes written to [dst]. *)
Definition memcpy (src : list byte) (n : nat) : list byte := firstn n src.

(** Modelled from the spec: jsvNewFromString(str) builds a string value
    from the NUL-terminated characters at [str]. *)
Definition jsvNewFromString (mem : list byte) : JsVar :=
  JsString (string_of_list_byte (cstring mem)).

(** Modelled from the spec: jsvGetString(v, buf, len) stores the
    characters of a string value in a buffer of [len] bytes, keeping one
    byte for the terminator; the C string left in the buffer is returned. *)
Definition jsvGetString (v : JsVarRef) (len : nat) : list byte :=
  match v with
  | Some (JsString s) => cstring (firstn (len - 1) (list_byte_of_string s))
  | _ => []
  end.

Arguments jsvGetString : simpl never.

(** [sprintf("%d", n)] *)
Definition fmt_d (n : Z) : string := NilZero.string_of_int (Z.to_int n).

Definition hex_digit (n : Z) : ascii :=
  match n with
  | 0 => "0" | 1 => "1" | 2 => "2" | 3 => "3" | 4 => "4" | 5 => "5" | 6 => "6"
  | 7 => "7" | 8 => "8" | 9 => "9" | 10 => "a" | 11 => "b" | 12 => "c"
  | 13 => "d" | 14 => "e" | _ => "f"
  end%char.

(** [sprintf("%02x", b)] for a byte. *)
Definition fmt_02x (b : byte) : string :=
  let n := Z.of_N (Byte.to_N b) in
  String (hex_digit (Z.shiftr n 4)) (String (hex_digit (Z.land n 15)) EmptyString).

(** The byte at index [i] of a fixed-size array. *)
Definition at_index (l : list byte) (i : nat) : byte := nth i l NUL.

(** MACSTR with MAC2STR(a): "%02x:%02x:%02x:%02x:%02x:%02x" on a[0..5]. *)
Definition fmt_MAC (a : list byte) : string :=
  fmt_02x (at_index a 0) ++ ":" ++ fmt_02x (at_index a 1) ++ ":" ++
  fmt_02x (at_index a 2) ++ ":" ++ fmt_02x (at_index a 3) ++ ":" ++
  fmt_02x (at_index a 4) ++ ":" ++ fmt_02x (at_index a 5).

(** An IPv4 address as the vendor stores it: a 32-bit word in network byte
    order on a little-endian machine, so the first octet is the low byte. *)
Definition ip4_addr_t : Type := Z.

Definition IP4_ADDR (a b c d : Z) : ip4_addr_t :=
  Z.lor (Z.lor (Z.lor (Z.land a 255) (Z.shiftl (Z.land b 255) 8))
               (Z.shiftl (Z.land c 255) 16))
        (Z.shiftl (Z.land d 255) 24).

Definition ip4_addr1 (ip : ip4_addr_t) : Z := Z.land ip 255.
Definition ip4_addr2 (ip : ip4_addr_t) : Z := Z.land (Z.shiftr ip 8) 255.
Definition ip4_addr3 (ip : ip4_addr_t) : Z := Z.land (Z.shiftr ip 16) 255.
Definition ip4_addr4 (ip : ip4_addr_t) : Z := Z.land (Z.shiftr ip 24) 255.

(** IPSTR with IP2STR(ip): "%d.%d.%d.%d" on the four octets. *)
Definition fmt_IP (ip : ip4_addr_t) : string :=
  fmt_d (ip4_addr1 ip) ++ "." ++ fmt_d (ip4_addr2 ip) ++ "." ++
  fmt_d (ip4_addr3 ip) ++ "." ++ fmt_d (ip4_addr4 ip).

(* ================================================================== *)
(** ** Vendor types (esp_wifi.h, esp_event.h, tcpip_adapter.h) *)

Definition esp_err_t : Type := Z.
Definition ESP_OK : esp_err_t := 0.

Inductive wifi_mode_t := WIFI_MODE_NULL | WIFI_MODE_STA | WIFI_MODE_AP | WIFI_MODE_APSTA.

Inductive wifi_interface_t := WIFI_IF_STA | WIFI_IF_AP.

(** The vendor's authentication-mode enumeration.  [WIFI_AUTH_other]
    stands for every enumerator the source does not name (WIFI_AUTH_MAX
    and whatever a later SDK adds). *)
Inductive wifi_auth_mode_t :=
| WIFI_AUTH_OPEN
| WIFI_AUTH_WEP
| WIFI_AUTH_WPA_PSK
| WIFI_AUTH_WPA2_PSK
| WIFI_AUTH_WPA_WPA2_PSK
| WIFI_AUTH_other (value : Z).

(** The fields of an access-point record that the source reads. *)
Record wifi_ap_record_t := {
  ap_ssid : list byte;           (* 32 bytes, not NUL-terminated when full *)
  ap_rssi : Z;                   (* int8_t *)
  ap_authmode : wifi_auth_mode_t
}.

(** Station configuration as returned by esp_wifi_get_config.
    [sta_after_password] is the memory that follows the password field:
    the rest of the structure and whatever lies behind it. *)
Record wifi_sta_config_t := {
  sta_ssid : list byte;          (* char[32] *)
  sta_password : list byte;      (* char[64] *)
  sta_after_password : list byte
}.

(** Access-point configuration, with the memory after the password field
    as for the station configuration. *)
Record wifi_ap_config_t := {
  apc_ssid : list byte;          (* char[32] *)
  apc_password : list byte;      (* char[64] *)
  apc_after_password : list byte;
  apc_authmode : wifi_auth_mode_t;
  apc_ssid_hidden : Z;           (* uint8_t *)
  apc_max_connection : Z         (* uint8_t *)
}.

Record tcpip_adapter_ip_info_t := {
  ip : ip4_addr_t;
  netmask : ip4_addr_t;
  gw : ip4_addr_t
}.

Inductive system_event_id_t :=
| SYSTEM_EVENT_WIFI_READY
| SYSTEM_EVENT_SCAN_DONE
| SYSTEM_EVENT_STA_START
| SYSTEM_EVENT_STA_STOP
| SYSTEM_EVENT_STA_CONNECTED
| SYSTEM_EVENT_STA_DISCONNECTED
| SYSTEM_EVENT_STA_AUTHMODE_CHANGE
| SYSTEM_EVENT_STA_GOT_IP
| SYSTEM_EVENT_AP_START
| SYSTEM_EVENT_AP_STOP
| SYSTEM_EVENT_AP_STACONNECTED
| SYSTEM_EVENT_AP_STADISCONNECTED
| SYSTEM_EVENT_AP_PROBEREQRECVED
| SYSTEM_EVENT_other (value : Z).

Record system_event_sta_disconnected_t := {
  disconnected_ssid : list byte;   (* uint8_t[32] *)
  disconnected_bssid : list byte;  (* uint8_t[6] *)
  disconnected_reason : Z          (* uint8_t *)
}.

Record system_event_sta_connected_t := {
  connected_ssid : list byte;      (* uint8_t[32] *)
  connected_bssid : list byte;     (* uint8_t[6] *)
  connected_channel : Z            (* uint8_t *)
}.

Record system_event_sta_got_ip_t := {
  ip_info : tcpip_adapter_ip_info_t
}.

(** The event ids that reach the end of the handler without a branch of
    their own. *)
Inductive plain_event_id_t :=
| PLAIN_WIFI_READY
| PLAIN_STA_START
| PLAIN_STA_STOP
| PLAIN_STA_AUTHMODE_CHANGE
| PLAIN_AP_START
| PLAIN_AP_STOP
| PLAIN_AP_PROBEREQRECVED
| PLAIN_other (value : Z).

(** A system event: the event id together with the member of the
    event_info union that belongs to it.  [EV_plain] is an event whose
    payload the handler does not look at.  The two access-point branches
    of the handler (station joined, station left) take no part in the
    pending-callback bookkeeping and are not embedded, so this type has
    no event for them: they format MAC2STR(&mac), the address of the
    array and not its bytes, into an 18-byte buffer, and what that leaves
    behind is not defined by the source. *)
Inductive system_event_t :=
| EV_STA_DISCONNECTED (info : system_event_sta_disconnected_t)
| EV_STA_CONNECTED (info : system_event_sta_connected_t)
| EV_STA_GOT_IP (info : system_event_sta_got_ip_t)
| EV_SCAN_DONE
| EV_plain (id : plain_event_id_t).

Definition event_id (e : system_event_t) : system_event_id_t :=
  match e with
  | EV_STA_DISCONNECTED _ => SYSTEM_EVENT_STA_DISCONNECTED
  | EV_STA_CONNECTED _ => SYSTEM_EVENT_STA_CONNECTED
  | EV_STA_GOT_IP _ => SYSTEM_EVENT_STA_GOT_IP
  | EV_SCAN_DONE => SYSTEM_EVENT_SCAN_DONE
  | EV_plain PLAIN_WIFI_READY => SYSTEM_EVENT_WIFI_READY
  | EV_plain PLAIN_STA_START => SYSTEM_EVENT_STA_START
  | EV_plain PLAIN_STA_STOP => SYSTEM_EVENT_STA_STOP
  | EV_plain PLAIN_STA_AUTHMODE_CHANGE => SYSTEM_EVENT_STA_AUTHMODE_CHANGE
  | EV_plain PLAIN_AP_START => SYSTEM_EVENT_AP_START
  | EV_plain PLAIN_AP_STOP => SYSTEM_EVENT_AP_STOP
  | EV_plain PLAIN_AP_PROBEREQRECVED => SYSTEM_EVENT_AP_PROBEREQRECVED
  | EV_plain (PLAIN_other value) => SYSTEM_EVENT_other value
  end.

(* ================================================================== *)
(** ** The world: module state and the observable effects *)

(** A call made to the vendor SDK, with the arguments that matter.  For
    esp_wifi_set_config the ssid and password are given as the C strings
    the configuration fields hold. *)
Inductive VendorCall :=
| esp_wifi_set_mode_call (mode : wifi_mode_t)
| esp_wifi_set_config_call (ifx : wifi_interface_t) (ssid password : list byte) (bssid_set : bool)
| esp_wifi_start_call
| esp_wifi_connect_call
| esp_wifi_disconnect_call
| esp_wifi_scan_start_call (show_hidden block : bool)
| esp_wifi_scan_get_ap_num_call
| esp_wifi_scan_get_ap_records_call (number : nat)
| esp_wifi_get_config_call (ifx : wifi_interface_t).

(** Modelled from the spec: an entry of the runtime's event queue
    (jsinteractive.h).  [QueueEvents callback args] is
    jsiQueueEvents(NULL, callback, args, n), the invocation of a completion
    callback; [QueueObjectCallbacks object name args] is
    jsiQueueObjectCallbacks, the publication of a named event to the
    listeners of an object. *)
Inductive QueuedEvent :=
| QueueEvents (callback : JsVar) (args : list JsVar)
| QueueObjectCallbacks (object : JsVar) (name : string) (args : list JsVar).

(** Modelled from the spec: an error raised with jsExceptionHere(JSET_ERROR,
    format, arg): the message format and its value argument, if any. *)
Record JsException := {
  exc_format : string;
  exc_args : list JsVarRef
}.

(** A line written with ESP_LOGE or ESP_LOGW: format and the integer
    argument, which is a status or an event id.  The ESP_LOGD trace lines
    of the source are not modelled. *)
Inductive LogLevel := LOG_ERROR | LOG_WARN.

Inductive LogArg :=
| LogStatus (err : esp_err_t)
| LogEventId (id : system_event_id_t).

Record LogLine := {
  log_level : LogLevel;
  log_format : string;
  log_arg : LogArg
}.

Record World := {
  g_jsDisconnectCallback : JsVarRef;
  g_jsGotIpCallback : JsVarRef;
  g_jsScanCallback : JsVarRef;
  queue : list QueuedEvent;          (* events queued in the runtime, oldest first *)
  exceptions : list JsException;     (* errors raised, oldest first *)
  vendor_calls : list VendorCall;    (* calls made to the SDK, oldest first *)
  esp_log : list LogLine             (* lines logged, oldest first *)
}.

(** What the collaborators answer during one operation or one event: the
    status each SDK function returns, the scan results and stored
    configurations the SDK holds, and the module object that
    require("Wifi") yields (NULL when it fails). *)
Record Env := {
  r_esp_wifi_set_mode : esp_err_t;
  r_esp_wifi_set_config : esp_err_t;
  r_esp_wifi_start : esp_err_t;
  r_esp_wifi_connect : esp_err_t;
  r_esp_wifi_disconnect : esp_err_t;
  r_esp_wifi_scan_start : esp_err_t;
  r_esp_wifi_scan_get_ap_num : esp_err_t * nat;
  r_esp_wifi_scan_get_ap_records : esp_err_t * list wifi_ap_record_t;
  r_sta_config : wifi_sta_config_t;
  r_ap_config : wifi_ap_config_t;
  r_require_Wifi : JsVarRef
}.

(** *** The monad: state passing, with abort *)

Inductive Outcome (A : Type) :=
| Done (a : A) (w : World)
| Aborted (w : World).
Arguments Done {A} a w.
Arguments Aborted {A} w.

Definition M (A : Type) : Type := World -> Outcome A.

Definition ret {A} (a : A) : M A := fun w => Done a w.

Definition bind {A B} (m : M A) (k : A -> M B) : M B :=
  fun w => match m w with
           | Done a w' => k a w'
           | Aborted w' => Aborted w'
           end.

Declare Scope m_scope.
Delimit Scope m_scope with m.
Notation "x <- m ;; k" := (bind m (fun x => k))
  (at level 61, m at next level, right associativity) : m_scope.
Notation "m ;; k" := (bind m (fun _ => k))
  (at level 61, right associativity) : m_scope.
Local Open Scope m_scope.

Definition abort {A} : M A := fun w => Aborted w.

Definition gets {A} (f : World -> A) : M A := fun w => Done (f w) w.

Definition modify (f : World -> World) : M unit := fun w => Done tt (f w).

Definition set_g_jsDisconnectCallback (v : JsVarRef) : M unit :=
  modify (fun w =>
    {| g_jsDisconnectCallback := v;
       g_jsGotIpCallback := g_jsGotIpCallback w;
       g_jsScanCallback := g_jsScanCallback w;
       queue := queue w; exceptions := exceptions w;
       vendor_calls := vendor_calls w; esp_log := esp_log w |}).

Definition set_g_jsGotIpCallback (v : JsVarRef) : M unit :=
  modify (fun w =>
    {| g_jsDisconnectCallback := g_jsDisconnectCallback w;
       g_jsGotIpCallback := v;
       g_jsScanCallback := g_jsScanCallback w;
       queue := queue w; exceptions := exceptions w;
       vendor_calls := vendor_calls w; esp_log := esp_log w |}).

Definition set_g_jsScanCallback (v : JsVarRef) : M unit :=
  modify (fun w =>
    {| g_jsDisconnectCallback := g_jsDisconnectCallback w;
       g_jsGotIpCallback := g_jsGotIpCallback w;
       g_jsScanCallback := v;
       queue := queue w; exceptions := exceptions w;
       vendor_calls := vendor_calls w; esp_log := esp_log w |}).

Definition enqueue (e : QueuedEvent) : M unit :=
  modify (fun w =>
    {| g_jsDisconnectCallback := g_jsDisconnectCallback w;
       g_jsGotIpCallback := g_jsGotIpCallback w;
       g_jsScanCallback := g_jsScanCallback w;
       queue := queue w ++ [e]; exceptions := exceptions w;
       vendor_calls := vendor_calls w; esp_log := esp_log w |}).

Definition jsExceptionHere (format : string) (args : list JsVarRef) : M unit :=
  modify (fun w =>
    {| g_jsDisconnectCallback := g_jsDisconnectCallback w;
       g_jsGotIpCallback := g_jsGotIpCallback w;
       g_jsScanCallback := g_jsScanCallback w;
       queue := queue w;
       exceptions := exceptions w ++ [{| exc_format := format; exc_args := args |}];
       vendor_calls := vendor_calls w; esp_log := esp_log w |}).

Definition vendor (c : VendorCall) : M unit :=
  modify (fun w =>
    {| g_jsDisconnectCallback := g_jsDisconnectCallback w;
       g_jsGotIpCallback := g_jsGotIpCallback w;
       g_jsScanCallback := g_jsScanCallback w;
       queue := queue w; exceptions := exceptions w;
       vendor_calls := vendor_calls w ++ [c]; esp_log := esp_log w |}).

Definition esp_log_write (level : LogLevel) (format : string) (arg : LogArg) : M unit :=
  modify (fun w =>
    {| g_jsDisconnectCallback := g_jsDisconnectCallback w;
       g_jsGotIpCallback := g_jsGotIpCallback w;
       g_jsScanCallback := g_jsScanCallback w;
       queue := queue w; exceptions := exceptions w;
       vendor_calls := vendor_calls w;
       esp_log := esp_log w ++
         [{| log_level := level; log_format := format; log_arg := arg |}] |}).

Definition ESP_LOGE := esp_log_write LOG_ERROR.
Definition ESP_LOGW := esp_log_write LOG_WARN.

(** Modelled from the spec: jsiQueueEvents(NULL, callback, args, n) queues
    one invocation of the callback; nothing is queued for NULL. *)
Definition jsiQueueEvents (callback : JsVarRef) (args : list JsVar) : M unit :=
  match callback with
  | Some f => enqueue (QueueEvents f args)
  | None => ret tt
  end.

(** Modelled from the spec: jsiQueueObjectCallbacks(object, name, args, n)
    publishes the named event with its arguments to the listeners of the
    object. *)
Definition jsiQueueObjectCallbacks (object : JsVar) (name : string) (args : list JsVar)
  : M unit :=
  enqueue (QueueObjectCallbacks object name args).

Definition EXPECT_CB_EXCEPTION (jsCB : JsVarRef) : M unit :=
  jsExceptionHere "Expecting callback function but got %v" [jsCB].

Definition EXPECT_OPT_EXCEPTION (jsOPT : JsVarRef) : M unit :=
  jsExceptionHere "Expecting options object but got %t" [jsOPT].

(** ESP_ERROR_CHECK(x): abort unless the status is ESP_OK. *)
Definition ESP_ERROR_CHECK (x : esp_err_t) : M unit :=
  if Z.eqb x ESP_OK then ret tt else abort.

(** *** The SDK functions: each records the call and answers from [Env] *)

Definition esp_wifi_set_mode (env : Env) (mode : wifi_mode_t) : M esp_err_t :=
  vendor (esp_wifi_set_mode_call mode) ;; ret (r_esp_wifi_set_mode env).

Definition esp_wifi_set_config (env : Env) (ifx : wifi_interface_t)
    (ssid password : list byte) (bssid_set : bool) : M esp_err_t :=
  vendor (esp_wifi_set_config_call ifx ssid password bssid_set) ;;
  ret (r_esp_wifi_set_config env).

Definition esp_wifi_start (env : Env) : M esp_err_t :=
  vendor esp_wifi_start_call ;; ret (r_esp_wifi_start env).

Definition esp_wifi_connect (env : Env) : M esp_err_t :=
  vendor esp_wifi_connect_call ;; ret (r_esp_wifi_connect env).

Definition esp_wifi_disconnect (env : Env) : M esp_err_t :=
  vendor esp_wifi_disconnect_call ;; ret (r_esp_wifi_disconnect env).

Definition esp_wifi_scan_start (env : Env) (show_hidden block : bool) : M esp_err_t :=
  vendor (esp_wifi_scan_start_call show_hidden block) ;; ret (r_esp_wifi_scan_start env).

(** esp_wifi_scan_get_ap_num(&apCount): status and the number found. *)
Definition esp_wifi_scan_get_ap_num (env : Env) : M (esp_err_t * nat) :=
  vendor esp_wifi_scan_get_ap_num_call ;; ret (r_esp_wifi_scan_get_ap_num env).

(** esp_wifi_scan_get_ap_records(&number, list): at most [number] records
    are written to the array, and [number] becomes how many were. *)
Definition esp_wifi_scan_get_ap_records (env : Env) (number : nat)
  : M (esp_err_t * (nat * list wifi_ap_record_t)) :=
  vendor (esp_wifi_scan_get_ap_records_call number) ;;
  let written := firstn number (snd (r_esp_wifi_scan_get_ap_records env)) in
  ret (fst (r_esp_wifi_scan_get_ap_records env), (List.length written, written)).

Definition esp_wifi_get_sta_config (env : Env) : M wifi_sta_config_t :=
  vendor (esp_wifi_get_config_call WIFI_IF_STA) ;; ret (r_sta_config env).

Definition esp_wifi_get_ap_config (env : Env) : M wifi_ap_config_t :=
  vendor (esp_wifi_get_config_call WIFI_IF_AP) ;; ret (r_ap_config env).

(* ================================================================== *)
(** ** The source functions *)

(** A string literal, or the text sprintf leaves in a buffer: the
    characters followed by the terminating NUL. *)
Definition c_str (s : string) : list byte := (list_byte_of_string s ++ [NUL])%list.

(** Convert an wifi_auth_mode_t data type to a string value. *)
Definition authModeToString (authMode : wifi_auth_mode_t) : string :=
  match authMode with
  | WIFI_AUTH_OPEN => "OPEN"
  | WIFI_AUTH_WEP => "WEP"
  | WIFI_AUTH_WPA_PSK => "WPA"
  | WIFI_AUTH_WPA2_PSK => "WPA2"
  | WIFI_AUTH_WPA_WPA2_PSK => "WPA/WPA2"
  | WIFI_AUTH_other _ => "Unknown"
  end.

(** The body of the loop of scanCB: the record built for list[i]. *)
Definition scan_record (r : wifi_ap_record_t) : JsVar :=
  let jsCurrentAccessPoint := jsvNewObject in
  let jsCurrentAccessPoint :=
    setChild "rssi" (JsInteger (ap_rssi r)) jsCurrentAccessPoint in
  let jsCurrentAccessPoint :=
    setChild "authMode" (jsvNewFromString (c_str (authModeToString (ap_authmode r))))
             jsCurrentAccessPoint in
  (* char ssid[32 + 1]; strncpy(ssid, list[i].ssid, 32); ssid[32] = '\0'; *)
  let ssid := (strncpy (ap_ssid r) 32 ++ [NUL])%list in
  let jsCurrentAccessPoint :=
    setChild "ssid" (jsvNewFromString ssid) jsCurrentAccessPoint in
  JsObject jsCurrentAccessPoint.

(** The loop of scanCB over list[0 .. apCount-1], where [records] holds
    exactly the apCount records the SDK wrote; each record is pushed onto
    the end of the array. *)
Fixpoint scan_loop (records : list wifi_ap_record_t) (jsAccessPointArray : list JsVar)
  : list JsVar :=
  match records with
  | [] => jsAccessPointArray
  | r :: rest => scan_loop rest (jsAccessPointArray ++ [scan_record r])%list
  end.

(** Callback function that is invoked at the culmination of a scan. *)
Definition scanCB (env : Env) : M unit :=
  cb <- gets g_jsScanCallback ;;
  if negb (notNULL cb) then ret tt
  else
    num <- esp_wifi_scan_get_ap_num env ;;
    ESP_ERROR_CHECK (fst num) ;;
    let apCount := snd num in
    jsAccessPointArray <-
      (if (0 <? apCount)%nat then
         recs <- esp_wifi_scan_get_ap_records env apCount ;;
         ESP_ERROR_CHECK (fst recs) ;;
         ret (scan_loop (snd (snd recs)) [])
       else ret []) ;;
    cb <- gets g_jsScanCallback ;;
    jsiQueueEvents cb [JsArray jsAccessPointArray] ;;
    set_g_jsScanCallback None.

(** Modelled from the spec: jswrap_require("Wifi"), the module object the
    named events are published on; NULL when it cannot be had. *)
Definition getWifiModule (env : Env) : M JsVarRef := ret (r_require_Wifi env).

(** The event name to publish upon, NULL (with a warning) for the rest. *)
Definition wifiGetEvent (event : system_event_id_t) : M (option string) :=
  let unhandled :=
    ESP_LOGW "Unhandled event type: %d" (LogEventId event) ;; ret None in
  match event with
  | SYSTEM_EVENT_AP_PROBEREQRECVED => ret (Some "#onprobe_recv")
  | SYSTEM_EVENT_AP_STACONNECTED => ret (Some "#onsta_joined")
  | SYSTEM_EVENT_AP_STADISCONNECTED => ret (Some "#onsta_left")
  | SYSTEM_EVENT_AP_START => unhandled
  | SYSTEM_EVENT_AP_STOP => unhandled
  | SYSTEM_EVENT_SCAN_DONE => unhandled
  | SYSTEM_EVENT_STA_AUTHMODE_CHANGE => ret (Some "#onauth_change")
  | SYSTEM_EVENT_STA_CONNECTED => ret (Some "#onassociated")
  | SYSTEM_EVENT_STA_DISCONNECTED => ret (Some "#ondisconnected")
  | SYSTEM_EVENT_STA_GOT_IP => ret (Some "#onconnected")
  | SYSTEM_EVENT_STA_START => unhandled
  | SYSTEM_EVENT_STA_STOP => unhandled
  | SYSTEM_EVENT_WIFI_READY => unhandled
  | SYSTEM_EVENT_other _ => unhandled
  end.

(** Publish the event of the given type, with its details, to the
    listeners registered on the Wifi module. *)
Definition sendWifiEvent (env : Env) (eventType : system_event_id_t) (jsDetails : JsVar)
  : M unit :=
  module <- getWifiModule env ;;
  match module with
  | None => ret tt
  | Some m =>
      eventName <- wifiGetEvent eventType ;;
      match eventName with
      | None => ret tt
      | Some name => jsiQueueObjectCallbacks m name [jsDetails]
      end
  end.

(** The two pending-callback slots that sendWifiCompletionCB is given by
    address. *)
Inductive CallbackSlot := DisconnectSlot | GotIpSlot.

Definition read_slot (g : CallbackSlot) : M JsVarRef :=
  match g with
  | DisconnectSlot => gets g_jsDisconnectCallback
  | GotIpSlot => gets g_jsGotIpCallback
  end.

Definition write_slot (g : CallbackSlot) (v : JsVarRef) : M unit :=
  match g with
  | DisconnectSlot => set_g_jsDisconnectCallback v
  | GotIpSlot => set_g_jsGotIpCallback v
  end.

(** Call the completion callback in the slot with an error string, or
    with null when there is no error, and empty the slot. *)
Definition sendWifiCompletionCB (g_jsCallback : CallbackSlot) (reason : option string)
  : M unit :=
  cb <- read_slot g_jsCallback ;;
  if negb (jsvIsFunction cb) then ret tt
  else
    let param := match reason with
                 | Some r => jsvNewFromString (c_str r)
                 | None => JsNull
                 end in
    jsiQueueEvents cb [param] ;;
    write_slot g_jsCallback None.

(** Wifi event handler. *)
Definition event_handler (env : Env) (event : system_event_t) : M esp_err_t :=
  match event with
  | EV_STA_DISCONNECTED info =>
      cb <- gets g_jsDisconnectCallback ;;
      (if jsvIsFunction cb then
         jsiQueueEvents cb [] ;;
         set_g_jsDisconnectCallback None
       else ret tt) ;;
      let jsDetails := jsvNewObject in
      (* memcpy(temp, ssid, 32); temp[32] = '\0'; *)
      let temp := (memcpy (disconnected_ssid info) 32 ++ [NUL])%list in
      let jsDetails := setChild "ssid" (jsvNewFromString temp) jsDetails in
      let temp := c_str (fmt_MAC (disconnected_bssid info)) in
      let jsDetails := setChild "mac" (jsvNewFromString temp) jsDetails in
      let temp := c_str (fmt_d (disconnected_reason info)) in
      let jsDetails := setChild "reason" (jsvNewFromString temp) jsDetails in
      sendWifiEvent env (event_id event) (JsObject jsDetails) ;;
      ret ESP_OK
  | EV_STA_CONNECTED info =>
      let jsDetails := jsvNewObject in
      let temp := (memcpy (connected_ssid info) 32 ++ [NUL])%list in
      let jsDetails := setChild "ssid" (jsvNewFromString temp) jsDetails in
      let temp := c_str (fmt_MAC (connected_bssid info)) in
      let jsDetails := setChild "mac" (jsvNewFromString temp) jsDetails in
      let temp := c_str (fmt_d (connected_channel info)) in
      let jsDetails := setChild "channel" (jsvNewFromString temp) jsDetails in
      sendWifiEvent env (event_id event) (JsObject jsDetails) ;;
      ret ESP_OK
  | EV_STA_GOT_IP info =>
      sendWifiCompletionCB GotIpSlot None ;;
      let jsDetails := jsvNewObject in
      let temp := c_str (fmt_IP (ip (ip_info info))) in
      let jsDetails := setChild "ip" (jsvNewFromString temp) jsDetails in
      let temp := c_str (fmt_IP (netmask (ip_info info))) in
      let jsDetails := setChild "netmask" (jsvNewFromString temp) jsDetails in
      let temp := c_str (fmt_IP (gw (ip_info info))) in
      let jsDetails := setChild "gw" (jsvNewFromString temp) jsDetails in
      sendWifiEvent env (event_id event) (JsObject jsDetails) ;;
      ret ESP_OK
  | EV_SCAN_DONE =>
      scanCB env ;;
      ret ESP_OK
  | EV_plain _ => ret ESP_OK
  end.

(** Wifi.disconnect(callback) *)
Definition jswrap_ESP32_wifi_disconnect (env : Env) (jsCallback : JsVarRef) : M unit :=
  (* Free any existing callback, then register new callback *)
  set_g_jsDisconnectCallback None ;;
  (* Check that the callback is a good callback if supplied. *)
  if notNULL jsCallback && negb (jsvIsUndefined jsCallback) && negb (jsvIsFunction jsCallback)
  then EXPECT_CB_EXCEPTION jsCallback
  else
    (* Save the callback for later execution. *)
    set_g_jsDisconnectCallback (jsvLockAgainSafe jsCallback) ;;
    (* Call the ESP-IDF to disconnect us from the access point. *)
    esp_wifi_disconnect env ;;
    ret tt.

(** Wifi.connect(ssid, options, callback) *)
Definition jswrap_ESP32_wifi_connect (env : Env) (jsSsid jsOptions jsCallback : JsVarRef)
  : M unit :=
  (* Check that the ssid value isn't obviously in error. *)
  if negb (jsvIsString jsSsid) then jsExceptionHere "No SSID provided" []
  else
    (* char ssid[33]; len = jsvGetString(jsSsid, ssid, sizeof(ssid)-1); ssid[len]='\0'; *)
    let ssid := jsvGetString jsSsid 32 in
    (* Make sure jsOptions is NULL or an object *)
    if notNULL jsOptions && negb (jsvIsObject jsOptions) then EXPECT_OPT_EXCEPTION jsOptions
    else
      (* Check callback *)
      set_g_jsGotIpCallback None ;;
      if notNULL jsCallback && negb (jsvIsUndefined jsCallback)
         && negb (jsvIsFunction jsCallback)
      then EXPECT_CB_EXCEPTION jsCallback
      else
        (* Clear disconnect callback to prevent disconnection from disabling
           station mode *)
        set_g_jsDisconnectCallback None ;;
        (* Get the optional password *)
        let jsPassword :=
          if notNULL jsOptions then jsvObjectGetChild jsOptions "password" else None in
        if notNULL jsOptions && notNULL jsPassword && negb (jsvIsString jsPassword)
        then jsExceptionHere "Expecting options.password to be a string but got %t"
                             [jsPassword]
        else
          let password :=
            if notNULL jsOptions && notNULL jsPassword
            then jsvGetString jsPassword 64 else [] in
          (* Perform an esp_wifi_set_mode *)
          err <- esp_wifi_set_mode env WIFI_MODE_STA ;;
          if negb (Z.eqb err ESP_OK)
          then ESP_LOGE "jswrap_ESP32_wifi_connect: esp_wifi_set_mode: %d" (LogStatus err)
          else
            (* Perform a an esp_wifi_set_config *)
            err <- esp_wifi_set_config env WIFI_IF_STA ssid password false ;;
            if negb (Z.eqb err ESP_OK)
            then ESP_LOGE "jswrap_ESP32_wifi_connect: esp_wifi_set_config: %d"
                          (LogStatus err)
            else
              (* Perform an esp_wifi_start *)
              err <- esp_wifi_start env ;;
              if negb (Z.eqb err ESP_OK)
              then ESP_LOGE "jswrap_ESP32_wifi_connect: esp_wifi_start: %d" (LogStatus err)
              else
                (* Save the callback for later execution. *)
                set_g_jsGotIpCallback (jsvLockAgainSafe jsCallback) ;;
                (* Perform an esp_wifi_connect *)
                err <- esp_wifi_connect env ;;
                if negb (Z.eqb err ESP_OK)
                then ESP_LOGE "jswrap_ESP32_wifi_connect: esp_wifi_connect: %d"
                              (LogStatus err)
                else ret tt.

(** Wifi.scan(callback) *)
Definition jswrap_ESP32_wifi_scan (env : Env) (jsCallback : JsVarRef) : M unit :=
  (* If we have a saved scan callback function we must be scanning already *)
  cb <- gets g_jsScanCallback ;;
  if notNULL cb then jsExceptionHere "A scan is already in progress." []
  else
    (* Check and save callback *)
    if negb (jsvIsFunction jsCallback) then EXPECT_CB_EXCEPTION jsCallback
    else
      set_g_jsScanCallback (jsvLockAgainSafe jsCallback) ;;
      err <- esp_wifi_set_mode env WIFI_MODE_STA ;;
      if negb (Z.eqb err ESP_OK)
      then ESP_LOGE "jswrap_ESP32_wifi_scan: esp_wifi_set_mode: %d" (LogStatus err)
      else
        (* Perform an esp_wifi_start *)
        err <- esp_wifi_start env ;;
        if negb (Z.eqb err ESP_OK)
        then ESP_LOGE "jswrap_ESP32_wifi_connect: esp_wifi_start: %d" (LogStatus err)
        else
          (* Don't block for scan. *)
          esp_wifi_scan_start env true false ;;
          ret tt.

(** Wifi.getDetails(callback).  [buf] is the bounded copy the source
    prepares; the string values are built from the pointers the source
    passes to jsvNewFromString. *)
Definition jswrap_ESP32_wifi_getDetails (env : Env) (jsCallback : JsVarRef) : M JsVarRef :=
  (* Check callback *)
  if notNULL jsCallback && negb (jsvIsNull jsCallback) && negb (jsvIsFunction jsCallback)
  then EXPECT_CB_EXCEPTION jsCallback ;; ret None
  else
    let jsDetails := jsvNewObject in
    config <- esp_wifi_get_sta_config env ;;
    let at_ssid := (sta_ssid config ++ sta_password config ++ sta_after_password config)%list in
    let at_password := (sta_password config ++ sta_after_password config)%list in
    (* strncpy(buf, (char * )config.ssid, 32); buf[32] = 0; *)
    let buf := (strncpy at_ssid 32 ++ [NUL])%list in
    let jsDetails := setChild "ssid" (jsvNewFromString buf) jsDetails in
    (* strncpy(buf, (char * )config.password, 64); buf[64] = 0; *)
    let buf := (strncpy at_password 64 ++ [NUL])%list in
    (* jsvNewFromString((char * )config.password) *)
    let jsDetails := setChild "password" (jsvNewFromString at_password) jsDetails in
    (* Schedule callback if a function was provided *)
    (if jsvIsFunction jsCallback
     then jsiQueueEvents jsCallback [JsObject jsDetails]
     else ret tt) ;;
    ret (Some (JsObject jsDetails)).

(** Wifi.getAPDetails(callback) *)
Definition jswrap_ESP32_wifi_getAPDetails (env : Env) (jsCallback : JsVarRef)
  : M JsVarRef :=
  (* Check callback *)
  if notNULL jsCallback && negb (jsvIsNull jsCallback) && negb (jsvIsFunction jsCallback)
  then EXPECT_CB_EXCEPTION jsCallback ;; ret None
  else
    let jsDetails := jsvNewObject in
    config <- esp_wifi_get_ap_config env ;;
    let authModeStr :=
      match apc_authmode config with
      | WIFI_AUTH_OPEN => "open"
      | WIFI_AUTH_WEP => "wep"
      | WIFI_AUTH_WPA2_PSK => "wpa2"
      | WIFI_AUTH_WPA_PSK => "wpa"
      | WIFI_AUTH_WPA_WPA2_PSK => "wpa_wpa2"
      | WIFI_AUTH_other _ => "unknown"
      end in
    let jsDetails := setChild "authMode" (jsvNewFromString (c_str authModeStr)) jsDetails in
    let jsDetails :=
      setChild "hidden" (JsBool (negb (Z.eqb (apc_ssid_hidden config) 0))) jsDetails in
    let jsDetails :=
      setChild "maxConn" (JsInteger (apc_max_connection config)) jsDetails in
    let at_ssid := (apc_ssid config ++ apc_password config ++ apc_after_password config)%list in
    let at_password := (apc_password config ++ apc_after_password config)%list in
    (* strncpy(buf, (char * )config.ssid, 32); buf[32] = 0; *)
    let buf := (strncpy at_ssid 32 ++ [NUL])%list in
    let jsDetails := setChild "ssid" (jsvNewFromString buf) jsDetails in
    (* strncpy(buf, (char * )config.password, 64); buf[64] = 0; *)
    let buf := (strncpy at_password 64 ++ [NUL])%list in
    (* jsvNewFromString((char * )config.password) *)
    let jsDetails := setChild "password" (jsvNewFromString at_password) jsDetails in
    (* Schedule callback if a function was provided *)
    (if jsvIsFunction jsCallback
     then jsiQueueEvents jsCallback [JsObject jsDetails]
     else ret tt) ;;
    ret (Some (JsObject jsDetails)).

(* ================================================================== *)
(** ** The vocabulary of the statements, and concrete inputs *)

(** *** C strings and scan records *)

Definition nonNUL (b : byte) : Prop := b <> NUL.

(** The ssid string of the record that scanCB builds for an access point. *)
Definition scan_record_ssid (r : wifi_ap_record_t) : JsVarRef :=
  jsvObjectGetChild (Some (scan_record r)) "ssid".

(** The authMode string of the record that scanCB builds. *)
Definition scan_record_authMode (r : wifi_ap_record_t) : JsVarRef :=
  jsvObjectGetChild (Some (scan_record r)) "authMode".

(** *** Authentication-mode names *)

(** The short name the interface documents for an authentication mode:
    open, wep, wpa, wpa2, wpa_wpa2, and unknown for anything else. *)
Definition documented_short_name (a : wifi_auth_mode_t) : string :=
  match a with
  | WIFI_AUTH_OPEN => "open"
  | WIFI_AUTH_WEP => "wep"
  | WIFI_AUTH_WPA_PSK => "wpa"
  | WIFI_AUTH_WPA2_PSK => "wpa2"
  | WIFI_AUTH_WPA_WPA2_PSK => "wpa_wpa2"
  | WIFI_AUTH_other _ => "unknown"
  end.

(** The value an operation returns, NULL if it was aborted. *)
Definition returned {A} (o : Outcome (option A)) : option A :=
  match o with
  | Done a _ => a
  | Aborted _ => None
  end.

(** The world an operation leaves behind. *)
Definition world_after {A} (o : Outcome A) : World :=
  match o with
  | Done _ w => w
  | Aborted w => w
  end.

(** An access point without encryption, as a scan reports it. *)
Definition open_access_point : wifi_ap_record_t :=
  {| ap_ssid := (list_byte_of_string "cafe" ++ repeat NUL 28)%list;
     ap_rssi := -52;
     ap_authmode := WIFI_AUTH_OPEN |}.

(** *** Decoding the stored ssid and password *)

(** A station configuration whose password fills its 64-byte field (a
    pre-shared key of 64 hexadecimal digits), followed in memory by the
    bssid_set flag, the bssid and a zero byte. *)
Definition sta_config_full_password : wifi_sta_config_t :=
  {| sta_ssid := (list_byte_of_string "home" ++ repeat NUL 28)%list;
     sta_password := repeat "a"%byte 64;
     sta_after_password := [x01; x5c; xcf; x7f; x01; x02; x03; x00] |}.

(** An access-point configuration whose password fills its field,
    followed in memory by ssid_len and the channel. *)
Definition ap_config_full_password : wifi_ap_config_t :=
  {| apc_ssid := (list_byte_of_string "espruino" ++ repeat NUL 24)%list;
     apc_password := repeat "b"%byte 64;
     apc_after_password := [x08; x06; x00];
     apc_authmode := WIFI_AUTH_WPA2_PSK;
     apc_ssid_hidden := 0;
     apc_max_connection := 4 |}.

(** Every status a success, the configurations above stored, no scan
    results, and the Wifi module present. *)
Definition env_ok : Env :=
  {| r_esp_wifi_set_mode := ESP_OK;
     r_esp_wifi_set_config := ESP_OK;
     r_esp_wifi_start := ESP_OK;
     r_esp_wifi_connect := ESP_OK;
     r_esp_wifi_disconnect := ESP_OK;
     r_esp_wifi_scan_start := ESP_OK;
     r_esp_wifi_scan_get_ap_num := (ESP_OK, 0%nat);
     r_esp_wifi_scan_get_ap_records := (ESP_OK, []);
     r_sta_config := sta_config_full_password;
     r_ap_config := ap_config_full_password;
     r_require_Wifi := Some (JsObject []) |}.

(** The world at start-up: no callback pending, nothing observed yet. *)
Definition world0 : World :=
  {| g_jsDisconnectCallback := None;
     g_jsGotIpCallback := None;
     g_jsScanCallback := None;
     queue := []; exceptions := []; vendor_calls := []; esp_log := [] |}.

(** *** Pending callbacks: the guards of the public operations *)

(** The three pending-callback slots are as they were. *)
Definition slots_unchanged (w w' : World) : Prop :=
  g_jsDisconnectCallback w' = g_jsDisconnectCallback w /\
  g_jsGotIpCallback w' = g_jsGotIpCallback w /\
  g_jsScanCallback w' = g_jsScanCallback w.

(** The operation raised exactly this error. *)
Definition raised (w w' : World) (format : string) (args : list JsVarRef) : Prop :=
  exceptions w' = (exceptions w ++ [{| exc_format := format; exc_args := args |}])%list.

(** The operation made exactly these vendor calls, in this order. *)
Definition vendor_called (w w' : World) (calls : list VendorCall) : Prop :=
  vendor_calls w' = (vendor_calls w ++ calls)%list.

(** The operation logged exactly these lines. *)
Definition logged (w w' : World) (lines : list LogLine) : Prop :=
  esp_log w' = (esp_log w ++ lines)%list.

(** The operation queued exactly these events. *)
Definition queued (w w' : World) (events : list QueuedEvent) : Prop :=
  queue w' = (queue w ++ events)%list.

Definition error_line (format : string) (err : esp_err_t) : LogLine :=
  {| log_level := LOG_ERROR; log_format := format; log_arg := LogStatus err |}.

(** A callback argument that is there but cannot be invoked. *)
Definition bad_callback (jsCallback : JsVarRef) : Prop :=
  jsCallback <> None /\ jsvIsFunction jsCallback = false.

(** Worlds with one callback pending and nothing observed yet. *)
Definition world_disconnect_pending (cb : JsVar) : World :=
  {| g_jsDisconnectCallback := Some cb; g_jsGotIpCallback := None;
     g_jsScanCallback := None;
     queue := []; exceptions := []; vendor_calls := []; esp_log := [] |}.

Definition world_scan_pending (cb : JsVar) : World :=
  {| g_jsDisconnectCallback := None; g_jsGotIpCallback := None;
     g_jsScanCallback := Some cb;
     queue := []; exceptions := []; vendor_calls := []; esp_log := [] |}.

(** The arguments pass every check of connect: the ssid is a string, the
    options are absent or an object whose password is absent or a string,
    and the callback is absent or a function. *)
Definition connect_accepts (jsSsid jsOptions jsCallback : JsVarRef) : bool :=
  jsvIsString jsSsid &&
  (negb (notNULL jsOptions) || jsvIsObject jsOptions) &&
  (negb (notNULL jsCallback) || jsvIsFunction jsCallback) &&
  (negb (notNULL (jsvObjectGetChild jsOptions "password"))
   || jsvIsString (jsvObjectGetChild jsOptions "password")).

(** The configuration connect hands to esp_wifi_set_config. *)
Definition connect_set_config_call (jsSsid jsOptions : JsVarRef) : VendorCall :=
  esp_wifi_set_config_call WIFI_IF_STA
    (jsvGetString jsSsid 32)
    (if notNULL (jsvObjectGetChild jsOptions "password")
     then jsvGetString (jsvObjectGetChild jsOptions "password") 64 else [])
    false.

(** *** Vendor failures during connect and scan *)

Definition set_mode_line := error_line "jswrap_ESP32_wifi_connect: esp_wifi_set_mode: %d".
Definition set_config_line := error_line "jswrap_ESP32_wifi_connect: esp_wifi_set_config: %d".
Definition start_line := error_line "jswrap_ESP32_wifi_connect: esp_wifi_start: %d".
Definition connect_line := error_line "jswrap_ESP32_wifi_connect: esp_wifi_connect: %d".
Definition scan_set_mode_line := error_line "jswrap_ESP32_wifi_scan: esp_wifi_set_mode: %d".

(** The operation raised no error. *)
Definition raised_nothing (w w' : World) : Prop := exceptions w' = exceptions w.

Definition ESP_FAIL : esp_err_t := -1.

(** [env_ok] with other statuses for the four calls of connect. *)
Definition env_with_status (set_mode set_config start connect : esp_err_t) : Env :=
  {| r_esp_wifi_set_mode := set_mode;
     r_esp_wifi_set_config := set_config;
     r_esp_wifi_start := start;
     r_esp_wifi_connect := connect;
     r_esp_wifi_disconnect := r_esp_wifi_disconnect env_ok;
     r_esp_wifi_scan_start := r_esp_wifi_scan_start env_ok;
     r_esp_wifi_scan_get_ap_num := r_esp_wifi_scan_get_ap_num env_ok;
     r_esp_wifi_scan_get_ap_records := r_esp_wifi_scan_get_ap_records env_ok;
     r_sta_config := r_sta_config env_ok;
     r_ap_config := r_ap_config env_ok;
     r_require_Wifi := r_require_Wifi env_ok |}.

Definition env_set_config_fails : Env := env_with_status ESP_OK ESP_FAIL ESP_OK ESP_OK.
Definition env_connect_fails : Env := env_with_status ESP_OK ESP_OK ESP_OK ESP_FAIL.
Definition env_set_mode_fails : Env := env_with_status ESP_FAIL ESP_OK ESP_OK ESP_OK.

Definition myssid : JsVarRef := Some (JsString "myssid").
Definition secret_options : JsVarRef := Some (JsObject [("password", JsString "secret")]).

(** *** Event dispatch *)

(** The record published with the connected event. *)
Definition connected_details (info : system_event_sta_got_ip_t) : JsVar :=
  JsObject [("ip", jsvNewFromString (c_str (fmt_IP (ip (ip_info info)))));
            ("netmask", jsvNewFromString (c_str (fmt_IP (netmask (ip_info info)))));
            ("gw", jsvNewFromString (c_str (fmt_IP (gw (ip_info info)))))].

(** What sendWifiEvent queues for an event name and its details. *)
Definition published (env : Env) (name : string) (details : JsVar) : list QueuedEvent :=
  match r_require_Wifi env with
  | Some wifi => [QueueObjectCallbacks wifi name [details]]
  | None => []
  end.

(** The invocation queued when a slot is resolved: none unless the slot
    holds a function. *)
Definition resolved (slot : JsVarRef) (args : list JsVar) : list QueuedEvent :=
  match slot with
  | Some (JsFunction f) => [QueueEvents (JsFunction f) args]
  | _ => []
  end.

Definition after_resolution (slot : JsVarRef) : JsVarRef :=
  if jsvIsFunction slot then None else slot.

(** The record published with the disconnected event. *)
Definition disconnected_details (info : system_event_sta_disconnected_t) : JsVar :=
  JsObject [("ssid", jsvNewFromString (memcpy (disconnected_ssid info) 32 ++ [NUL])%list);
            ("mac", jsvNewFromString (c_str (fmt_MAC (disconnected_bssid info))));
            ("reason", jsvNewFromString (c_str (fmt_d (disconnected_reason info))))].

(** The vendor hands over the scan results without an error. *)
Definition scan_fetch_ok (env : Env) : Prop :=
  fst (r_esp_wifi_scan_get_ap_num env) = ESP_OK /\
  ((0 < snd (r_esp_wifi_scan_get_ap_num env))%nat ->
   fst (r_esp_wifi_scan_get_ap_records env) = ESP_OK).

(** The array scanCB builds from the vendor's answer. *)
Definition scan_results (env : Env) : list JsVar :=
  let apCount := snd (r_esp_wifi_scan_get_ap_num env) in
  if (0 <? apCount)%nat
  then scan_loop (firstn apCount (snd (r_esp_wifi_scan_get_ap_records env))) []
  else [].

(** *** connect followed by the got-IP event *)

(** The got-IP event with ip 192.168.1.5, netmask 255.255.255.0 and
    gateway 192.168.1.1. *)
Definition got_ip_info : system_event_sta_got_ip_t :=
  {| ip_info := {| ip := IP4_ADDR 192 168 1 5;
                   netmask := IP4_ADDR 255 255 255 0;
                   gw := IP4_ADDR 192 168 1 1 |} |}.

Definition got_ip_event : system_event_t := EV_STA_GOT_IP got_ip_info.

(** *** Resolution consumes the slot *)

(** The three kinds of pending callback. *)
Inductive PendingKind := OnDisconnect | OnGotIp | OnScanDone.

Definition slot_of (k : PendingKind) (w : World) : JsVarRef :=
  match k with
  | OnDisconnect => g_jsDisconnectCallback w
  | OnGotIp => g_jsGotIpCallback w
  | OnScanDone => g_jsScanCallback w
  end.

(** The event kind that resolves a pending callback of kind [k]. *)
Definition resolves (k : PendingKind) (e : system_event_t) : Prop :=
  match k, e with
  | OnDisconnect, EV_STA_DISCONNECTED _ => True
  | OnGotIp, EV_STA_GOT_IP _ => True
  | OnScanDone, EV_SCAN_DONE => True
  | _, _ => False
  end.

(** The callback invocations in a queue, oldest first: callback and
    arguments.  Published events are not invocations of a callback. *)
Definition invocations (q : list QueuedEvent) : list (JsVar * list JsVar) :=
  flat_map (fun e => match e with
                     | QueueEvents callback args => [(callback, args)]
                     | QueueObjectCallbacks _ _ _ => []
                     end) q.

(** A scan that found two access points. *)
Definition wpa2_access_point : wifi_ap_record_t :=
  {| ap_ssid := repeat "x"%byte 32;
     ap_rssi := -71;
     ap_authmode := WIFI_AUTH_WPA2_PSK |}.

Definition env_two_access_points : Env :=
  {| r_esp_wifi_set_mode := ESP_OK;
     r_esp_wifi_set_config := ESP_OK;
     r_esp_wifi_start := ESP_OK;
     r_esp_wifi_connect := ESP_OK;
     r_esp_wifi_disconnect := ESP_OK;
     r_esp_wifi_scan_start := ESP_OK;
     r_esp_wifi_scan_get_ap_num := (ESP_OK, 2%nat);
     r_esp_wifi_scan_get_ap_records := (ESP_OK, [open_access_point; wpa2_access_point]);
     r_sta_config := sta_config_full_password;
     r_ap_config := ap_config_full_password;
     r_require_Wifi := Some (JsObject []) |}.

(** *** disconnect followed by connect *)

(** Events delivered one after the other, each with what the
    collaborators answer at that time; an abort ends the run. *)
Fixpoint dispatch_all (events : list (Env * system_event_t)) (w : World) : World :=
  match events with
  | [] => w
  | (env, e) :: rest =>
      match event_handler env e w with
      | Done _ w' => dispatch_all rest w'
      | Aborted w' => w'
      end
  end.

(** A slot after an event: emptied, or as it was. *)
Definition emptied_or_kept (before after : JsVarRef) : Prop :=
  after = None \/ after = before.

(** The callback sits in one of the three slots. *)
Definition pending (w : World) (callback : JsVar) : Prop :=
  g_jsDisconnectCallback w = Some callback \/
  g_jsGotIpCallback w = Some callback \/
  g_jsScanCallback w = Some callback.

(** Every invocation among the events is of a callback pending in [w]. *)
Definition invoke_pending_only (w : World) (events : list QueuedEvent) : Prop :=
  forall callback args, In (QueueEvents callback args) events -> pending w callback.

(** The record published with the associated event. *)
Definition associated_details (info : system_event_sta_connected_t) : JsVar :=
  JsObject [("ssid", jsvNewFromString (memcpy (connected_ssid info) 32 ++ [NUL])%list);
            ("mac", jsvNewFromString (c_str (fmt_MAC (connected_bssid info))));
            ("channel", jsvNewFromString (c_str (fmt_d (connected_channel info))))].

Definition the_ssid : JsVarRef := Some (JsString "ssid").

(* ================================================================== *)
(** ** The query operations: status and IP information *)

(** The operation mode esp_wifi_get_mode stores: one of the four modes the
    source names, or some other enumerator. *)
Inductive wifi_mode_value :=
| mode_named (mode : wifi_mode_t)
| mode_other (value : Z).

Inductive wifi_ps_type_t :=
| WIFI_PS_NONE
| WIFI_PS_MODEM
| WIFI_PS_LIGHT
| WIFI_PS_MAC
| WIFI_PS_other (value : Z).

Inductive tcpip_adapter_if_t :=
| TCPIP_ADAPTER_IF_STA
| TCPIP_ADAPTER_IF_AP
| TCPIP_ADAPTER_IF_ETH.

(** The read-only queries of the SDK made by getStatus and getIPInfo. *)
Inductive QueryCall :=
| esp_wifi_get_mode_call
| esp_wifi_get_ps_call
| tcpip_adapter_get_ip_info_call (tcpip_if : tcpip_adapter_if_t)
| esp_wifi_get_mac_call (ifx : wifi_interface_t).

(** What the SDK answers to these queries. *)
Record QueryEnv := {
  r_esp_wifi_get_mode : wifi_mode_value;
  r_esp_wifi_get_ps : wifi_ps_type_t;
  r_tcpip_adapter_get_ip_info : tcpip_adapter_if_t -> esp_err_t * tcpip_adapter_ip_info_t;
  r_esp_wifi_get_mac : wifi_interface_t -> list byte      (* uint8_t[6] *)
}.

(** The world together with the queries made so far, oldest first. *)
Record Host := {
  world : World;
  queries : list QueryCall
}.

(** State passing over [Host]; the query operations never abort. *)
Definition Q (A : Type) : Type := Host -> A * Host.

Definition qret {A} (a : A) : Q A := fun h => (a, h).

Definition qbind {A B} (m : Q A) (k : A -> Q B) : Q B :=
  fun h => let (a, h') := m h in k a h'.

Declare Scope q_scope.
Delimit Scope q_scope with q.
Notation "x <- m ;; k" := (qbind m (fun x => k))
  (at level 61, m at next level, right associativity) : q_scope.
Notation "m ;; k" := (qbind m (fun _ => k))
  (at level 61, right associativity) : q_scope.

(** An effect on the world (raising an error, queueing an event) seen
    from [Q]. *)
Definition in_world (m : M unit) : Q unit :=
  fun h => (tt, {| world := world_after (m (world h)); queries := queries h |}).

Definition query (c : QueryCall) : Q unit :=
  fun h => (tt, {| world := world h; queries := (queries h ++ [c])%list |}).

Definition esp_wifi_get_mode (q : QueryEnv) : Q wifi_mode_value :=
  (query esp_wifi_get_mode_call ;; qret (r_esp_wifi_get_mode q))%q.

Definition esp_wifi_get_ps (q : QueryEnv) : Q wifi_ps_type_t :=
  (query esp_wifi_get_ps_call ;; qret (r_esp_wifi_get_ps q))%q.

Definition tcpip_adapter_get_ip_info (q : QueryEnv) (tcpip_if : tcpip_adapter_if_t)
  : Q (esp_err_t * tcpip_adapter_ip_info_t) :=
  (query (tcpip_adapter_get_ip_info_call tcpip_if) ;;
   qret (r_tcpip_adapter_get_ip_info q tcpip_if))%q.

Definition esp_wifi_get_mac (q : QueryEnv) (ifx : wifi_interface_t) : Q (list byte) :=
  (query (esp_wifi_get_mac_call ifx) ;; qret (r_esp_wifi_get_mac q ifx))%q.

(** Modelled from the spec: networkGetAddressAsString(ip, 4, 10, '.')
    (network.h) gives the four bytes of the address, in memory order, as
    a dotted-decimal string. *)
Definition networkGetAddressAsString (addr : ip4_addr_t) : JsVar :=
  JsString (fmt_IP addr).

(** Wifi.getStatus(callback); the callback is not used. *)
Definition jswrap_ESP32_wifi_getStatus (q : QueryEnv) (jsCallback : JsVarRef) : Q JsVarRef :=
  (mode <- esp_wifi_get_mode q ;;
   let modeStr :=
     match mode with
     | mode_named WIFI_MODE_NULL => "off"
     | mode_named WIFI_MODE_AP => "ap"
     | mode_named WIFI_MODE_STA => "sta"
     | mode_named WIFI_MODE_APSTA => "sta+ap"
     | mode_other _ => "unknown"
     end in
   psType <- esp_wifi_get_ps q ;;
   let psTypeStr :=
     match psType with
     | WIFI_PS_LIGHT => "light"
     | WIFI_PS_MAC => "mac"
     | WIFI_PS_MODEM => "modem"
     | WIFI_PS_NONE => "none"
     | WIFI_PS_other _ => "unknown"
     end in
   let jsWiFiStatus := jsvNewObject in
   let jsWiFiStatus := setChild "mode" (jsvNewFromString (c_str modeStr)) jsWiFiStatus in
   let jsWiFiStatus :=
     setChild "powersave" (jsvNewFromString (c_str psTypeStr)) jsWiFiStatus in
   qret (Some (JsObject jsWiFiStatus)))%q.

(** Get the ip info for the given interface. *)
Definition getIPInfo (q : QueryEnv) (jsCallback : JsVarRef) (interface : tcpip_adapter_if_t)
  : Q JsVarRef :=
  (* Check callback *)
  if notNULL jsCallback && negb (jsvIsNull jsCallback) && negb (jsvIsFunction jsCallback)
  then (in_world (EXPECT_CB_EXCEPTION jsCallback) ;; qret None)%q
  else
    ((* first get IP address info, this may fail if we're not connected *)
     info <- tcpip_adapter_get_ip_info q interface ;;
     let err := fst info in
     let ipInfo := snd info in
     let jsIpInfo := jsvNewObject in
     let jsIpInfo :=
       if Z.eqb err ESP_OK then
         let jsIpInfo := setChild "ip" (networkGetAddressAsString (ip ipInfo)) jsIpInfo in
         let jsIpInfo :=
           setChild "netmask" (networkGetAddressAsString (netmask ipInfo)) jsIpInfo in
         setChild "gw" (networkGetAddressAsString (gw ipInfo)) jsIpInfo
       else jsIpInfo in
     (* now get MAC address (which always succeeds) *)
     macAddr <- esp_wifi_get_mac q
                  (match interface with
                   | TCPIP_ADAPTER_IF_STA => WIFI_IF_STA
                   | _ => WIFI_IF_AP
                   end) ;;
     let jsIpInfo :=
       setChild "mac" (jsvNewFromString (c_str (fmt_MAC macAddr))) jsIpInfo in
     (* Schedule callback if a function was provided *)
     (if jsvIsFunction jsCallback
      then in_world (jsiQueueEvents jsCallback [JsObject jsIpInfo])
      else qret tt) ;;
     qret (Some (JsObject jsIpInfo)))%q.

(** Wifi.getIP(callback) *)
Definition jswrap_ESP32_wifi_getIP (q : QueryEnv) (jsCallback : JsVarRef) : Q JsVarRef :=
  getIPInfo q jsCallback TCPIP_ADAPTER_IF_STA.

(** Wifi.getAPIP(callback) *)
Definition jswrap_ESP32_wifi_getAPIP (q : QueryEnv) (jsCallback : JsVarRef) : Q JsVarRef :=
  getIPInfo q jsCallback TCPIP_ADAPTER_IF_AP.

(* ================================================================== *)
(** ** Further vocabulary *)

(** A slot holds nothing or a function. *)
Definition empty_or_function (slot : JsVarRef) : Prop :=
  slot = None \/ jsvIsFunction slot = true.

(** Every slot holds nothing or a function. *)
Definition slots_hold_functions (w : World) : Prop :=
  empty_or_function (g_jsDisconnectCallback w) /\
  empty_or_function (g_jsGotIpCallback w) /\
  empty_or_function (g_jsScanCallback w).

(** A callback argument a query operation takes for "none given": NULL
    or the null value. *)
Definition no_callback (jsCallback : JsVarRef) : Prop :=
  jsCallback = None \/ jsCallback = Some JsNull.

(** A callback argument a query operation refuses. *)
Definition refused_callback (jsCallback : JsVarRef) : Prop :=
  jsCallback <> None /\ jsCallback <> Some JsNull /\ jsvIsFunction jsCallback = false.

(** The names event_handler publishes events under. *)
Definition published_names : list string :=
  ["#ondisconnected"; "#onassociated"; "#onconnected"].

(** The scan results could not be had from the vendor. *)
Definition scan_fetch_fails (env : Env) : Prop :=
  fst (r_esp_wifi_scan_get_ap_num env) <> ESP_OK \/
  ((0 < snd (r_esp_wifi_scan_get_ap_num env))%nat /\
   fst (r_esp_wifi_scan_get_ap_records env) <> ESP_OK).

(** The SDK's answers used in the examples: station mode, modem power
    save, the station interface with an address and the access-point
    interface without one. *)
Definition query_env_example : QueryEnv :=
  {| r_esp_wifi_get_mode := mode_named WIFI_MODE_STA;
     r_esp_wifi_get_ps := WIFI_PS_MODEM;
     r_tcpip_adapter_get_ip_info := fun tcpip_if =>
       match tcpip_if with
       | TCPIP_ADAPTER_IF_STA =>
           (ESP_OK, {| ip := IP4_ADDR 192 168 1 5;
                       netmask := IP4_ADDR 255 255 255 0;
                       gw := IP4_ADDR 192 168 1 1 |})
       | _ => (ESP_FAIL, {| ip := 0; netmask := 0; gw := 0 |})
       end;
     r_esp_wifi_get_mac := fun ifx =>
       match ifx with
       | WIFI_IF_STA => [x24; x0a; xc4; x00; x11; x22]
       | WIFI_IF_AP => [x24; x0a; xc4; x00; x11; x23]
       end |}.

Definition host0 : Host := {| world := world0; queries := [] |}.

(** The world after an event, given what became of the three slots, the
    events queued and the vendor calls made; errors and log are as they
    were. *)
Definition after_event (w : World) (disconnectSlot gotIpSlot scanSlot : JsVarRef)
    (events : list QueuedEvent) (calls : list VendorCall) : World :=
  {| g_jsDisconnectCallback := disconnectSlot;
     g_jsGotIpCallback := gotIpSlot;
     g_jsScanCallback := scanSlot;
     queue := (queue w ++ events)%list;
     exceptions := exceptions w;
     vendor_calls := (vendor_calls w ++ calls)%list;
     esp_log := esp_log w |}.

(** The event ids wifiGetEvent has a name for. *)
Definition named_event_ids : list system_event_id_t :=
  [SYSTEM_EVENT_AP_PROBEREQRECVED; SYSTEM_EVENT_AP_STACONNECTED;
   SYSTEM_EVENT_AP_STADISCONNECTED; SYSTEM_EVENT_STA_AUTHMODE_CHANGE;
   SYSTEM_EVENT_STA_CONNECTED; SYSTEM_EVENT_STA_DISCONNECTED;
   SYSTEM_EVENT_STA_GOT_IP].

Definition warning_line (id : system_event_id_t) : LogLine :=
  {| log_level := LOG_WARN; log_format := "Unhandled event type: %d";
     log_arg := LogEventId id |}.

(** How a query operation of the world treats its callback argument.
    Refused: the error is raised, NULL is returned, the vendor is not
    asked.  None given: the result is returned and nothing is queued.  A
    function: one invocation is queued, with the returned object as its
    single argument.  The three slots are never touched. *)
Definition callback_contract (op : JsVarRef -> M JsVarRef) (call : VendorCall) : Prop :=
  forall (jsCallback : JsVarRef) (w : World),
    (refused_callback jsCallback ->
     exists w',
       op jsCallback w = Done None w' /\
       raised w w' "Expecting callback function but got %v" [jsCallback] /\
       vendor_called w w' [] /\
       queued w w' [] /\
       slots_unchanged w w') /\
    (no_callback jsCallback ->
     exists result w',
       op jsCallback w = Done (Some result) w' /\
       queued w w' [] /\
       vendor_called w w' [call] /\
       raised_nothing w w' /\
       slots_unchanged w w') /\
    (forall f,
     jsCallback = Some (JsFunction f) ->
     exists result w',
       op jsCallback w = Done (Some result) w' /\
       queued w w' [QueueEvents (JsFunction f) [result]] /\
       vendor_called w w' [call] /\
       raised_nothing w w' /\
       slots_unchanged w w').

(** A text without a NUL character: read back from a buffer as a C
    string, it is itself. *)
Definition plain_text (s : string) : Prop := Forall nonNUL (list_byte_of_string s).

(** The same, decided, together with bounds on the length. *)
Definition plain_text_of_length (lo hi : nat) (s : string) : bool :=
  (lo <=? String.length s)%nat && (String.length s <=? hi)%nat &&
  forallb (fun b => negb (isNUL b)) (list_byte_of_string s).

(** The wifi interface whose MAC address getIPInfo asks for. *)
Definition mac_interface (interface : tcpip_adapter_if_t) : wifi_interface_t :=
  match interface with
  | TCPIP_ADAPTER_IF_STA => WIFI_IF_STA
  | _ => WIFI_IF_AP
  end.

(** The address fields of the result of getIPInfo: there when the
    adapter reports its addresses, left out otherwise. *)
Definition address_fields (answer : esp_err_t * tcpip_adapter_ip_info_t)
  : list (string * JsVar) :=
  if Z.eqb (fst answer) ESP_OK
  then [("ip", JsString (fmt_IP (ip (snd answer))));
        ("netmask", JsString (fmt_IP (netmask (snd answer))));
        ("gw", JsString (fmt_IP (gw (snd answer))))]
  else [].

(** [env_ok] with a scan-start call that fails. *)
Definition env_scan_start_fails : Env :=
  {| r_esp_wifi_set_mode := ESP_OK;
     r_esp_wifi_set_config := ESP_OK;
     r_esp_wifi_start := ESP_OK;
     r_esp_wifi_connect := ESP_OK;
     r_esp_wifi_disconnect := ESP_OK;
     r_esp_wifi_scan_start := ESP_FAIL;
     r_esp_wifi_scan_get_ap_num := (ESP_OK, 0%nat);
     r_esp_wifi_scan_get_ap_records := (ESP_OK, []);
     r_sta_config := sta_config_full_password;
     r_ap_config := ap_config_full_password;
     r_require_Wifi := Some (JsObject []) |}.

(** [env_ok] with a vendor that refuses to tell the number of access
    points found. *)
Definition env_scan_count_fails : Env :=
  {| r_esp_wifi_set_mode := ESP_OK;
     r_esp_wifi_set_config := ESP_OK;
     r_esp_wifi_start := ESP_OK;
     r_esp_wifi_connect := ESP_OK;
     r_esp_wifi_disconnect := ESP_OK;
     r_esp_wifi_scan_start := ESP_OK;
     r_esp_wifi_scan_get_ap_num := (ESP_FAIL, 0%nat);
     r_esp_wifi_scan_get_ap_records := (ESP_OK, []);
     r_sta_config := sta_config_full_password;
     r_ap_config := ap_config_full_password;
     r_require_Wifi := Some (JsObject []) |}.

(* ================================================================== *)
(** * Properties *)

(** The usual end of a run: name the world reached, then read the
    observations off it. *)
Ltac observed :=
  eexists; split; [reflexivity|]; cbn;
  rewrite <- ?app_assoc, ?app_nil_r; repeat split.

(* ================================================================== *)
(** ** Formatted text *)

Example fmt_IP_example : fmt_IP (IP4_ADDR 192 168 1 5) = "192.168.1.5".
Proof. reflexivity. Qed.

Example fmt_MAC_example :
  fmt_MAC [x00; x1a; x2b; xff; x09; xc0] = "00:1a:2b:ff:09:c0".
Proof. reflexivity. Qed.

(* ================================================================== *)
(** ** Properties of C strings and bounded copies *)

Lemma isNUL_true b : isNUL b = true <-> b = NUL.
Proof. unfold isNUL. split; [apply Byte.byte_dec_bl | apply Byte.byte_dec_lb]. Qed.

Lemma isNUL_false b : isNUL b = false <-> nonNUL b.
Proof.
  unfold nonNUL. split; intro H.
  - intro E. apply isNUL_true in E. congruence.
  - destruct (isNUL b) eqn:E; [apply isNUL_true in E; contradiction | reflexivity].
Qed.

(** A buffer without NUL is its own C string, whatever terminator
    follows it. *)
Lemma cstring_nonNUL l tl :
  Forall nonNUL l -> cstring (l ++ NUL :: tl) = l.
Proof.
  induction 1 as [|b l Hb _ IH]; simpl.
  - reflexivity.
  - apply isNUL_false in Hb. rewrite Hb, IH. reflexivity.
Qed.

(** The C string ends at the first NUL. *)
Lemma cstring_first_NUL l k tl :
  nth_error l k = Some NUL -> Forall nonNUL (firstn k l) ->
  cstring (l ++ tl) = firstn k l.
Proof.
  revert l. induction k as [|k IH]; intros [|b l]; simpl; try discriminate.
  - intros [= ->] _. reflexivity.
  - intros Hk Hall. inversion Hall as [|? ? Hb Hl]; subst.
    apply isNUL_false in Hb. rewrite Hb, (IH l Hk Hl). reflexivity.
Qed.

(** strncpy followed by forced termination reads the source as a C
    string of at most [n] characters. *)
Lemma cstring_strncpy src n tl :
  cstring (strncpy src n ++ NUL :: tl) = cstring (firstn n src ++ [NUL]).
Proof.
  revert src. induction n as [|n IH]; intros src.
  - reflexivity.
  - destruct src as [|b rest].
    + reflexivity.
    + simpl. destruct (isNUL b) eqn:E.
      * reflexivity.
      * simpl. rewrite E, IH. reflexivity.
Qed.

Lemma length_string_of_list_byte l :
  String.length (string_of_list_byte l) = List.length l.
Proof.
  unfold string_of_list_byte.
  induction l as [|b l IH]; simpl; [reflexivity | now rewrite IH].
Qed.

Lemma scan_record_ssid_eq r :
  scan_record_ssid r =
  Some (JsString (string_of_list_byte (cstring (firstn 32 (ap_ssid r) ++ [NUL])))).
Proof.
  unfold scan_record_ssid, scan_record, jsvNewFromString, jsvNewObject.
  cbn -[cstring strncpy string_of_list_byte firstn].
  rewrite cstring_strncpy. reflexivity.
Qed.

(** C9. For every 32-byte SSID buffer of a scan result record: without a
    NUL byte the decoded ssid has exactly 32 characters, the bytes of the
    buffer; with the first NUL byte at position k < 32 it has exactly k
    characters, the first k bytes of the buffer. *)
Theorem scan_ssid_decoding (r : wifi_ap_record_t) :
  List.length (ap_ssid r) = 32%nat ->
  (Forall nonNUL (ap_ssid r) ->
   exists s, scan_record_ssid r = Some (JsString s) /\
             String.length s = 32%nat /\
             list_byte_of_string s = ap_ssid r) /\
  (forall k, (k < 32)%nat ->
   nth_error (ap_ssid r) k = Some NUL ->
   Forall nonNUL (firstn k (ap_ssid r)) ->
   exists s, scan_record_ssid r = Some (JsString s) /\
             String.length s = k /\
             list_byte_of_string s = firstn k (ap_ssid r)).
Proof.
  intros Hlen. rewrite scan_record_ssid_eq.
  assert (Hfull : firstn 32 (ap_ssid r) = ap_ssid r).
  { rewrite <- Hlen. apply firstn_all. }
  rewrite Hfull. split.
  - intros Hall. eexists. split; [reflexivity|].
    rewrite (cstring_nonNUL _ [] Hall).
    rewrite length_string_of_list_byte, list_byte_of_string_of_list_byte. auto.
  - intros k Hk Hnth Hall. eexists. split; [reflexivity|].
    rewrite (cstring_first_NUL _ k _ Hnth Hall).
    rewrite length_string_of_list_byte, list_byte_of_string_of_list_byte.
    split; [|reflexivity].
    rewrite length_firstn. lia.
Qed.

Lemma scan_ssid_decoding_witness :
  List.length (ap_ssid open_access_point) = 32%nat /\
  (4 < 32)%nat /\
  nth_error (ap_ssid open_access_point) 4 = Some NUL /\
  Forall nonNUL (firstn 4 (ap_ssid open_access_point)) /\
  exists s, scan_record_ssid open_access_point = Some (JsString s) /\
            String.length s = 4%nat /\
            list_byte_of_string s = firstn 4 (ap_ssid open_access_point).
Proof.
  assert (Hall : Forall nonNUL (firstn 4 (ap_ssid open_access_point))).
  { cbn. repeat constructor; discriminate. }
  assert (Hlt : (4 < 32)%nat) by lia.
  split; [reflexivity|]. split; [exact Hlt|]. split; [reflexivity|]. split; [exact Hall|].
  exact (proj2 (scan_ssid_decoding open_access_point eq_refl) 4%nat Hlt eq_refl Hall).
Defined.

(* ================================================================== *)
(** ** Authentication-mode names *)

Lemma getAPDetails_authMode env w :
  jsvObjectGetChild (returned (jswrap_ESP32_wifi_getAPDetails env None w)) "authMode" =
  Some (JsString (documented_short_name (apc_authmode (r_ap_config env)))).
Proof.
  unfold jswrap_ESP32_wifi_getAPDetails, esp_wifi_get_ap_config, vendor, jsvNewFromString,
    jsvNewObject, documented_short_name.
  cbn -[cstring strncpy string_of_list_byte firstn].
  destruct (apc_authmode (r_ap_config env)); reflexivity.
Qed.

Lemma scan_record_authMode_eq r :
  scan_record_authMode r = Some (JsString (authModeToString (ap_authmode r))).
Proof.
  unfold scan_record_authMode, scan_record, jsvNewFromString, jsvNewObject.
  destruct (ap_authmode r); reflexivity.
Qed.

Example scan_record_open_access_point :
  scan_record open_access_point =
  JsObject [("rssi", JsInteger (-52)); ("authMode", JsString "OPEN");
            ("ssid", JsString "cafe")].
Proof. reflexivity. Qed.

(** C3. The mapping of authentication modes is total, with a default
    branch, in both places.  The AP-details record carries the documented
    short name for every mode; the scan-result record carries the name
    authModeToString gives (OPEN, WEP, WPA, WPA2, WPA/WPA2, Unknown), which
    for no mode is the documented short name: an open access point is
    reported with authMode "OPEN", not "open". *)
Theorem scan_authMode_not_short_name :
  (forall env w,
     jsvObjectGetChild (returned (jswrap_ESP32_wifi_getAPDetails env None w)) "authMode" =
     Some (JsString (documented_short_name (apc_authmode (r_ap_config env))))) /\
  (forall r,
     scan_record_authMode r = Some (JsString (authModeToString (ap_authmode r))) /\
     scan_record_authMode r <> Some (JsString (documented_short_name (ap_authmode r)))) /\
  scan_record_authMode open_access_point = Some (JsString "OPEN").
Proof.
  split; [exact getAPDetails_authMode|]. split; [|reflexivity].
  intros r. split; [apply scan_record_authMode_eq|].
  rewrite scan_record_authMode_eq.
  destruct (ap_authmode r); simpl; discriminate.
Qed.

(* ================================================================== *)
(** ** Decoding the stored ssid and password *)

Lemma getDetails_ssid env w :
  jsvObjectGetChild (returned (jswrap_ESP32_wifi_getDetails env None w)) "ssid" =
  Some (JsString (string_of_list_byte
    (cstring (firstn 32 (sta_ssid (r_sta_config env) ++ sta_password (r_sta_config env)
                         ++ sta_after_password (r_sta_config env)) ++ [NUL])))).
Proof.
  unfold jswrap_ESP32_wifi_getDetails, esp_wifi_get_sta_config, vendor, jsvNewFromString,
    jsvNewObject.
  cbn -[cstring strncpy string_of_list_byte firstn].
  rewrite cstring_strncpy. reflexivity.
Qed.

(** The password string of getDetails is read from the configuration
    field itself, not from the bounded copy. *)
Lemma getDetails_password env w :
  jsvObjectGetChild (returned (jswrap_ESP32_wifi_getDetails env None w)) "password" =
  Some (JsString (string_of_list_byte
    (cstring (sta_password (r_sta_config env) ++ sta_after_password (r_sta_config env))))).
Proof. reflexivity. Qed.

Lemma getAPDetails_password env w :
  jsvObjectGetChild (returned (jswrap_ESP32_wifi_getAPDetails env None w)) "password" =
  Some (JsString (string_of_list_byte
    (cstring (apc_password (r_ap_config env) ++ apc_after_password (r_ap_config env))))).
Proof.
  unfold jswrap_ESP32_wifi_getAPDetails, esp_wifi_get_ap_config, vendor, jsvNewFromString,
    jsvNewObject.
  cbn -[cstring strncpy string_of_list_byte firstn].
  destruct (apc_authmode (r_ap_config env)); reflexivity.
Qed.

(** C4. With a password that fills its 64-byte field, the password string
    of getDetails and of getAPDetails is not cut at 64 characters: it runs
    on into the bytes stored behind the field, up to the next zero byte.
    The ssid string is decoded from the bounded, terminated copy. *)
Theorem details_password_read_past_field :
  jsvObjectGetChild (returned (jswrap_ESP32_wifi_getDetails env_ok None world0)) "password"
    = Some (JsString (string_of_list_byte
        (repeat "a"%byte 64 ++ [x01; x5c; xcf; x7f; x01; x02; x03]))) /\
  jsvObjectGetChild (returned (jswrap_ESP32_wifi_getAPDetails env_ok None world0)) "password"
    = Some (JsString (string_of_list_byte (repeat "b"%byte 64 ++ [x08; x06]))) /\
  jsvObjectGetChild (returned (jswrap_ESP32_wifi_getDetails env_ok None world0)) "ssid"
    = Some (JsString "home") /\
  jsvObjectGetChild (returned (jswrap_ESP32_wifi_getAPDetails env_ok None world0)) "ssid"
    = Some (JsString "espruino").
Proof. repeat split; vm_compute; reflexivity. Qed.

(* ================================================================== *)
(** ** Pending callbacks: the guards of the public operations *)

Lemma bad_callback_guard jsCallback :
  bad_callback jsCallback ->
  notNULL jsCallback && negb (jsvIsUndefined jsCallback) && negb (jsvIsFunction jsCallback)
  = true.
Proof.
  intros [Hnn Hnf]. rewrite Hnf. destruct jsCallback; [reflexivity | contradiction].
Qed.

(** C7. A scan requested while a scan callback is pending fails at once
    with an error; the pending callback stays as it is and no vendor call
    is made. *)
Theorem scan_while_pending_rejected (env : Env) (jsCallback : JsVarRef) (w : World) :
  g_jsScanCallback w <> None ->
  exists w',
    jswrap_ESP32_wifi_scan env jsCallback w = Done tt w' /\
    raised w w' "A scan is already in progress." [] /\
    slots_unchanged w w' /\
    vendor_called w w' [] /\
    queued w w' [] /\
    logged w w' [].
Proof.
  intros Hpending.
  unfold jswrap_ESP32_wifi_scan, bind, gets.
  destruct (g_jsScanCallback w) as [cb|] eqn:Hslot; [|contradiction].
  cbn. eexists. split; [reflexivity|].
  unfold raised, slots_unchanged, vendor_called, queued, logged; cbn.
  rewrite !app_nil_r. repeat split; assumption || reflexivity.
Qed.

Lemma scan_while_pending_rejected_witness :
  g_jsScanCallback (world_scan_pending (JsFunction 1)) <> None /\
  exists w',
    jswrap_ESP32_wifi_scan env_ok (Some (JsFunction 2)) (world_scan_pending (JsFunction 1))
    = Done tt w' /\
    raised (world_scan_pending (JsFunction 1)) w' "A scan is already in progress." [] /\
    slots_unchanged (world_scan_pending (JsFunction 1)) w' /\
    vendor_called (world_scan_pending (JsFunction 1)) w' [] /\
    queued (world_scan_pending (JsFunction 1)) w' [] /\
    logged (world_scan_pending (JsFunction 1)) w' [].
Proof.
  split; [discriminate|].
  apply (scan_while_pending_rejected env_ok (Some (JsFunction 2))
           (world_scan_pending (JsFunction 1))).
  discriminate.
Defined.

(** C10. A scan-done event that finds a scan callback pending, with the
    vendor reporting zero access points, queues exactly one invocation of
    the callback with an empty array as its single argument and empties
    the slot; the records are not fetched: the only vendor call is the
    one that asks for the number. *)
Theorem scan_done_without_access_points (env : Env) (cb : JsVar) (w : World) :
  g_jsScanCallback w = Some cb ->
  r_esp_wifi_scan_get_ap_num env = (ESP_OK, 0%nat) ->
  exists w',
    event_handler env EV_SCAN_DONE w = Done ESP_OK w' /\
    queued w w' [QueueEvents cb [JsArray []]] /\
    g_jsScanCallback w' = None /\
    vendor_called w w' [esp_wifi_scan_get_ap_num_call].
Proof.
  intros Hslot Hnum.
  unfold event_handler, scanCB, esp_wifi_scan_get_ap_num, vendor, bind, gets, modify, ret.
  rewrite Hslot, Hnum. cbn. rewrite Hslot. cbn.
  eexists. split; [reflexivity|].
  unfold queued, vendor_called; cbn. repeat split; reflexivity.
Qed.

Lemma scan_done_without_access_points_witness :
  g_jsScanCallback (world_scan_pending (JsFunction 7)) = Some (JsFunction 7) /\
  r_esp_wifi_scan_get_ap_num env_ok = (ESP_OK, 0%nat) /\
  exists w',
    event_handler env_ok EV_SCAN_DONE (world_scan_pending (JsFunction 7)) = Done ESP_OK w' /\
    queued (world_scan_pending (JsFunction 7)) w' [QueueEvents (JsFunction 7) [JsArray []]] /\
    g_jsScanCallback w' = None /\
    vendor_called (world_scan_pending (JsFunction 7)) w' [esp_wifi_scan_get_ap_num_call].
Proof.
  split; [reflexivity|]. split; [reflexivity|].
  apply (scan_done_without_access_points env_ok (JsFunction 7)
           (world_scan_pending (JsFunction 7))); reflexivity.
Defined.

(** C2 (as the code has it). connect and disconnect answer an argument
    of invalid shape with a descriptive error and make no vendor call.
    A wrong ssid or wrong options leave the three slots as they were.  A
    wrong callback is found after the slot of the operation itself has
    been emptied: connect leaves g_jsGotIpCallback empty, disconnect
    leaves g_jsDisconnectCallback empty, and the other two slots are as
    they were. *)
Theorem invalid_argument_rejected (env : Env) (w : World) :
  (forall jsSsid jsOptions jsCallback,
     jsvIsString jsSsid = false ->
     exists w',
       jswrap_ESP32_wifi_connect env jsSsid jsOptions jsCallback w = Done tt w' /\
       raised w w' "No SSID provided" [] /\
       vendor_called w w' [] /\
       slots_unchanged w w') /\
  (forall jsSsid jsOptions jsCallback,
     jsvIsString jsSsid = true ->
     jsOptions <> None -> jsvIsObject jsOptions = false ->
     exists w',
       jswrap_ESP32_wifi_connect env jsSsid jsOptions jsCallback w = Done tt w' /\
       raised w w' "Expecting options object but got %t" [jsOptions] /\
       vendor_called w w' [] /\
       slots_unchanged w w') /\
  (forall jsSsid jsOptions jsCallback,
     jsvIsString jsSsid = true ->
     jsOptions = None \/ jsvIsObject jsOptions = true ->
     bad_callback jsCallback ->
     exists w',
       jswrap_ESP32_wifi_connect env jsSsid jsOptions jsCallback w = Done tt w' /\
       raised w w' "Expecting callback function but got %v" [jsCallback] /\
       vendor_called w w' [] /\
       g_jsGotIpCallback w' = None /\
       g_jsDisconnectCallback w' = g_jsDisconnectCallback w /\
       g_jsScanCallback w' = g_jsScanCallback w) /\
  (forall jsCallback,
     bad_callback jsCallback ->
     exists w',
       jswrap_ESP32_wifi_disconnect env jsCallback w = Done tt w' /\
       raised w w' "Expecting callback function but got %v" [jsCallback] /\
       vendor_called w w' [] /\
       g_jsDisconnectCallback w' = None /\
       g_jsGotIpCallback w' = g_jsGotIpCallback w /\
       g_jsScanCallback w' = g_jsScanCallback w).
Proof.
  unfold raised, vendor_called, slots_unchanged.
  split; [|split; [|split]].
  - intros jsSsid jsOptions jsCallback Hssid.
    unfold jswrap_ESP32_wifi_connect. rewrite Hssid. cbn.
    observed.
  - intros jsSsid jsOptions jsCallback Hssid Hnn Hobj.
    unfold jswrap_ESP32_wifi_connect. rewrite Hssid, Hobj.
    destruct jsOptions as [o|]; [|contradiction]. cbn.
    observed.
  - intros jsSsid jsOptions jsCallback Hssid Hopt Hcb.
    unfold jswrap_ESP32_wifi_connect. rewrite Hssid.
    assert (Hguard : notNULL jsOptions && negb (jsvIsObject jsOptions) = false).
    { destruct Hopt as [-> | ->]; [reflexivity | apply andb_false_r]. }
    cbn [negb]. rewrite Hguard.
    unfold bind at 1. cbn [set_g_jsGotIpCallback modify].
    rewrite (bad_callback_guard _ Hcb). cbn.
    observed.
  - intros jsCallback Hcb.
    unfold jswrap_ESP32_wifi_disconnect.
    unfold bind at 1. cbn [set_g_jsDisconnectCallback modify].
    rewrite (bad_callback_guard _ Hcb). cbn.
    observed.
Qed.

Lemma invalid_argument_rejected_witness :
  bad_callback (Some (JsInteger 42)) /\
  exists w',
    jswrap_ESP32_wifi_disconnect env_ok (Some (JsInteger 42))
      (world_disconnect_pending (JsFunction 1)) = Done tt w' /\
    raised (world_disconnect_pending (JsFunction 1)) w'
      "Expecting callback function but got %v" [Some (JsInteger 42)] /\
    vendor_called (world_disconnect_pending (JsFunction 1)) w' [] /\
    g_jsDisconnectCallback w' = None /\
    g_jsGotIpCallback w' = g_jsGotIpCallback (world_disconnect_pending (JsFunction 1)) /\
    g_jsScanCallback w' = g_jsScanCallback (world_disconnect_pending (JsFunction 1)).
Proof.
  assert (H : bad_callback (Some (JsInteger 42))) by (split; [discriminate | reflexivity]).
  split; [exact H|].
  exact (proj2 (proj2 (proj2
    (invalid_argument_rejected env_ok (world_disconnect_pending (JsFunction 1)))))
    (Some (JsInteger 42)) H).
Defined.

(** C2 as stated fails: disconnect called with a number for a callback,
    while a disconnect callback is pending, raises the error and the
    pending callback is gone. *)
Lemma disconnect_bad_callback_drops_pending :
  bad_callback (Some (JsInteger 42)) /\
  ~ slots_unchanged
      (world_disconnect_pending (JsFunction 1))
      (world_after (jswrap_ESP32_wifi_disconnect env_ok (Some (JsInteger 42))
                      (world_disconnect_pending (JsFunction 1)))).
Proof.
  split; [split; [discriminate | reflexivity]|].
  intros [H _]. cbn in H. discriminate.
Qed.

(* ================================================================== *)
(** ** Vendor failures during connect and scan *)

(** What connect does once its arguments are accepted, by the status of
    each vendor call. *)
Lemma connect_accepted_run env jsSsid jsOptions jsCallback w :
  connect_accepts jsSsid jsOptions jsCallback = true ->
  exists w',
    jswrap_ESP32_wifi_connect env jsSsid jsOptions jsCallback w = Done tt w' /\
    g_jsDisconnectCallback w' = None /\
    g_jsScanCallback w' = g_jsScanCallback w /\
    queued w w' [] /\
    raised_nothing w w' /\
    let set_mode := esp_wifi_set_mode_call WIFI_MODE_STA in
    let set_config := connect_set_config_call jsSsid jsOptions in
    if negb (Z.eqb (r_esp_wifi_set_mode env) ESP_OK) then
      vendor_called w w' [set_mode] /\
      logged w w' [set_mode_line (r_esp_wifi_set_mode env)] /\
      g_jsGotIpCallback w' = None
    else if negb (Z.eqb (r_esp_wifi_set_config env) ESP_OK) then
      vendor_called w w' [set_mode; set_config] /\
      logged w w' [set_config_line (r_esp_wifi_set_config env)] /\
      g_jsGotIpCallback w' = None
    else if negb (Z.eqb (r_esp_wifi_start env) ESP_OK) then
      vendor_called w w' [set_mode; set_config; esp_wifi_start_call] /\
      logged w w' [start_line (r_esp_wifi_start env)] /\
      g_jsGotIpCallback w' = None
    else
      vendor_called w w' [set_mode; set_config; esp_wifi_start_call; esp_wifi_connect_call] /\
      logged w w' (if negb (Z.eqb (r_esp_wifi_connect env) ESP_OK)
                   then [connect_line (r_esp_wifi_connect env)] else []) /\
      g_jsGotIpCallback w' = jsCallback.
Proof.
  unfold connect_accepts. intros H.
  repeat (apply andb_true_iff in H; destruct H as [H ?]).
  unfold jswrap_ESP32_wifi_connect, connect_set_config_call.
  rewrite H. clear H.
  unfold queued, raised_nothing, vendor_called, logged.
  destruct jsOptions as [[]|]; try discriminate;
  destruct jsCallback as [[]|]; try discriminate; cbn in *;
  try (match goal with
       | H : context [lookupChild ?n ?c] |- _ =>
           destruct (lookupChild n c) as [[]|]; try discriminate
       end);
  cbn;
  destruct (Z.eqb (r_esp_wifi_set_mode env) ESP_OK); cbn;
  try (destruct (Z.eqb (r_esp_wifi_set_config env) ESP_OK); cbn);
  try (destruct (Z.eqb (r_esp_wifi_start env) ESP_OK); cbn);
  try (destruct (Z.eqb (r_esp_wifi_connect env) ESP_OK); cbn);
  observed.
Qed.

(** What scan does once it is let in, by the status of each vendor call. *)
Lemma scan_accepted_run env jsCallback w :
  g_jsScanCallback w = None ->
  jsvIsFunction jsCallback = true ->
  exists w',
    jswrap_ESP32_wifi_scan env jsCallback w = Done tt w' /\
    g_jsScanCallback w' = jsCallback /\
    g_jsDisconnectCallback w' = g_jsDisconnectCallback w /\
    g_jsGotIpCallback w' = g_jsGotIpCallback w /\
    queued w w' [] /\
    raised_nothing w w' /\
    let set_mode := esp_wifi_set_mode_call WIFI_MODE_STA in
    if negb (Z.eqb (r_esp_wifi_set_mode env) ESP_OK) then
      vendor_called w w' [set_mode] /\
      logged w w' [scan_set_mode_line (r_esp_wifi_set_mode env)]
    else if negb (Z.eqb (r_esp_wifi_start env) ESP_OK) then
      vendor_called w w' [set_mode; esp_wifi_start_call] /\
      logged w w' [start_line (r_esp_wifi_start env)]
    else
      vendor_called w w'
        [set_mode; esp_wifi_start_call; esp_wifi_scan_start_call true false] /\
      logged w w' [].
Proof.
  intros Hfree Hfun.
  unfold jswrap_ESP32_wifi_scan, bind at 1, gets.
  rewrite Hfree, Hfun.
  unfold queued, raised_nothing, vendor_called, logged. cbn.
  destruct (Z.eqb (r_esp_wifi_set_mode env) ESP_OK); cbn;
  try (destruct (Z.eqb (r_esp_wifi_start env) ESP_OK); cbn);
  observed.
Qed.

Lemma status_failed (err : esp_err_t) : err <> ESP_OK -> negb (Z.eqb err ESP_OK) = true.
Proof. intros H. apply Z.eqb_neq in H. now rewrite H. Qed.

Lemma status_ok (err : esp_err_t) : err = ESP_OK -> negb (Z.eqb err ESP_OK) = false.
Proof. intros ->. reflexivity. Qed.

(** C1 (as the code has it). connect, once its arguments are accepted:
    a non-success status of set-mode, set-config or start is logged, no
    further vendor call is made and g_jsGotIpCallback is left empty; the
    callback is registered when these three have succeeded and before
    esp_wifi_connect is called, so a failing esp_wifi_connect is logged
    and finds the callback registered.  scan, once it is let in: a
    non-success status of set-mode or start is logged and no further
    vendor call is made. *)
Theorem vendor_failure_aborts_sequence (env : Env) (w : World) :
  (forall jsSsid jsOptions jsCallback,
     connect_accepts jsSsid jsOptions jsCallback = true ->
     exists w',
       jswrap_ESP32_wifi_connect env jsSsid jsOptions jsCallback w = Done tt w' /\
       let set_mode := esp_wifi_set_mode_call WIFI_MODE_STA in
       let set_config := connect_set_config_call jsSsid jsOptions in
       (r_esp_wifi_set_mode env <> ESP_OK ->
        vendor_called w w' [set_mode] /\
        logged w w' [set_mode_line (r_esp_wifi_set_mode env)] /\
        g_jsGotIpCallback w' = None) /\
       (r_esp_wifi_set_mode env = ESP_OK ->
        r_esp_wifi_set_config env <> ESP_OK ->
        vendor_called w w' [set_mode; set_config] /\
        logged w w' [set_config_line (r_esp_wifi_set_config env)] /\
        g_jsGotIpCallback w' = None) /\
       (r_esp_wifi_set_mode env = ESP_OK ->
        r_esp_wifi_set_config env = ESP_OK ->
        r_esp_wifi_start env <> ESP_OK ->
        vendor_called w w' [set_mode; set_config; esp_wifi_start_call] /\
        logged w w' [start_line (r_esp_wifi_start env)] /\
        g_jsGotIpCallback w' = None) /\
       (r_esp_wifi_set_mode env = ESP_OK ->
        r_esp_wifi_set_config env = ESP_OK ->
        r_esp_wifi_start env = ESP_OK ->
        r_esp_wifi_connect env <> ESP_OK ->
        vendor_called w w'
          [set_mode; set_config; esp_wifi_start_call; esp_wifi_connect_call] /\
        logged w w' [connect_line (r_esp_wifi_connect env)] /\
        g_jsGotIpCallback w' = jsCallback)) /\
  (forall jsCallback,
     g_jsScanCallback w = None ->
     jsvIsFunction jsCallback = true ->
     exists w',
       jswrap_ESP32_wifi_scan env jsCallback w = Done tt w' /\
       let set_mode := esp_wifi_set_mode_call WIFI_MODE_STA in
       (r_esp_wifi_set_mode env <> ESP_OK ->
        vendor_called w w' [set_mode] /\
        logged w w' [scan_set_mode_line (r_esp_wifi_set_mode env)]) /\
       (r_esp_wifi_set_mode env = ESP_OK ->
        r_esp_wifi_start env <> ESP_OK ->
        vendor_called w w' [set_mode; esp_wifi_start_call] /\
        logged w w' [start_line (r_esp_wifi_start env)])).
Proof.
  split.
  - intros jsSsid jsOptions jsCallback Hacc.
    destruct (connect_accepted_run env jsSsid jsOptions jsCallback w Hacc)
      as (w' & Hrun & _ & _ & _ & _ & Hcases).
    exists w'. split; [exact Hrun|]. cbv zeta in *.
    repeat split; intros;
      repeat match goal with
             | H : _ = ESP_OK |- _ => apply status_ok in H; rewrite H in Hcases
             | H : _ <> ESP_OK |- _ => apply status_failed in H; rewrite H in Hcases
             end; apply Hcases.
  - intros jsCallback Hfree Hfun.
    destruct (scan_accepted_run env jsCallback w Hfree Hfun)
      as (w' & Hrun & _ & _ & _ & _ & _ & Hcases).
    exists w'. split; [exact Hrun|]. cbv zeta in *.
    repeat split; intros;
      repeat match goal with
             | H : _ = ESP_OK |- _ => apply status_ok in H; rewrite H in Hcases
             | H : _ <> ESP_OK |- _ => apply status_failed in H; rewrite H in Hcases
             end; apply Hcases.
Qed.

Lemma vendor_failure_aborts_sequence_witness :
  connect_accepts myssid secret_options (Some (JsFunction 1)) = true /\
  r_esp_wifi_set_mode env_set_config_fails = ESP_OK /\
  r_esp_wifi_set_config env_set_config_fails <> ESP_OK /\
  exists w',
    jswrap_ESP32_wifi_connect env_set_config_fails myssid secret_options
      (Some (JsFunction 1)) world0 = Done tt w' /\
    vendor_called world0 w'
      [esp_wifi_set_mode_call WIFI_MODE_STA;
       connect_set_config_call myssid secret_options] /\
    logged world0 w' [set_config_line ESP_FAIL] /\
    g_jsGotIpCallback w' = None.
Proof.
  assert (Hacc : connect_accepts myssid secret_options (Some (JsFunction 1)) = true)
    by reflexivity.
  assert (Hmode : r_esp_wifi_set_mode env_set_config_fails = ESP_OK) by reflexivity.
  assert (Hcfg : r_esp_wifi_set_config env_set_config_fails <> ESP_OK) by discriminate.
  split; [exact Hacc|]. split; [exact Hmode|]. split; [exact Hcfg|].
  destruct (proj1 (vendor_failure_aborts_sequence env_set_config_fails world0)
              myssid secret_options (Some (JsFunction 1)) Hacc)
    as (w' & Hrun & _ & Hcase & _).
  exists w'. split; [exact Hrun|]. exact (Hcase Hmode Hcfg).
Defined.

(** C1 as stated fails: when esp_wifi_connect reports a failure, the
    callback of this very call is registered in g_jsGotIpCallback. *)
Lemma connect_failure_leaves_callback_registered :
  r_esp_wifi_connect env_connect_fails <> ESP_OK /\
  g_jsGotIpCallback
    (world_after (jswrap_ESP32_wifi_connect env_connect_fails myssid secret_options
                    (Some (JsFunction 1)) world0))
  = Some (JsFunction 1).
Proof. split; [discriminate | reflexivity]. Qed.

(* ================================================================== *)
(** ** Event dispatch *)

(** What the got-IP branch of the handler does: it resolves a pending
    connect callback with null, then publishes the record on the module
    if the module is there. *)
Lemma got_ip_dispatch env info w :
  exists w',
    event_handler env (EV_STA_GOT_IP info) w = Done ESP_OK w' /\
    g_jsDisconnectCallback w' = g_jsDisconnectCallback w /\
    g_jsScanCallback w' = g_jsScanCallback w /\
    g_jsGotIpCallback w' = after_resolution (g_jsGotIpCallback w) /\
    vendor_called w w' [] /\
    queued w w' (resolved (g_jsGotIpCallback w) [JsNull] ++
                 published env "#onconnected" (connected_details info)).
Proof.
  unfold event_handler, sendWifiCompletionCB, sendWifiEvent, getWifiModule, read_slot,
    vendor_called, queued, published, resolved, after_resolution, connected_details.
  unfold bind at 1. unfold bind at 1. unfold gets at 1.
  destruct (g_jsGotIpCallback w) as [[]|] eqn:Hslot; cbn;
  destruct (r_require_Wifi env) as [wifi|]; cbn;
  (eexists; split; [reflexivity|]; cbn;
   rewrite <- ?app_assoc, ?app_nil_r, ?Hslot; repeat split).
Qed.

Lemma disconnected_dispatch env info w :
  exists w',
    event_handler env (EV_STA_DISCONNECTED info) w = Done ESP_OK w' /\
    g_jsGotIpCallback w' = g_jsGotIpCallback w /\
    g_jsScanCallback w' = g_jsScanCallback w /\
    g_jsDisconnectCallback w' = after_resolution (g_jsDisconnectCallback w) /\
    vendor_called w w' [] /\
    queued w w' (resolved (g_jsDisconnectCallback w) [] ++
                 published env "#ondisconnected" (disconnected_details info)).
Proof.
  unfold event_handler, sendWifiEvent, getWifiModule,
    vendor_called, queued, published, resolved, after_resolution, disconnected_details.
  unfold bind at 1. unfold bind at 1. unfold gets at 1.
  destruct (g_jsDisconnectCallback w) as [[]|] eqn:Hslot;
  cbn -[jsvNewFromString memcpy fmt_MAC fmt_d c_str];
  destruct (r_require_Wifi env) as [wifi|];
  cbn -[jsvNewFromString memcpy fmt_MAC fmt_d c_str];
  (eexists; split; [reflexivity|]; cbn -[jsvNewFromString memcpy fmt_MAC fmt_d c_str];
   rewrite <- ?app_assoc, ?app_nil_r, ?Hslot; repeat split).
Qed.

(** Without a pending scan callback, scan-done changes nothing at all. *)
Lemma scan_done_idle env w :
  g_jsScanCallback w = None ->
  event_handler env EV_SCAN_DONE w = Done ESP_OK w.
Proof.
  intros Hslot. unfold event_handler, scanCB, bind, gets. rewrite Hslot. reflexivity.
Qed.

(** With a pending scan callback and the results fetched, scan-done
    invokes the callback once with the array and empties the slot. *)
Lemma scan_done_resolves env cb w :
  g_jsScanCallback w = Some cb ->
  scan_fetch_ok env ->
  exists w',
    event_handler env EV_SCAN_DONE w = Done ESP_OK w' /\
    g_jsScanCallback w' = None /\
    g_jsDisconnectCallback w' = g_jsDisconnectCallback w /\
    g_jsGotIpCallback w' = g_jsGotIpCallback w /\
    queued w w' [QueueEvents cb [JsArray (scan_results env)]].
Proof.
  intros Hslot [Hnum Hrecs].
  unfold event_handler, scanCB, esp_wifi_scan_get_ap_num, esp_wifi_scan_get_ap_records,
    scan_results, queued.
  unfold bind at 1. unfold bind at 1. unfold gets at 1. rewrite Hslot.
  destruct (r_esp_wifi_scan_get_ap_num env) as [err apCount]. cbn in Hnum, Hrecs.
  subst err. cbn -[firstn scan_loop].
  destruct apCount as [|n].
  - cbn. rewrite Hslot. cbn. eexists. split; [reflexivity|]. cbn. repeat split.
  - cbn -[firstn scan_loop]. rewrite Hrecs by lia. cbn -[firstn scan_loop].
    rewrite Hslot. cbn -[firstn scan_loop].
    eexists. split; [reflexivity|]. cbn -[firstn scan_loop]. repeat split.
Qed.

(** Whatever the vendor answers, scan-done touches no slot but the scan
    slot, and queues at most one invocation, of the pending scan
    callback. *)
Lemma scan_done_step env w :
  let w' := world_after (event_handler env EV_SCAN_DONE w) in
  g_jsDisconnectCallback w' = g_jsDisconnectCallback w /\
  g_jsGotIpCallback w' = g_jsGotIpCallback w /\
  (g_jsScanCallback w' = None \/ g_jsScanCallback w' = g_jsScanCallback w) /\
  (queued w w' [] \/
   exists cb args, g_jsScanCallback w = Some cb /\ queued w w' [QueueEvents cb args]).
Proof.
  unfold event_handler, scanCB, esp_wifi_scan_get_ap_num, esp_wifi_scan_get_ap_records,
    ESP_ERROR_CHECK, queued, bind, gets.
  destruct (g_jsScanCallback w) as [cb|] eqn:Hslot.
  - destruct (r_esp_wifi_scan_get_ap_num env) as [err apCount].
    cbn -[firstn scan_loop Z.eqb].
    destruct (Z.eqb err ESP_OK); cbn -[firstn scan_loop Z.eqb].
    + destruct apCount as [|n]; cbn -[firstn scan_loop Z.eqb].
      * rewrite Hslot. cbn. repeat split; eauto.
      * destruct (Z.eqb (fst (r_esp_wifi_scan_get_ap_records env)) ESP_OK);
          cbn -[firstn scan_loop Z.eqb].
        -- rewrite Hslot. cbn -[firstn scan_loop]. repeat split; eauto.
        -- rewrite app_nil_r. repeat split; auto.
    + rewrite app_nil_r. repeat split; auto.
  - cbn. rewrite app_nil_r. repeat split; auto.
Qed.

(* ================================================================== *)
(** ** connect followed by the got-IP event *)

(** C5. connect("myssid", {password:"secret"}, cb) registers cb when
    set-mode, set-config and start succeed.  A got-IP event dispatched
    next, with ip 192.168.1.5, netmask 255.255.255.0 and gateway
    192.168.1.1 and with the Wifi module at hand, queues exactly one
    invocation of cb, with null as its single argument, then publishes the
    connected event ("#onconnected" on the module) with a record of
    exactly the fields ip, netmask and gw as dotted-decimal strings, and
    leaves g_jsGotIpCallback empty. *)
Theorem connect_then_got_ip (env env' : Env) (w : World) (cb : nat) (wifi : JsVar) :
  r_esp_wifi_set_mode env = ESP_OK ->
  r_esp_wifi_set_config env = ESP_OK ->
  r_esp_wifi_start env = ESP_OK ->
  r_require_Wifi env' = Some wifi ->
  exists w1 w2,
    jswrap_ESP32_wifi_connect env myssid secret_options (Some (JsFunction cb)) w
    = Done tt w1 /\
    g_jsGotIpCallback w1 = Some (JsFunction cb) /\
    queued w w1 [] /\
    event_handler env' got_ip_event w1 = Done ESP_OK w2 /\
    queued w1 w2
      [QueueEvents (JsFunction cb) [JsNull];
       QueueObjectCallbacks wifi "#onconnected"
         [JsObject [("ip", JsString "192.168.1.5");
                    ("netmask", JsString "255.255.255.0");
                    ("gw", JsString "192.168.1.1")]]] /\
    g_jsGotIpCallback w2 = None.
Proof.
  intros Hmode Hcfg Hstart Hwifi.
  destruct (connect_accepted_run env myssid secret_options (Some (JsFunction cb)) w
              eq_refl) as (w1 & Hrun & _ & _ & Hq1 & _ & Hcases).
  cbv zeta in Hcases.
  rewrite (status_ok _ Hmode), (status_ok _ Hcfg), (status_ok _ Hstart) in Hcases.
  destruct Hcases as (_ & _ & Hslot).
  destruct (got_ip_dispatch env' got_ip_info w1)
    as (w2 & Hev & _ & _ & Hslot2 & _ & Hq2).
  exists w1, w2. rewrite Hslot in *. unfold published in Hq2. rewrite Hwifi in Hq2.
  repeat split; assumption.
Qed.

Lemma connect_then_got_ip_witness :
  r_esp_wifi_set_mode env_ok = ESP_OK /\
  r_esp_wifi_set_config env_ok = ESP_OK /\
  r_esp_wifi_start env_ok = ESP_OK /\
  r_require_Wifi env_ok = Some (JsObject []) /\
  exists w1 w2,
    jswrap_ESP32_wifi_connect env_ok myssid secret_options (Some (JsFunction 3)) world0
    = Done tt w1 /\
    g_jsGotIpCallback w1 = Some (JsFunction 3) /\
    queued world0 w1 [] /\
    event_handler env_ok got_ip_event w1 = Done ESP_OK w2 /\
    queued w1 w2
      [QueueEvents (JsFunction 3) [JsNull];
       QueueObjectCallbacks (JsObject []) "#onconnected"
         [JsObject [("ip", JsString "192.168.1.5");
                    ("netmask", JsString "255.255.255.0");
                    ("gw", JsString "192.168.1.1")]]] /\
    g_jsGotIpCallback w2 = None.
Proof.
  repeat (split; [reflexivity|]).
  exact (connect_then_got_ip env_ok env_ok world0 3 (JsObject [])
           eq_refl eq_refl eq_refl eq_refl).
Defined.

(* ================================================================== *)
(** ** Resolution consumes the slot *)

Lemma invocations_app q1 q2 :
  invocations (q1 ++ q2) = (invocations q1 ++ invocations q2)%list.
Proof. apply flat_map_app. Qed.

Lemma invocations_published env name details :
  invocations (published env name details) = [].
Proof. unfold published. destruct (r_require_Wifi env); reflexivity. Qed.

(** Dispatch of the event of kind [k] when the slot is empty. *)
Lemma dispatch_empty_slot k e env w :
  resolves k e ->
  slot_of k w = None ->
  exists w',
    event_handler env e w = Done ESP_OK w' /\
    slot_of k w' = None /\
    invocations (queue w') = invocations (queue w).
Proof.
  intros Hres Hslot.
  destruct k, e; try contradiction; cbn [slot_of] in *.
  - destruct (disconnected_dispatch env info w) as (w' & Hev & _ & _ & Hs & _ & Hq).
    exists w'. rewrite Hs, Hq, Hslot, invocations_app. cbn [resolved app].
    rewrite invocations_published, app_nil_r. auto.
  - destruct (got_ip_dispatch env info w) as (w' & Hev & _ & _ & Hs & _ & Hq).
    exists w'. rewrite Hs, Hq, Hslot, invocations_app. cbn [resolved app].
    rewrite invocations_published, app_nil_r. auto.
  - exists w. rewrite (scan_done_idle env w Hslot). auto.
Qed.

(** Dispatch of the event of kind [k] when the slot holds a function. *)
Lemma dispatch_pending_slot k e env w f :
  resolves k e ->
  slot_of k w = Some (JsFunction f) ->
  (k = OnScanDone -> scan_fetch_ok env) ->
  exists w' args,
    event_handler env e w = Done ESP_OK w' /\
    slot_of k w' = None /\
    invocations (queue w') = (invocations (queue w) ++ [(JsFunction f, args)])%list.
Proof.
  intros Hres Hslot Hfetch.
  destruct k, e; try contradiction; cbn [slot_of] in *.
  - destruct (disconnected_dispatch env info w) as (w' & Hev & _ & _ & Hs & _ & Hq).
    exists w', []. rewrite Hs, Hq, Hslot, !invocations_app. cbn [resolved].
    rewrite invocations_published, app_nil_r. auto.
  - destruct (got_ip_dispatch env info w) as (w' & Hev & _ & _ & Hs & _ & Hq).
    exists w', [JsNull]. rewrite Hs, Hq, Hslot, !invocations_app. cbn [resolved].
    rewrite invocations_published, app_nil_r. auto.
  - destruct (scan_done_resolves env _ w Hslot (Hfetch eq_refl))
      as (w' & Hev & Hs & _ & _ & Hq).
    exists w', [JsArray (scan_results env)]. rewrite Hq, invocations_app. auto.
Qed.

(** C6. For the disconnect, the got-IP and the scan-done path alike:
    dispatching the event while the slot is empty invokes no callback,
    does not abort and leaves the slot empty; dispatching it while the
    slot holds a callback invokes that callback once and empties the slot
    (for scan-done: when the vendor hands over the results), and a second
    delivery of the same event kind then invokes nothing. *)
Theorem resolution_consumes_slot
    (k : PendingKind) (e e2 : system_event_t) (env env2 : Env) (w : World) :
  resolves k e ->
  resolves k e2 ->
  (slot_of k w = None ->
   exists w',
     event_handler env e w = Done ESP_OK w' /\
     slot_of k w' = None /\
     invocations (queue w') = invocations (queue w)) /\
  (forall f,
   slot_of k w = Some (JsFunction f) ->
   (k = OnScanDone -> scan_fetch_ok env) ->
   exists w' args,
     event_handler env e w = Done ESP_OK w' /\
     slot_of k w' = None /\
     invocations (queue w') = (invocations (queue w) ++ [(JsFunction f, args)])%list /\
     exists w'',
       event_handler env2 e2 w' = Done ESP_OK w'' /\
       slot_of k w'' = None /\
       invocations (queue w'') = invocations (queue w')).
Proof.
  intros Hres Hres2. split.
  - intros Hslot. exact (dispatch_empty_slot k e env w Hres Hslot).
  - intros f Hslot Hfetch.
    destruct (dispatch_pending_slot k e env w f Hres Hslot Hfetch)
      as (w' & args & Hev & Hs & Hinv).
    exists w', args. repeat split; try assumption.
    exact (dispatch_empty_slot k e2 env2 w' Hres2 Hs).
Qed.

Lemma scan_fetch_ok_two_access_points : scan_fetch_ok env_two_access_points.
Proof. split; [reflexivity | intros _; reflexivity]. Defined.

Example scan_done_two_access_points :
  event_handler env_two_access_points EV_SCAN_DONE (world_scan_pending (JsFunction 5)) =
  Done ESP_OK
    {| g_jsDisconnectCallback := None; g_jsGotIpCallback := None; g_jsScanCallback := None;
       queue :=
         [QueueEvents (JsFunction 5)
            [JsArray
               [JsObject [("rssi", JsInteger (-52)); ("authMode", JsString "OPEN");
                          ("ssid", JsString "cafe")];
                JsObject [("rssi", JsInteger (-71)); ("authMode", JsString "WPA2");
                          ("ssid", JsString "xxxxxxxxxxxxxxxxxxxxxxxxxxxxxxxx")]]]];
       exceptions := [];
       vendor_calls := [esp_wifi_scan_get_ap_num_call; esp_wifi_scan_get_ap_records_call 2];
       esp_log := [] |}.
Proof. reflexivity. Qed.

Lemma resolution_consumes_slot_witness :
  resolves OnScanDone EV_SCAN_DONE /\
  slot_of OnScanDone (world_scan_pending (JsFunction 5)) = Some (JsFunction 5) /\
  (OnScanDone = OnScanDone -> scan_fetch_ok env_two_access_points) /\
  exists w' args,
    event_handler env_two_access_points EV_SCAN_DONE (world_scan_pending (JsFunction 5))
    = Done ESP_OK w' /\
    slot_of OnScanDone w' = None /\
    invocations (queue w') =
      (invocations (queue (world_scan_pending (JsFunction 5))) ++ [(JsFunction 5, args)])%list /\
    exists w'',
      event_handler env_ok EV_SCAN_DONE w' = Done ESP_OK w'' /\
      slot_of OnScanDone w'' = None /\
      invocations (queue w'') = invocations (queue w').
Proof.
  split; [exact I|]. split; [reflexivity|].
  split; [intros _; exact scan_fetch_ok_two_access_points|].
  exact (proj2 (resolution_consumes_slot OnScanDone EV_SCAN_DONE EV_SCAN_DONE
                  env_two_access_points env_ok (world_scan_pending (JsFunction 5)) I I)
           5%nat eq_refl (fun _ => scan_fetch_ok_two_access_points)).
Defined.

(* ================================================================== *)
(** ** disconnect followed by connect *)

Lemma in_resolved slot args callback args' :
  In (QueueEvents callback args') (resolved slot args) -> slot = Some callback.
Proof.
  destruct slot as [[]|]; cbn; try contradiction.
  intros [[= <- _]|[]]. reflexivity.
Qed.

Lemma in_published env name details callback args :
  ~ In (QueueEvents callback args) (published env name details).
Proof.
  unfold published. destruct (r_require_Wifi env); cbn; [|tauto].
  intros [H|[]]. discriminate.
Qed.

Lemma after_resolution_emptied_or_kept slot :
  emptied_or_kept slot (after_resolution slot).
Proof. unfold emptied_or_kept, after_resolution. destruct (jsvIsFunction slot); auto. Qed.

Lemma associated_dispatch env info w :
  exists w',
    event_handler env (EV_STA_CONNECTED info) w = Done ESP_OK w' /\
    slots_unchanged w w' /\
    vendor_called w w' [] /\
    queued w w' (published env "#onassociated" (associated_details info)).
Proof.
  unfold event_handler, sendWifiEvent, getWifiModule,
    slots_unchanged, vendor_called, queued, published, associated_details.
  unfold bind at 1.
  destruct (r_require_Wifi env) as [wifi|];
  cbn -[jsvNewFromString memcpy fmt_MAC fmt_d c_str];
  (eexists; split; [reflexivity|]; cbn -[jsvNewFromString memcpy fmt_MAC fmt_d c_str];
   rewrite ?app_nil_r; repeat split).
Qed.

(** One event: slots are emptied or kept, the queue only grows, and only
    pending callbacks are invoked. *)
Lemma event_handler_step env e w :
  let w' := world_after (event_handler env e w) in
  emptied_or_kept (g_jsDisconnectCallback w) (g_jsDisconnectCallback w') /\
  emptied_or_kept (g_jsGotIpCallback w) (g_jsGotIpCallback w') /\
  emptied_or_kept (g_jsScanCallback w) (g_jsScanCallback w') /\
  exists added, queued w w' added /\ invoke_pending_only w added.
Proof.
  destruct e as [info|info|info| |id].
  - destruct (disconnected_dispatch env info w) as (w' & Hev & Hg & Hs & Hd & _ & Hq).
    rewrite Hev. cbn [world_after]. rewrite Hg, Hs, Hd.
    repeat split; try (right; reflexivity); try apply after_resolution_emptied_or_kept.
    eexists. split; [exact Hq|].
    intros c args Hin. apply in_app_or in Hin as [Hin|Hin].
    + left. exact (in_resolved _ _ _ _ Hin).
    + exfalso. exact (in_published _ _ _ _ _ Hin).
  - destruct (associated_dispatch env info w) as (w' & Hev & (Hd & Hg & Hs) & _ & Hq).
    rewrite Hev. cbn [world_after]. rewrite Hg, Hs, Hd.
    repeat split; try (right; reflexivity).
    eexists. split; [exact Hq|].
    intros c args Hin. exfalso. exact (in_published _ _ _ _ _ Hin).
  - destruct (got_ip_dispatch env info w) as (w' & Hev & Hd & Hs & Hg & _ & Hq).
    rewrite Hev. cbn [world_after]. rewrite Hg, Hs, Hd.
    repeat split; try (right; reflexivity); try apply after_resolution_emptied_or_kept.
    eexists. split; [exact Hq|].
    intros c args Hin. apply in_app_or in Hin as [Hin|Hin].
    + right; left. exact (in_resolved _ _ _ _ Hin).
    + exfalso. exact (in_published _ _ _ _ _ Hin).
  - destruct (scan_done_step env w) as (Hd & Hg & Hs & Hq).
    cbv zeta. rewrite Hd, Hg.
    repeat split; try (right; reflexivity); try exact Hs.
    destruct Hq as [Hq | (cb & args & Hslot & Hq)].
    + exists []. split; [exact Hq|]. intros c args [].
    + eexists. split; [exact Hq|].
      intros c args' [[= <- _]|[]]. right; right. exact Hslot.
  - cbn. repeat split; try (right; reflexivity).
    exists []. split; [unfold queued; now rewrite app_nil_r|]. intros c args [].
Qed.

Lemma pending_emptied_or_kept w w' callback :
  emptied_or_kept (g_jsDisconnectCallback w) (g_jsDisconnectCallback w') ->
  emptied_or_kept (g_jsGotIpCallback w) (g_jsGotIpCallback w') ->
  emptied_or_kept (g_jsScanCallback w) (g_jsScanCallback w') ->
  pending w' callback -> pending w callback.
Proof.
  unfold emptied_or_kept, pending.
  intros [Hd|Hd] [Hg|Hg] [Hs|Hs]; rewrite Hd, Hg, Hs; intuition discriminate.
Qed.

(** Any run of events invokes only callbacks that were pending when it
    began. *)
Lemma dispatch_all_invoke_pending_only events :
  forall w, exists added,
    queued w (dispatch_all events w) added /\ invoke_pending_only w added.
Proof.
  induction events as [|[env e] rest IH]; intros w.
  - exists []. split; [unfold queued; now rewrite app_nil_r|]. intros c args [].
  - pose proof (event_handler_step env e w) as Hstep. cbv zeta in Hstep.
    cbn [dispatch_all].
    destruct (event_handler env e w) as [r w'|w']; cbn [world_after] in Hstep;
      destruct Hstep as (Hd & Hg & Hs & added & Hq & Hinv).
    + destruct (IH w') as (added' & Hq' & Hinv').
      exists (added ++ added')%list. split.
      * unfold queued in *. rewrite Hq', Hq, app_assoc. reflexivity.
      * intros c args Hin. apply in_app_or in Hin as [Hin|Hin].
        -- exact (Hinv c args Hin).
        -- exact (pending_emptied_or_kept w w' c Hd Hg Hs (Hinv' c args Hin)).
    + exists added. split; assumption.
Qed.

(** What disconnect does with a callback that is absent or a function. *)
Lemma disconnect_accepted_run env jsCallback w :
  jsCallback = None \/ jsvIsFunction jsCallback = true ->
  exists w',
    jswrap_ESP32_wifi_disconnect env jsCallback w = Done tt w' /\
    g_jsDisconnectCallback w' = jsCallback /\
    g_jsGotIpCallback w' = g_jsGotIpCallback w /\
    g_jsScanCallback w' = g_jsScanCallback w /\
    queued w w' [] /\
    raised_nothing w w' /\
    vendor_called w w' [esp_wifi_disconnect_call].
Proof.
  intros Hcb. unfold jswrap_ESP32_wifi_disconnect, queued, raised_nothing, vendor_called.
  assert (Hguard : notNULL jsCallback && negb (jsvIsUndefined jsCallback)
                   && negb (jsvIsFunction jsCallback) = false).
  { destruct Hcb as [-> | ->]; [reflexivity | apply andb_false_r]. }
  unfold bind at 1. cbn [set_g_jsDisconnectCallback modify]. rewrite Hguard. cbn.
  observed.
Qed.

(** C8 (as the code has it). disconnect(cbA) followed at once by
    connect("ssid", options, cbB), with no event in between.

    With the options absent (undefined, the NULL pointer): the connect
    call empties g_jsDisconnectCallback, nothing has been invoked so far,
    and whatever events are dispatched afterwards (disconnected,
    associated, got-IP, scan-done and the events without a branch; the
    station-joined and station-left events are not embedded), cbA is not
    invoked, cbA being neither cbB nor a pending scan callback.
    g_jsGotIpCallback holds cbB when set-mode, set-config and start
    succeed, and is empty otherwise.

    With the null value for options: connect is refused with an error
    before any slot is touched and without a vendor call, so cbA stays
    pending, and the next disconnected event invokes it. *)
Theorem disconnect_then_connect (env1 env2 : Env) (w : World) (cbA cbB : nat) :
  cbA <> cbB ->
  g_jsScanCallback w <> Some (JsFunction cbA) ->
  exists w1,
    jswrap_ESP32_wifi_disconnect env1 (Some (JsFunction cbA)) w = Done tt w1 /\
    g_jsDisconnectCallback w1 = Some (JsFunction cbA) /\
    (exists w2,
       jswrap_ESP32_wifi_connect env2 the_ssid None (Some (JsFunction cbB)) w1
       = Done tt w2 /\
       g_jsDisconnectCallback w2 = None /\
       queued w w2 [] /\
       (r_esp_wifi_set_mode env2 = ESP_OK ->
        r_esp_wifi_set_config env2 = ESP_OK ->
        r_esp_wifi_start env2 = ESP_OK ->
        g_jsGotIpCallback w2 = Some (JsFunction cbB)) /\
       (r_esp_wifi_set_mode env2 <> ESP_OK \/
        r_esp_wifi_set_config env2 <> ESP_OK \/
        r_esp_wifi_start env2 <> ESP_OK ->
        g_jsGotIpCallback w2 = None) /\
       (forall events, exists added,
          queued w2 (dispatch_all events w2) added /\
          forall args, ~ In (QueueEvents (JsFunction cbA) args) added)) /\
    (exists w2,
       jswrap_ESP32_wifi_connect env2 the_ssid (Some JsNull) (Some (JsFunction cbB)) w1
       = Done tt w2 /\
       raised w1 w2 "Expecting options object but got %t" [Some JsNull] /\
       vendor_called w1 w2 [] /\
       slots_unchanged w1 w2 /\
       g_jsDisconnectCallback w2 = Some (JsFunction cbA) /\
       forall env info, exists w3,
         event_handler env (EV_STA_DISCONNECTED info) w2 = Done ESP_OK w3 /\
         invocations (queue w3) = (invocations (queue w2) ++ [(JsFunction cbA, [])])%list).
Proof.
  intros Hdistinct Hscan.
  destruct (disconnect_accepted_run env1 (Some (JsFunction cbA)) w (or_intror eq_refl))
    as (w1 & Hrun1 & Hd1 & _ & Hs1 & Hq1 & _ & _).
  exists w1. split; [exact Hrun1|]. split; [exact Hd1|]. split.
  - destruct (connect_accepted_run env2 the_ssid None (Some (JsFunction cbB)) w1 eq_refl)
      as (w2 & Hrun2 & Hd2 & Hs2 & Hq2 & _ & Hcases).
    cbv zeta in Hcases.
    assert (Hgot : g_jsGotIpCallback w2 = Some (JsFunction cbB) \/
                   g_jsGotIpCallback w2 = None).
    { destruct (negb (Z.eqb (r_esp_wifi_set_mode env2) ESP_OK));
        [|destruct (negb (Z.eqb (r_esp_wifi_set_config env2) ESP_OK));
          [|destruct (negb (Z.eqb (r_esp_wifi_start env2) ESP_OK))]];
        destruct Hcases as (_ & _ & Hslot); auto. }
    exists w2. repeat split; try assumption.
    + unfold queued in *. rewrite Hq2, Hq1, !app_nil_r. reflexivity.
    + intros Hmode Hcfg Hstart.
      rewrite (status_ok _ Hmode), (status_ok _ Hcfg), (status_ok _ Hstart) in Hcases.
      apply Hcases.
    + intros Hfail.
      destruct (Z.eqb_spec (r_esp_wifi_set_mode env2) ESP_OK) as [Hmode|Hmode];
        [|apply Hcases].
      destruct (Z.eqb_spec (r_esp_wifi_set_config env2) ESP_OK) as [Hcfg|Hcfg];
        [|apply Hcases].
      destruct (Z.eqb_spec (r_esp_wifi_start env2) ESP_OK) as [Hstart|Hstart];
        [|apply Hcases].
      exfalso. destruct Hfail as [H|[H|H]]; contradiction.
    + intros events.
      destruct (dispatch_all_invoke_pending_only events w2) as (added & Hq & Hinv).
      exists added. split; [exact Hq|].
      intros args Hin. destruct (Hinv _ _ Hin) as [H|[H|H]].
      * rewrite Hd2 in H. discriminate.
      * destruct Hgot as [Hg|Hg]; rewrite Hg in H; [|discriminate].
        injection H as H. apply Hdistinct. symmetry. exact H.
      * rewrite Hs2, Hs1 in H. exact (Hscan H).
  - assert (Hrefused : exists w2,
              jswrap_ESP32_wifi_connect env2 the_ssid (Some JsNull)
                (Some (JsFunction cbB)) w1 = Done tt w2 /\
              raised w1 w2 "Expecting options object but got %t" [Some JsNull] /\
              vendor_called w1 w2 [] /\
              slots_unchanged w1 w2).
    { unfold raised, vendor_called, slots_unchanged, jswrap_ESP32_wifi_connect,
        the_ssid. cbn. observed. }
    destruct Hrefused as (w2 & Hrun2 & Hx & Hv & (Hd2 & Hg2 & Hs2)).
    exists w2. repeat split; try assumption.
    + rewrite Hd2. exact Hd1.
    + intros env info.
      destruct (disconnected_dispatch env info w2) as (w3 & Hev & _ & _ & _ & _ & Hq).
      exists w3. split; [exact Hev|].
      rewrite Hq, Hd2, Hd1, !invocations_app. cbn [resolved].
      rewrite invocations_published, app_nil_r. reflexivity.
Qed.

Lemma disconnect_then_connect_witness :
  1%nat <> 2%nat /\
  g_jsScanCallback world0 <> Some (JsFunction 1) /\
  exists w1,
    jswrap_ESP32_wifi_disconnect env_ok (Some (JsFunction 1)) world0 = Done tt w1 /\
    g_jsDisconnectCallback w1 = Some (JsFunction 1) /\
    (exists w2,
       jswrap_ESP32_wifi_connect env_ok the_ssid None (Some (JsFunction 2)) w1
       = Done tt w2 /\
       g_jsDisconnectCallback w2 = None /\
       queued world0 w2 [] /\
       (r_esp_wifi_set_mode env_ok = ESP_OK ->
        r_esp_wifi_set_config env_ok = ESP_OK ->
        r_esp_wifi_start env_ok = ESP_OK ->
        g_jsGotIpCallback w2 = Some (JsFunction 2)) /\
       (r_esp_wifi_set_mode env_ok <> ESP_OK \/
        r_esp_wifi_set_config env_ok <> ESP_OK \/
        r_esp_wifi_start env_ok <> ESP_OK ->
        g_jsGotIpCallback w2 = None) /\
       (forall events, exists added,
          queued w2 (dispatch_all events w2) added /\
          forall args, ~ In (QueueEvents (JsFunction 1) args) added)) /\
    (exists w2,
       jswrap_ESP32_wifi_connect env_ok the_ssid (Some JsNull) (Some (JsFunction 2)) w1
       = Done tt w2 /\
       raised w1 w2 "Expecting options object but got %t" [Some JsNull] /\
       vendor_called w1 w2 [] /\
       slots_unchanged w1 w2 /\
       g_jsDisconnectCallback w2 = Some (JsFunction 1) /\
       forall env info, exists w3,
         event_handler env (EV_STA_DISCONNECTED info) w2 = Done ESP_OK w3 /\
         invocations (queue w3) = (invocations (queue w2) ++ [(JsFunction 1, [])])%list).
Proof.
  assert (Hdistinct : 1%nat <> 2%nat) by discriminate.
  assert (Hscan : g_jsScanCallback world0 <> Some (JsFunction 1)) by discriminate.
  split; [exact Hdistinct|]. split; [exact Hscan|].
  exact (disconnect_then_connect env_ok env_ok world0 1 2 Hdistinct Hscan).
Defined.

(** C8 as stated fails, in two ways.  With the null value for options and
    every vendor call succeeding, connect is refused: afterwards
    g_jsDisconnectCallback still holds cbA, g_jsGotIpCallback does not
    hold cbB, and a disconnected event invokes cbA.  With the options
    absent and a failing set-mode call, g_jsGotIpCallback does not hold
    cbB after the connect call. *)
Lemma disconnect_then_connect_as_stated_fails :
  (g_jsDisconnectCallback
     (world_after
        (jswrap_ESP32_wifi_connect env_ok the_ssid (Some JsNull) (Some (JsFunction 2))
           (world_after
              (jswrap_ESP32_wifi_disconnect env_ok (Some (JsFunction 1)) world0))))
   = Some (JsFunction 1) /\
   g_jsGotIpCallback
     (world_after
        (jswrap_ESP32_wifi_connect env_ok the_ssid (Some JsNull) (Some (JsFunction 2))
           (world_after
              (jswrap_ESP32_wifi_disconnect env_ok (Some (JsFunction 1)) world0))))
   <> Some (JsFunction 2) /\
   In (QueueEvents (JsFunction 1) [])
      (queue
         (world_after
            (event_handler env_ok
               (EV_STA_DISCONNECTED
                  {| disconnected_ssid := ap_ssid open_access_point;
                     disconnected_bssid := [x5c; xcf; x7f; x01; x02; x03];
                     disconnected_reason := 8 |})
               (world_after
                  (jswrap_ESP32_wifi_connect env_ok the_ssid (Some JsNull)
                     (Some (JsFunction 2))
                     (world_after
                        (jswrap_ESP32_wifi_disconnect env_ok (Some (JsFunction 1))
                           world0)))))))) /\
  (r_esp_wifi_set_mode env_set_mode_fails <> ESP_OK /\
   g_jsGotIpCallback
     (world_after
        (jswrap_ESP32_wifi_connect env_set_mode_fails the_ssid None (Some (JsFunction 2))
           (world_after
              (jswrap_ESP32_wifi_disconnect env_ok (Some (JsFunction 1)) world0))))
   <> Some (JsFunction 2)).
Proof.
  split; [split; [reflexivity|]; split; [discriminate|]; left; reflexivity|].
  split; discriminate.
Qed.


(* ================================================================== *)
(** ** Further runs of the operations *)

(** The null value is not the NULL pointer: given as options it is
    refused by connect, which then changes no slot and calls nothing. *)
Example connect_null_options_refused :
  jswrap_ESP32_wifi_connect env_ok the_ssid (Some JsNull) (Some (JsFunction 2))
    (world_disconnect_pending (JsFunction 1)) =
  Done tt
    {| g_jsDisconnectCallback := Some (JsFunction 1);
       g_jsGotIpCallback := None;
       g_jsScanCallback := None;
       queue := [];
       exceptions := [{| exc_format := "Expecting options object but got %t";
                         exc_args := [Some JsNull] |}];
       vendor_calls := [];
       esp_log := [] |}.
Proof. reflexivity. Qed.

(** A scan whose set-mode call fails has stored its callback already, and
    the next scan is refused. *)
Example scan_after_failed_scan :
  world_after (jswrap_ESP32_wifi_scan env_set_mode_fails (Some (JsFunction 1)) world0) =
    {| g_jsDisconnectCallback := None;
       g_jsGotIpCallback := None;
       g_jsScanCallback := Some (JsFunction 1);
       queue := [];
       exceptions := [];
       vendor_calls := [esp_wifi_set_mode_call WIFI_MODE_STA];
       esp_log := [scan_set_mode_line ESP_FAIL] |} /\
  exceptions
    (world_after
       (jswrap_ESP32_wifi_scan env_ok (Some (JsFunction 2))
          (world_after
             (jswrap_ESP32_wifi_scan env_set_mode_fails (Some (JsFunction 1)) world0)))) =
    [{| exc_format := "A scan is already in progress."; exc_args := [] |}].
Proof. split; reflexivity. Qed.

(** connect and the got-IP event, run from start-up. *)
Example connect_then_got_ip_run :
  world_after
    (event_handler env_ok got_ip_event
       (world_after
          (jswrap_ESP32_wifi_connect env_ok myssid secret_options (Some (JsFunction 3))
             world0))) =
    {| g_jsDisconnectCallback := None;
       g_jsGotIpCallback := None;
       g_jsScanCallback := None;
       queue :=
         [QueueEvents (JsFunction 3) [JsNull];
          QueueObjectCallbacks (JsObject []) "#onconnected"
            [JsObject [("ip", JsString "192.168.1.5");
                       ("netmask", JsString "255.255.255.0");
                       ("gw", JsString "192.168.1.1")]]];
       exceptions := [];
       vendor_calls :=
         [esp_wifi_set_mode_call WIFI_MODE_STA;
          esp_wifi_set_config_call WIFI_IF_STA
            (list_byte_of_string "myssid") (list_byte_of_string "secret") false;
          esp_wifi_start_call;
          esp_wifi_connect_call];
       esp_log := [] |}.
Proof. reflexivity. Qed.

(* ================================================================== *)
(** ** The scan result builder *)

Lemma scan_loop_app records acc :
  scan_loop records acc = (acc ++ map scan_record records)%list.
Proof.
  revert acc. induction records as [|r rest IH]; intros acc; cbn [scan_loop map].
  - now rewrite app_nil_r.
  - rewrite IH, <- app_assoc. reflexivity.
Qed.

Lemma scan_results_map env :
  scan_results env =
  map scan_record
      (firstn (snd (r_esp_wifi_scan_get_ap_num env))
              (snd (r_esp_wifi_scan_get_ap_records env))).
Proof.
  unfold scan_results.
  destruct (snd (r_esp_wifi_scan_get_ap_num env)) as [|n]; [reflexivity|].
  cbn [Nat.ltb Nat.leb]. now rewrite scan_loop_app.
Qed.

(** X1. A scan-done event that finds a callback pending, the vendor
    handing over the results, invokes the callback with one record per
    access point the vendor wrote, in the vendor's order, and never with
    more records than the number the vendor announced. *)
Theorem scan_done_results_in_vendor_order (env : Env) (cb : JsVar) (w : World) :
  g_jsScanCallback w = Some cb ->
  scan_fetch_ok env ->
  exists w',
    event_handler env EV_SCAN_DONE w = Done ESP_OK w' /\
    queued w w'
      [QueueEvents cb
         [JsArray (map scan_record
                       (firstn (snd (r_esp_wifi_scan_get_ap_num env))
                               (snd (r_esp_wifi_scan_get_ap_records env))))]] /\
    (List.length (firstn (snd (r_esp_wifi_scan_get_ap_num env))
                         (snd (r_esp_wifi_scan_get_ap_records env)))
     <= snd (r_esp_wifi_scan_get_ap_num env))%nat /\
    g_jsScanCallback w' = None.
Proof.
  intros Hslot Hfetch.
  destruct (scan_done_resolves env cb w Hslot Hfetch) as (w' & Hev & Hs & _ & _ & Hq).
  exists w'. rewrite scan_results_map in Hq.
  repeat split; try assumption. apply firstn_le_length.
Qed.

Lemma scan_done_results_in_vendor_order_witness :
  g_jsScanCallback (world_scan_pending (JsFunction 5)) = Some (JsFunction 5) /\
  scan_fetch_ok env_two_access_points /\
  exists w',
    event_handler env_two_access_points EV_SCAN_DONE (world_scan_pending (JsFunction 5))
    = Done ESP_OK w' /\
    queued (world_scan_pending (JsFunction 5)) w'
      [QueueEvents (JsFunction 5)
         [JsArray (map scan_record
                       (firstn (snd (r_esp_wifi_scan_get_ap_num env_two_access_points))
                               (snd (r_esp_wifi_scan_get_ap_records
                                       env_two_access_points))))]] /\
    (List.length (firstn (snd (r_esp_wifi_scan_get_ap_num env_two_access_points))
                         (snd (r_esp_wifi_scan_get_ap_records env_two_access_points)))
     <= snd (r_esp_wifi_scan_get_ap_num env_two_access_points))%nat /\
    g_jsScanCallback w' = None.
Proof.
  split; [reflexivity|]. split; [exact scan_fetch_ok_two_access_points|].
  exact (scan_done_results_in_vendor_order env_two_access_points (JsFunction 5)
           (world_scan_pending (JsFunction 5)) eq_refl scan_fetch_ok_two_access_points).
Defined.

(** A bounded, terminated copy holds at most [n] characters, none of them
    NUL, and they are the first bytes of the source. *)
Lemma cstring_bounded src n :
  let s := cstring (firstn n src ++ [NUL]) in
  (List.length s <= n)%nat /\ Forall nonNUL s /\ firstn (List.length s) src = s.
Proof.
  revert src. induction n as [|n IH]; intros src.
  - cbn. repeat split; [lia | constructor].
  - destruct src as [|b rest].
    + cbn. repeat split; [lia | constructor].
    + cbn [firstn app cstring]. destruct (isNUL b) eqn:E.
      * cbn. repeat split; [lia | constructor].
      * destruct (IH rest) as (Hlen & Hall & Hpre). cbn [List.length firstn].
        repeat split.
        -- lia.
        -- constructor; [now apply isNUL_false | exact Hall].
        -- f_equal. exact Hpre.
Qed.

(** X2. Whatever an access-point record holds, the record built for it
    has exactly the fields rssi, authMode and ssid, in this order; the
    ssid has at most 32 characters, none of them NUL, and they are the
    leading bytes of the record's ssid buffer. *)
Theorem scan_record_shape (r : wifi_ap_record_t) :
  exists ssid,
    scan_record r =
      JsObject [("rssi", JsInteger (ap_rssi r));
                ("authMode", JsString (authModeToString (ap_authmode r)));
                ("ssid", JsString ssid)] /\
    (String.length ssid <= 32)%nat /\
    Forall nonNUL (list_byte_of_string ssid) /\
    firstn (String.length ssid) (ap_ssid r) = list_byte_of_string ssid.
Proof.
  exists (string_of_list_byte (cstring (firstn 32 (ap_ssid r) ++ [NUL]))).
  rewrite length_string_of_list_byte, list_byte_of_string_of_list_byte.
  destruct (cstring_bounded (ap_ssid r) 32) as (Hlen & Hall & Hpre).
  repeat split; try assumption.
  unfold scan_record, jsvNewFromString, jsvNewObject.
  cbn -[cstring strncpy string_of_list_byte firstn].
  rewrite cstring_strncpy.
  destruct (ap_authmode r); reflexivity.
Qed.

(* ================================================================== *)
(** ** The event handler, branch by branch *)

Lemma world_eta w :
  w = after_event w (g_jsDisconnectCallback w) (g_jsGotIpCallback w) (g_jsScanCallback w)
        [] [].
Proof. destruct w. unfold after_event. cbn. now rewrite !app_nil_r. Qed.

Lemma disconnected_world env info w :
  event_handler env (EV_STA_DISCONNECTED info) w =
  Done ESP_OK
    (after_event w (after_resolution (g_jsDisconnectCallback w))
       (g_jsGotIpCallback w) (g_jsScanCallback w)
       (resolved (g_jsDisconnectCallback w) [] ++
        published env "#ondisconnected" (disconnected_details info))
       []).
Proof.
  destruct w as [d g s q x v l].
  unfold event_handler, sendWifiEvent, getWifiModule, after_event, published, resolved,
    after_resolution, disconnected_details, bind, gets.
  destruct d as [[]|]; destruct (r_require_Wifi env);
    cbn -[jsvNewFromString memcpy fmt_MAC fmt_d c_str];
    rewrite <- ?app_assoc, ?app_nil_r; reflexivity.
Qed.

Lemma associated_world env info w :
  event_handler env (EV_STA_CONNECTED info) w =
  Done ESP_OK
    (after_event w (g_jsDisconnectCallback w) (g_jsGotIpCallback w) (g_jsScanCallback w)
       (published env "#onassociated" (associated_details info)) []).
Proof.
  destruct w as [d g s q x v l].
  unfold event_handler, sendWifiEvent, getWifiModule, after_event, published,
    associated_details, bind.
  destruct (r_require_Wifi env);
    cbn -[jsvNewFromString memcpy fmt_MAC fmt_d c_str];
    rewrite <- ?app_assoc, ?app_nil_r; reflexivity.
Qed.

Lemma got_ip_world env info w :
  event_handler env (EV_STA_GOT_IP info) w =
  Done ESP_OK
    (after_event w (g_jsDisconnectCallback w)
       (after_resolution (g_jsGotIpCallback w)) (g_jsScanCallback w)
       (resolved (g_jsGotIpCallback w) [JsNull] ++
        published env "#onconnected" (connected_details info))
       []).
Proof.
  destruct w as [d g s q x v l].
  unfold event_handler, sendWifiCompletionCB, sendWifiEvent, getWifiModule, read_slot,
    after_event, published, resolved, after_resolution, connected_details, bind, gets.
  destruct g as [[]|]; destruct (r_require_Wifi env);
    cbn -[jsvNewFromString fmt_IP c_str];
    rewrite <- ?app_assoc, ?app_nil_r; reflexivity.
Qed.

Lemma plain_world env id w : event_handler env (EV_plain id) w = Done ESP_OK w.
Proof. reflexivity. Qed.

(** The scan-done branch, by what the vendor answers. *)
Lemma scan_done_world env w :
  event_handler env EV_SCAN_DONE w =
  match g_jsScanCallback w with
  | None => Done ESP_OK w
  | Some cb =>
      let apCount := snd (r_esp_wifi_scan_get_ap_num env) in
      if negb (Z.eqb (fst (r_esp_wifi_scan_get_ap_num env)) ESP_OK) then
        Aborted (after_event w (g_jsDisconnectCallback w) (g_jsGotIpCallback w)
                   (Some cb) [] [esp_wifi_scan_get_ap_num_call])
      else if (0 <? apCount)%nat then
        if negb (Z.eqb (fst (r_esp_wifi_scan_get_ap_records env)) ESP_OK) then
          Aborted (after_event w (g_jsDisconnectCallback w) (g_jsGotIpCallback w)
                     (Some cb) []
                     [esp_wifi_scan_get_ap_num_call;
                      esp_wifi_scan_get_ap_records_call apCount])
        else
          Done ESP_OK
            (after_event w (g_jsDisconnectCallback w) (g_jsGotIpCallback w) None
               [QueueEvents cb [JsArray (scan_results env)]]
               [esp_wifi_scan_get_ap_num_call;
                esp_wifi_scan_get_ap_records_call apCount])
      else
        Done ESP_OK
          (after_event w (g_jsDisconnectCallback w) (g_jsGotIpCallback w) None
             [QueueEvents cb [JsArray (scan_results env)]]
             [esp_wifi_scan_get_ap_num_call])
  end.
Proof.
  destruct w as [d g s q x v l].
  unfold event_handler, scanCB, esp_wifi_scan_get_ap_num, esp_wifi_scan_get_ap_records,
    ESP_ERROR_CHECK, after_event, scan_results, bind, gets.
  destruct s as [cb|]; [|reflexivity].
  destruct (r_esp_wifi_scan_get_ap_num env) as [err apCount].
  cbn -[firstn scan_loop Z.eqb Nat.ltb].
  destruct (Z.eqb err ESP_OK); cbn -[firstn scan_loop Z.eqb Nat.ltb];
    [|now rewrite app_nil_r].
  destruct (0 <? apCount)%nat; cbn -[firstn scan_loop Z.eqb]; [|reflexivity].
  destruct (Z.eqb (fst (r_esp_wifi_scan_get_ap_records env)) ESP_OK);
    cbn -[firstn scan_loop]; rewrite <- ?app_assoc, ?app_nil_r; reflexivity.
Qed.

Lemma scan_fetch_fails_iff env :
  scan_fetch_fails env <->
  negb (Z.eqb (fst (r_esp_wifi_scan_get_ap_num env)) ESP_OK) = true \/
  ((0 <? snd (r_esp_wifi_scan_get_ap_num env))%nat = true /\
   negb (Z.eqb (fst (r_esp_wifi_scan_get_ap_records env)) ESP_OK) = true).
Proof.
  unfold scan_fetch_fails.
  rewrite !negb_true_iff, !Z.eqb_neq, Nat.ltb_lt. reflexivity.
Qed.

(** X3. The event handler (on the events embedded here, which are all
    but the two access-point station events) aborts in one situation
    only: a scan-done event finds a scan callback pending and the vendor
    refuses the number of access points or, that number being positive,
    the records.  The abort comes before the callback is touched: nothing
    is queued, raised or cleared.  In every other case the handler
    returns ESP_OK. *)
Theorem event_handler_aborts_only_on_failed_fetch
    (env : Env) (e : system_event_t) (w : World) :
  ((exists w', event_handler env e w = Aborted w') <->
   (e = EV_SCAN_DONE /\ g_jsScanCallback w <> None /\ scan_fetch_fails env)) /\
  (forall w', event_handler env e w = Aborted w' ->
     slots_unchanged w w' /\ queued w w' [] /\ raised_nothing w w') /\
  (forall r w', event_handler env e w = Done r w' -> r = ESP_OK).
Proof.
  destruct e as [info|info|info| |id];
    try (rewrite ?disconnected_world, ?associated_world, ?got_ip_world, ?plain_world;
         split; [split; [intros [w' H]; discriminate | intros [H _]; discriminate]|];
         split; [intros w' H; discriminate | intros r w' [= <- _]; reflexivity]).
  rewrite scan_done_world, scan_fetch_fails_iff.
  destruct (g_jsScanCallback w) as [cb|] eqn:Hslot.
  - cbv zeta.
    destruct (negb (Z.eqb (fst (r_esp_wifi_scan_get_ap_num env)) ESP_OK)) eqn:Hnum;
      [|destruct (0 <? snd (r_esp_wifi_scan_get_ap_num env))%nat eqn:Hpos;
        [destruct (negb (Z.eqb (fst (r_esp_wifi_scan_get_ap_records env)) ESP_OK))
           eqn:Hrecs|]].
    + split; [split; [intros _; repeat split; [discriminate | tauto]
                      | intros _; eexists; reflexivity]|].
      split; [|intros r w' H; discriminate].
      intros w' [= <-]. unfold slots_unchanged, queued, raised_nothing, after_event; cbn.
      rewrite ?app_nil_r, ?Hslot. repeat split.
    + split; [split; [intros _; repeat split; [discriminate | tauto]
                      | intros _; eexists; reflexivity]|].
      split; [|intros r w' H; discriminate].
      intros w' [= <-]. unfold slots_unchanged, queued, raised_nothing, after_event; cbn.
      rewrite ?app_nil_r, ?Hslot. repeat split.
    + split; [split; [intros [w' H]; discriminate
                      | intros (_ & _ & [H|[H1 H2]]); discriminate]|].
      split; [intros w' H; discriminate | intros r w' [= <- _]; reflexivity].
    + split; [split; [intros [w' H]; discriminate
                      | intros (_ & _ & [H|[H1 H2]]); discriminate]|].
      split; [intros w' H; discriminate | intros r w' [= <- _]; reflexivity].
  - split; [split; [intros [w' H]; discriminate | intros (_ & H & _); contradiction]|].
    split; [intros w' H; discriminate | intros r w' [= <- _]; reflexivity].
Qed.

Lemma in_published_object env name details object name' args :
  In (QueueObjectCallbacks object name' args) (published env name details) ->
  r_require_Wifi env = Some object /\ name' = name /\ args = [details].
Proof.
  unfold published. destruct (r_require_Wifi env) as [wifi|]; cbn; [|tauto].
  intros [[= <- <- <-]|[]]. auto.
Qed.

Lemma not_in_resolved_object slot args object name args' :
  ~ In (QueueObjectCallbacks object name args') (resolved slot args).
Proof.
  destruct slot as [[]|]; cbn; try tauto. intros [H|[]]. discriminate.
Qed.

(** X4. Whatever the event (of those embedded here, which are all but
    the two access-point station events), the handler raises no error and
    writes no warning or error line; it calls the vendor only for a
    scan-done event with a scan callback pending; and the only events it
    publishes are disconnected, associated and connected, each on the
    Wifi module and with a single argument. *)
Theorem event_handler_quiet (env : Env) (e : system_event_t) (w : World) :
  raised_nothing w (world_after (event_handler env e w)) /\
  logged w (world_after (event_handler env e w)) [] /\
  (e <> EV_SCAN_DONE \/ g_jsScanCallback w = None ->
   vendor_called w (world_after (event_handler env e w)) []) /\
  exists added,
    queued w (world_after (event_handler env e w)) added /\
    forall object name args,
      In (QueueObjectCallbacks object name args) added ->
      r_require_Wifi env = Some object /\
      In name published_names /\
      List.length args = 1%nat.
Proof.
  unfold raised_nothing, logged, vendor_called, queued, published_names.
  destruct e as [info|info|info| |id].
  - rewrite disconnected_world. cbn [world_after after_event exceptions esp_log
      vendor_calls queue]. rewrite !app_nil_r.
    repeat split. eexists. split; [reflexivity|].
    intros o n a Hin. apply in_app_or in Hin as [Hin|Hin].
    + exfalso. exact (not_in_resolved_object _ _ _ _ _ Hin).
    + apply in_published_object in Hin as (Ho & -> & ->). cbn. tauto.
  - rewrite associated_world. cbn [world_after after_event exceptions esp_log
      vendor_calls queue]. rewrite !app_nil_r.
    repeat split. eexists. split; [reflexivity|].
    intros o n a Hin.
    apply in_published_object in Hin as (Ho & -> & ->). cbn. tauto.
  - rewrite got_ip_world. cbn [world_after after_event exceptions esp_log
      vendor_calls queue]. rewrite !app_nil_r.
    repeat split. eexists. split; [reflexivity|].
    intros o n a Hin. apply in_app_or in Hin as [Hin|Hin].
    + exfalso. exact (not_in_resolved_object _ _ _ _ _ Hin).
    + apply in_published_object in Hin as (Ho & -> & ->). cbn. tauto.
  - rewrite scan_done_world.
    destruct (g_jsScanCallback w) as [cb|] eqn:Hslot.
    + cbv zeta.
      destruct (negb (Z.eqb (fst (r_esp_wifi_scan_get_ap_num env)) ESP_OK));
        [|destruct (0 <? snd (r_esp_wifi_scan_get_ap_num env))%nat;
          [destruct (negb (Z.eqb (fst (r_esp_wifi_scan_get_ap_records env)) ESP_OK))|]];
        cbn [world_after after_event exceptions esp_log vendor_calls queue];
        (split; [reflexivity|]; split; [now rewrite app_nil_r|];
         split; [intros [H|H]; congruence|];
         eexists; split; [reflexivity|];
         intros o n a Hin; cbn in Hin; intuition discriminate).
    + cbn [world_after]. rewrite !app_nil_r. repeat split.
      exists []. split; [now rewrite app_nil_r|]. intros o n a [].
  - cbn [event_handler ret world_after]. rewrite !app_nil_r. repeat split.
    exists []. split; [now rewrite app_nil_r|]. intros o n a [].
Qed.

Lemma event_handler_aborts_only_on_failed_fetch_witness :
  (EV_SCAN_DONE = EV_SCAN_DONE /\
   g_jsScanCallback (world_scan_pending (JsFunction 1)) <> None /\
   scan_fetch_fails env_scan_count_fails) /\
  exists w',
    event_handler env_scan_count_fails EV_SCAN_DONE (world_scan_pending (JsFunction 1))
    = Aborted w'.
Proof.
  assert (H : EV_SCAN_DONE = EV_SCAN_DONE /\
              g_jsScanCallback (world_scan_pending (JsFunction 1)) <> None /\
              scan_fetch_fails env_scan_count_fails).
  { split; [reflexivity|]. split; [discriminate|]. left. discriminate. }
  split; [exact H|].
  exact (proj2 (proj1 (event_handler_aborts_only_on_failed_fetch env_scan_count_fails
                         EV_SCAN_DONE (world_scan_pending (JsFunction 1)))) H).
Defined.

Lemma event_handler_quiet_witness :
  (got_ip_event <> EV_SCAN_DONE \/ g_jsScanCallback world0 = None) /\
  vendor_called world0 (world_after (event_handler env_ok got_ip_event world0)) [].
Proof.
  assert (H : got_ip_event <> EV_SCAN_DONE \/ g_jsScanCallback world0 = None)
    by (right; reflexivity).
  split; [exact H|].
  exact (proj1 (proj2 (proj2 (event_handler_quiet env_ok got_ip_event world0))) H).
Defined.

(* ================================================================== *)
(** ** Publishing an event *)

(** X5. sendWifiEvent looks for the Wifi module first: without it,
    nothing happens at all, not even the warning for an event id that has
    no name.  With the module, an id that has a name gets exactly one
    publication, under a name that starts with "#on" and with the details
    as the single argument; an id without a name gets one warning line
    and no publication. *)
Theorem sendWifiEvent_cases
    (env : Env) (id : system_event_id_t) (details : JsVar) (w : World) :
  (r_require_Wifi env = None -> sendWifiEvent env id details w = Done tt w) /\
  (forall wifi,
     r_require_Wifi env = Some wifi -> In id named_event_ids ->
     exists name,
       sendWifiEvent env id details w =
       Done tt (after_event w (g_jsDisconnectCallback w) (g_jsGotIpCallback w)
                  (g_jsScanCallback w) [QueueObjectCallbacks wifi name [details]] []) /\
       String.prefix "#on" name = true) /\
  (forall wifi,
     r_require_Wifi env = Some wifi -> ~ In id named_event_ids ->
     exists w',
       sendWifiEvent env id details w = Done tt w' /\
       slots_unchanged w w' /\
       queued w w' [] /\
       vendor_called w w' [] /\
       raised_nothing w w' /\
       logged w w' [warning_line id]).
Proof.
  unfold sendWifiEvent, getWifiModule, bind, ret.
  split; [intros ->; reflexivity|]. split.
  - intros wifi -> Hin. destruct w as [d g s q x v l]. unfold after_event.
    destruct id; cbn in Hin;
      try (exfalso; intuition discriminate);
      (eexists; cbn; rewrite app_nil_r; split; reflexivity).
  - intros wifi -> Hout.
    destruct id; try (exfalso; apply Hout; cbn; tauto);
      (eexists; split; [reflexivity|];
       unfold slots_unchanged, queued, vendor_called, raised_nothing, logged; cbn;
       rewrite ?app_nil_r; repeat split).
Qed.

Lemma sendWifiEvent_cases_witness :
  r_require_Wifi env_ok = Some (JsObject []) /\
  ~ In SYSTEM_EVENT_SCAN_DONE named_event_ids /\
  exists w',
    sendWifiEvent env_ok SYSTEM_EVENT_SCAN_DONE JsNull world0 = Done tt w' /\
    slots_unchanged world0 w' /\
    queued world0 w' [] /\
    vendor_called world0 w' [] /\
    raised_nothing world0 w' /\
    logged world0 w' [warning_line SYSTEM_EVENT_SCAN_DONE].
Proof.
  assert (Hout : ~ In SYSTEM_EVENT_SCAN_DONE named_event_ids)
    by (cbn; intuition discriminate).
  split; [reflexivity|]. split; [exact Hout|].
  exact (proj2 (proj2 (sendWifiEvent_cases env_ok SYSTEM_EVENT_SCAN_DONE JsNull world0))
           (JsObject []) eq_refl Hout).
Defined.

(* ================================================================== *)
(** ** What the slots hold *)

Lemma callback_guard_false jsCallback :
  notNULL jsCallback && negb (jsvIsUndefined jsCallback) && negb (jsvIsFunction jsCallback)
  = false ->
  empty_or_function jsCallback.
Proof.
  unfold empty_or_function. destruct jsCallback as [[]|]; cbn; intros H;
    try discriminate; auto.
Qed.

(** connect, whatever its arguments: it never aborts, queues nothing,
    leaves the scan slot alone, and each of the other two slots is as it
    was, or empty, or (the got-IP slot) holds the callback given, which is
    then a function. *)
Lemma connect_slots env jsSsid jsOptions jsCallback w :
  exists w',
    jswrap_ESP32_wifi_connect env jsSsid jsOptions jsCallback w = Done tt w' /\
    queued w w' [] /\
    g_jsScanCallback w' = g_jsScanCallback w /\
    (g_jsDisconnectCallback w' = g_jsDisconnectCallback w \/
     g_jsDisconnectCallback w' = None) /\
    (g_jsGotIpCallback w' = g_jsGotIpCallback w \/
     g_jsGotIpCallback w' = None \/
     (g_jsGotIpCallback w' = jsCallback /\ jsvIsFunction jsCallback = true)).
Proof.
  unfold jswrap_ESP32_wifi_connect, queued.
  destruct (jsvIsString jsSsid); cbn [negb]; [|observed; auto].
  destruct (notNULL jsOptions && negb (jsvIsObject jsOptions)); [observed; auto|].
  unfold bind at 1. cbn [set_g_jsGotIpCallback modify].
  destruct (notNULL jsCallback && negb (jsvIsUndefined jsCallback)
            && negb (jsvIsFunction jsCallback)) eqn:Hcb; [observed; auto|].
  apply callback_guard_false in Hcb.
  unfold bind at 1. cbn [set_g_jsDisconnectCallback modify].
  match goal with
  | |- context [if ?c then jsExceptionHere _ _ else _] => destruct c
  end; [observed; auto|].
  unfold esp_wifi_set_mode, esp_wifi_set_config, esp_wifi_start, esp_wifi_connect,
    jsvLockAgainSafe.
  cbn -[Z.eqb].
  destruct (Z.eqb (r_esp_wifi_set_mode env) ESP_OK); cbn -[Z.eqb]; [|observed; auto].
  destruct (Z.eqb (r_esp_wifi_set_config env) ESP_OK); cbn -[Z.eqb]; [|observed; auto].
  destruct (Z.eqb (r_esp_wifi_start env) ESP_OK); cbn -[Z.eqb]; [|observed; auto].
  destruct Hcb as [-> | Hfun];
    destruct (Z.eqb (r_esp_wifi_connect env) ESP_OK); cbn -[Z.eqb]; observed; auto.
Qed.

Lemma refused_callback_guard jsCallback :
  refused_callback jsCallback ->
  notNULL jsCallback && negb (jsvIsNull jsCallback) && negb (jsvIsFunction jsCallback) = true.
Proof.
  intros (Hnn & Hnull & Hfun). rewrite Hfun.
  destruct jsCallback as [[]|]; try reflexivity; contradiction.
Qed.

(* ================================================================== *)
(** ** The query operations and their callback *)

(** X7. getDetails and getAPDetails treat the callback as a convenience
    and never store it.  A callback that is neither absent, nor null, nor
    a function is refused with an error before the vendor is asked, and
    NULL is returned; without a callback the details are returned and
    nothing is queued; with a function, one invocation is queued whose
    single argument is the very object returned.  No pending-callback
    slot changes in any case. *)
Theorem details_callback_contract (env : Env) :
  callback_contract (jswrap_ESP32_wifi_getDetails env)
                    (esp_wifi_get_config_call WIFI_IF_STA) /\
  callback_contract (jswrap_ESP32_wifi_getAPDetails env)
                    (esp_wifi_get_config_call WIFI_IF_AP).
Proof.
  unfold callback_contract, raised, vendor_called, queued, raised_nothing, slots_unchanged.
  split; intros jsCallback w; (split; [|split]).
  - intros Href. unfold jswrap_ESP32_wifi_getDetails.
    rewrite (refused_callback_guard _ Href). observed.
  - intros [-> | ->]; unfold jswrap_ESP32_wifi_getDetails;
      cbn -[cstring strncpy string_of_list_byte firstn];
      (eexists; eexists; split; [reflexivity|];
       cbn; rewrite ?app_nil_r; repeat split).
  - intros f ->. unfold jswrap_ESP32_wifi_getDetails.
    cbn -[cstring strncpy string_of_list_byte firstn].
    eexists; eexists; split; [reflexivity|]. cbn; rewrite ?app_nil_r; repeat split.
  - intros Href. unfold jswrap_ESP32_wifi_getAPDetails.
    rewrite (refused_callback_guard _ Href). observed.
  - intros [-> | ->]; unfold jswrap_ESP32_wifi_getAPDetails;
      cbn -[cstring strncpy string_of_list_byte firstn];
      (eexists; eexists; split; [reflexivity|];
       cbn; rewrite ?app_nil_r; repeat split).
  - intros f ->. unfold jswrap_ESP32_wifi_getAPDetails.
    cbn -[cstring strncpy string_of_list_byte firstn].
    eexists; eexists; split; [reflexivity|]. cbn; rewrite ?app_nil_r; repeat split.
Qed.

Lemma details_callback_contract_witness :
  refused_callback (Some (JsInteger 42)) /\
  exists w',
    jswrap_ESP32_wifi_getDetails env_ok (Some (JsInteger 42))
      (world_scan_pending (JsFunction 1)) = Done None w' /\
    raised (world_scan_pending (JsFunction 1)) w'
      "Expecting callback function but got %v" [Some (JsInteger 42)] /\
    vendor_called (world_scan_pending (JsFunction 1)) w' [] /\
    queued (world_scan_pending (JsFunction 1)) w' [] /\
    slots_unchanged (world_scan_pending (JsFunction 1)) w'.
Proof.
  assert (Href : refused_callback (Some (JsInteger 42)))
    by (repeat split; discriminate).
  split; [exact Href|].
  exact (proj1 (proj1 (details_callback_contract env_ok) (Some (JsInteger 42))
                  (world_scan_pending (JsFunction 1))) Href).
Defined.

(* ================================================================== *)
(** ** The invariant of the slots *)

(** disconnect, whatever its argument. *)
Lemma disconnect_slots env jsCallback w :
  exists w',
    jswrap_ESP32_wifi_disconnect env jsCallback w = Done tt w' /\
    queued w w' [] /\
    g_jsGotIpCallback w' = g_jsGotIpCallback w /\
    g_jsScanCallback w' = g_jsScanCallback w /\
    (g_jsDisconnectCallback w' = None \/
     (g_jsDisconnectCallback w' = jsCallback /\ jsvIsFunction jsCallback = true)).
Proof.
  unfold jswrap_ESP32_wifi_disconnect, queued.
  unfold bind at 1. cbn [set_g_jsDisconnectCallback modify].
  destruct (notNULL jsCallback && negb (jsvIsUndefined jsCallback)
            && negb (jsvIsFunction jsCallback)) eqn:Hcb; [observed; auto|].
  apply callback_guard_false in Hcb.
  destruct Hcb as [-> | Hfun]; observed; auto.
Qed.

(** scan, whatever its argument. *)
Lemma scan_slots env jsCallback w :
  exists w',
    jswrap_ESP32_wifi_scan env jsCallback w = Done tt w' /\
    queued w w' [] /\
    g_jsDisconnectCallback w' = g_jsDisconnectCallback w /\
    g_jsGotIpCallback w' = g_jsGotIpCallback w /\
    (g_jsScanCallback w' = g_jsScanCallback w \/
     (g_jsScanCallback w = None /\ g_jsScanCallback w' = jsCallback /\
      jsvIsFunction jsCallback = true)).
Proof.
  unfold jswrap_ESP32_wifi_scan, queued, bind at 1, gets.
  destruct (g_jsScanCallback w) as [cb|] eqn:Hslot; cbn [notNULL].
  - observed; auto.
  - destruct (jsvIsFunction jsCallback) eqn:Hfun; cbn [negb]; [|observed; auto].
    unfold esp_wifi_set_mode, esp_wifi_start, esp_wifi_scan_start, jsvLockAgainSafe.
    cbn -[Z.eqb].
    destruct (Z.eqb (r_esp_wifi_set_mode env) ESP_OK); cbn -[Z.eqb]; [|observed; auto].
    destruct (Z.eqb (r_esp_wifi_start env) ESP_OK); cbn -[Z.eqb]; observed; auto.
Qed.

Lemma empty_or_function_after_event before after :
  empty_or_function before -> emptied_or_kept before after -> empty_or_function after.
Proof. intros H [-> | ->]; [left; reflexivity | exact H]. Qed.

Lemma after_resolution_function slot :
  empty_or_function slot -> after_resolution slot = None.
Proof. unfold after_resolution. intros [-> | ->]; reflexivity. Qed.

(** X8. Every slot holds nothing or a function: this is so at start-up
    and is kept by connect, disconnect and scan whatever their arguments
    and whatever the vendor answers, and by every event embedded here.
    Hence a
    disconnected event always leaves g_jsDisconnectCallback empty and a
    got-IP event always leaves g_jsGotIpCallback empty. *)
Theorem slots_hold_functions_invariant :
  slots_hold_functions world0 /\
  forall w, slots_hold_functions w ->
    (forall env jsSsid jsOptions jsCallback,
       slots_hold_functions
         (world_after (jswrap_ESP32_wifi_connect env jsSsid jsOptions jsCallback w))) /\
    (forall env jsCallback,
       slots_hold_functions (world_after (jswrap_ESP32_wifi_disconnect env jsCallback w))) /\
    (forall env jsCallback,
       slots_hold_functions (world_after (jswrap_ESP32_wifi_scan env jsCallback w))) /\
    (forall env e, slots_hold_functions (world_after (event_handler env e w))) /\
    (forall env info,
       g_jsDisconnectCallback
         (world_after (event_handler env (EV_STA_DISCONNECTED info) w)) = None) /\
    (forall env info,
       g_jsGotIpCallback (world_after (event_handler env (EV_STA_GOT_IP info) w)) = None).
Proof.
  split; [repeat split; left; reflexivity|].
  intros w (Hd & Hg & Hs). unfold slots_hold_functions.
  split; [|split; [|split; [|split; [|split]]]].
  - intros env jsSsid jsOptions jsCallback.
    destruct (connect_slots env jsSsid jsOptions jsCallback w)
      as (w' & Hrun & _ & Hsc & Hdi & Hgo).
    rewrite Hrun. cbn [world_after]. rewrite Hsc. repeat split; [| |exact Hs].
    + destruct Hdi as [-> | ->]; [exact Hd | left; reflexivity].
    + destruct Hgo as [-> | [-> | [-> Hf]]];
        [exact Hg | left; reflexivity | right; exact Hf].
  - intros env jsCallback.
    destruct (disconnect_slots env jsCallback w) as (w' & Hrun & _ & Hgo & Hsc & Hdi).
    rewrite Hrun. cbn [world_after]. rewrite Hsc, Hgo. repeat split; [|exact Hg|exact Hs].
    destruct Hdi as [-> | [-> Hf]]; [left; reflexivity | right; exact Hf].
  - intros env jsCallback.
    destruct (scan_slots env jsCallback w) as (w' & Hrun & _ & Hdi & Hgo & Hsc).
    rewrite Hrun. cbn [world_after]. rewrite Hdi, Hgo. repeat split; [exact Hd|exact Hg|].
    destruct Hsc as [-> | (_ & -> & Hf)]; [exact Hs | right; exact Hf].
  - intros env e.
    destruct (event_handler_step env e w) as (H1 & H2 & H3 & _).
    repeat split;
      [exact (empty_or_function_after_event _ _ Hd H1)
      |exact (empty_or_function_after_event _ _ Hg H2)
      |exact (empty_or_function_after_event _ _ Hs H3)].
  - intros env info. rewrite disconnected_world. cbn.
    apply after_resolution_function. exact Hd.
  - intros env info. rewrite got_ip_world. cbn.
    apply after_resolution_function. exact Hg.
Qed.

Lemma slots_hold_functions_invariant_witness :
  slots_hold_functions world0 /\
  slots_hold_functions
    (world_after (jswrap_ESP32_wifi_scan env_ok (Some (JsFunction 1)) world0)).
Proof.
  split; [exact (proj1 slots_hold_functions_invariant)|].
  exact (proj1 (proj2 (proj2 (proj2 slots_hold_functions_invariant world0
                                      (proj1 slots_hold_functions_invariant))))
           env_ok (Some (JsFunction 1))).
Defined.

(* ================================================================== *)
(** ** Operations and events in sequence *)

(** X9. disconnect with a callback that is absent or a function calls
    esp_wifi_disconnect exactly once, whatever status that call returns,
    and raises and logs nothing; it leaves a pending connect callback in
    place.  The disconnected event that follows invokes the callback once,
    with no argument, if one was given, publishes the disconnected event
    if the Wifi module is there, and leaves g_jsDisconnectCallback
    empty. *)
Theorem disconnect_then_disconnected
    (env env' : Env) (jsCallback : JsVarRef)
    (info : system_event_sta_disconnected_t) (w : World) :
  jsCallback = None \/ jsvIsFunction jsCallback = true ->
  exists w1 w2,
    jswrap_ESP32_wifi_disconnect env jsCallback w = Done tt w1 /\
    vendor_called w w1 [esp_wifi_disconnect_call] /\
    raised_nothing w w1 /\
    queued w w1 [] /\
    g_jsGotIpCallback w1 = g_jsGotIpCallback w /\
    event_handler env' (EV_STA_DISCONNECTED info) w1 = Done ESP_OK w2 /\
    queued w1 w2 (resolved jsCallback [] ++
                  published env' "#ondisconnected" (disconnected_details info)) /\
    g_jsDisconnectCallback w2 = None /\
    g_jsGotIpCallback w2 = g_jsGotIpCallback w.
Proof.
  intros Hcb.
  destruct (disconnect_accepted_run env jsCallback w Hcb)
    as (w1 & Hrun & Hd & Hg & _ & Hq & Hx & Hv).
  exists w1. eexists. rewrite disconnected_world.
  repeat split; try assumption.
  - unfold queued, after_event; cbn. rewrite Hd. reflexivity.
  - cbn. rewrite Hd. apply after_resolution_function. exact Hcb.
Qed.

Lemma disconnect_then_disconnected_witness :
  (Some (JsFunction 1) = None \/ jsvIsFunction (Some (JsFunction 1)) = true) /\
  exists w1 w2,
    jswrap_ESP32_wifi_disconnect env_set_mode_fails (Some (JsFunction 1)) world0
    = Done tt w1 /\
    vendor_called world0 w1 [esp_wifi_disconnect_call] /\
    raised_nothing world0 w1 /\
    queued world0 w1 [] /\
    g_jsGotIpCallback w1 = g_jsGotIpCallback world0 /\
    event_handler env_ok
      (EV_STA_DISCONNECTED {| disconnected_ssid := ap_ssid open_access_point;
                              disconnected_bssid := [x5c; xcf; x7f; x01; x02; x03];
                              disconnected_reason := 8 |}) w1 = Done ESP_OK w2 /\
    queued w1 w2
      (resolved (Some (JsFunction 1)) [] ++
       published env_ok "#ondisconnected"
         (disconnected_details
            {| disconnected_ssid := ap_ssid open_access_point;
               disconnected_bssid := [x5c; xcf; x7f; x01; x02; x03];
               disconnected_reason := 8 |})) /\
    g_jsDisconnectCallback w2 = None /\
    g_jsGotIpCallback w2 = g_jsGotIpCallback world0.
Proof.
  split; [right; reflexivity|].
  exact (disconnect_then_disconnected env_set_mode_fails env_ok (Some (JsFunction 1)) _
           world0 (or_intror eq_refl)).
Defined.

Example disconnected_event_record :
  disconnected_details
    {| disconnected_ssid := ap_ssid open_access_point;
       disconnected_bssid := [x5c; xcf; x7f; x01; x02; x03];
       disconnected_reason := 8 |} =
  JsObject [("ssid", JsString "cafe"); ("mac", JsString "5c:cf:7f:01:02:03");
            ("reason", JsString "8")].
Proof. reflexivity. Qed.

(** X10. A scan is refused exactly while a scan callback is stored.
    scan(cb1), with no scan pending, stores cb1 whatever the vendor calls
    return; until a scan-done event arrives every further scan is refused
    and cb1 stays; the scan-done event invokes cb1 once and empties the
    slot; the next scan is accepted and stores its own callback. *)
Theorem scan_lifecycle
    (env1 env2 env3 : Env) (cb1 cb2 : nat) (w : World) :
  g_jsScanCallback w = None ->
  scan_fetch_ok env2 ->
  exists w1 w2 w3,
    jswrap_ESP32_wifi_scan env1 (Some (JsFunction cb1)) w = Done tt w1 /\
    g_jsScanCallback w1 = Some (JsFunction cb1) /\
    (forall env jsCallback,
       exists w',
         jswrap_ESP32_wifi_scan env jsCallback w1 = Done tt w' /\
         raised w1 w' "A scan is already in progress." [] /\
         g_jsScanCallback w' = Some (JsFunction cb1)) /\
    event_handler env2 EV_SCAN_DONE w1 = Done ESP_OK w2 /\
    queued w1 w2 [QueueEvents (JsFunction cb1) [JsArray (scan_results env2)]] /\
    g_jsScanCallback w2 = None /\
    jswrap_ESP32_wifi_scan env3 (Some (JsFunction cb2)) w2 = Done tt w3 /\
    raised_nothing w2 w3 /\
    g_jsScanCallback w3 = Some (JsFunction cb2).
Proof.
  intros Hfree Hfetch.
  destruct (scan_accepted_run env1 (Some (JsFunction cb1)) w Hfree eq_refl)
    as (w1 & Hrun1 & Hs1 & _).
  destruct (scan_done_resolves env2 _ w1 Hs1 Hfetch) as (w2 & Hev & Hs2 & _ & _ & Hq2).
  destruct (scan_accepted_run env3 (Some (JsFunction cb2)) w2 Hs2 eq_refl)
    as (w3 & Hrun3 & Hs3 & _ & _ & _ & Hx3 & _).
  exists w1, w2, w3. repeat split; try assumption.
  intros env jsCallback.
  unfold jswrap_ESP32_wifi_scan, bind, gets. rewrite Hs1. cbn.
  eexists. split; [reflexivity|]. unfold raised. cbn. rewrite Hs1. auto.
Qed.

Lemma scan_lifecycle_witness :
  g_jsScanCallback world0 = None /\
  scan_fetch_ok env_two_access_points /\
  exists w1 w2 w3,
    jswrap_ESP32_wifi_scan env_set_mode_fails (Some (JsFunction 1)) world0 = Done tt w1 /\
    g_jsScanCallback w1 = Some (JsFunction 1) /\
    (forall env jsCallback,
       exists w',
         jswrap_ESP32_wifi_scan env jsCallback w1 = Done tt w' /\
         raised w1 w' "A scan is already in progress." [] /\
         g_jsScanCallback w' = Some (JsFunction 1)) /\
    event_handler env_two_access_points EV_SCAN_DONE w1 = Done ESP_OK w2 /\
    queued w1 w2
      [QueueEvents (JsFunction 1) [JsArray (scan_results env_two_access_points)]] /\
    g_jsScanCallback w2 = None /\
    jswrap_ESP32_wifi_scan env_ok (Some (JsFunction 2)) w2 = Done tt w3 /\
    raised_nothing w2 w3 /\
    g_jsScanCallback w3 = Some (JsFunction 2).
Proof.
  split; [reflexivity|]. split; [exact scan_fetch_ok_two_access_points|].
  exact (scan_lifecycle env_set_mode_fails env_two_access_points env_ok 1 2 world0
           eq_refl scan_fetch_ok_two_access_points).
Defined.

(** X11. connect given options whose password is there but is not a
    string raises an error naming options.password and makes no vendor
    call; by then it has emptied both g_jsGotIpCallback and
    g_jsDisconnectCallback, without invoking what they held. *)
Theorem connect_password_not_string
    (env : Env) (jsSsid jsCallback : JsVarRef) (children : list (string * JsVar))
    (password : JsVar) (w : World) :
  jsvIsString jsSsid = true ->
  jsCallback = None \/ jsvIsFunction jsCallback = true ->
  lookupChild "password" children = Some password ->
  jsvIsString (Some password) = false ->
  exists w',
    jswrap_ESP32_wifi_connect env jsSsid (Some (JsObject children)) jsCallback w
    = Done tt w' /\
    raised w w' "Expecting options.password to be a string but got %t" [Some password] /\
    vendor_called w w' [] /\
    queued w w' [] /\
    g_jsGotIpCallback w' = None /\
    g_jsDisconnectCallback w' = None /\
    g_jsScanCallback w' = g_jsScanCallback w.
Proof.
  intros Hssid Hcb Hlookup Hnot.
  unfold jswrap_ESP32_wifi_connect, raised, vendor_called, queued.
  rewrite Hssid. cbn [negb notNULL jsvIsObject andb].
  unfold bind at 1. cbn [set_g_jsGotIpCallback modify].
  assert (Hguard : notNULL jsCallback && negb (jsvIsUndefined jsCallback)
                   && negb (jsvIsFunction jsCallback) = false).
  { destruct Hcb as [-> | ->]; [reflexivity | apply andb_false_r]. }
  rewrite Hguard. unfold bind at 1. cbn [set_g_jsDisconnectCallback modify].
  cbn [jsvObjectGetChild]. rewrite Hlookup. cbn [notNULL andb]. rewrite Hnot.
  observed.
Qed.

Lemma connect_password_not_string_witness :
  jsvIsString myssid = true /\
  (Some (JsFunction 2) = None \/ jsvIsFunction (Some (JsFunction 2)) = true) /\
  lookupChild "password" [("password", JsInteger 1234)] = Some (JsInteger 1234) /\
  jsvIsString (Some (JsInteger 1234)) = false /\
  exists w',
    jswrap_ESP32_wifi_connect env_ok myssid
      (Some (JsObject [("password", JsInteger 1234)])) (Some (JsFunction 2))
      (world_disconnect_pending (JsFunction 1)) = Done tt w' /\
    raised (world_disconnect_pending (JsFunction 1)) w'
      "Expecting options.password to be a string but got %t" [Some (JsInteger 1234)] /\
    vendor_called (world_disconnect_pending (JsFunction 1)) w' [] /\
    queued (world_disconnect_pending (JsFunction 1)) w' [] /\
    g_jsGotIpCallback w' = None /\
    g_jsDisconnectCallback w' = None /\
    g_jsScanCallback w' = g_jsScanCallback (world_disconnect_pending (JsFunction 1)).
Proof.
  repeat (split; [first [reflexivity | right; reflexivity]|]).
  exact (connect_password_not_string env_ok myssid (Some (JsFunction 2))
           [("password", JsInteger 1234)] (JsInteger 1234)
           (world_disconnect_pending (JsFunction 1))
           eq_refl (or_intror eq_refl) eq_refl eq_refl).
Defined.

(** X12. connect with accepted arguments supersedes what was pending:
    neither the call nor any events dispatched afterwards invoke a
    callback other than the one just given and a scan callback that was
    pending.  What sat in g_jsGotIpCallback or g_jsDisconnectCallback
    before the call is released without being invoked. *)
Theorem connect_supersedes_pending
    (env : Env) (jsSsid jsOptions jsCallback : JsVarRef) (w : World) :
  connect_accepts jsSsid jsOptions jsCallback = true ->
  forall events, exists added,
    queued w
      (dispatch_all events
         (world_after (jswrap_ESP32_wifi_connect env jsSsid jsOptions jsCallback w)))
      added /\
    forall callback args,
      In (QueueEvents callback args) added ->
      jsCallback = Some callback \/ g_jsScanCallback w = Some callback.
Proof.
  intros Hacc events.
  destruct (connect_accepted_run env jsSsid jsOptions jsCallback w Hacc)
    as (w' & Hrun & Hdi & Hsc & Hq & _ & Hcases).
  assert (Hgot : g_jsGotIpCallback w' = None \/ g_jsGotIpCallback w' = jsCallback).
  { cbv zeta in Hcases.
    destruct (negb (Z.eqb (r_esp_wifi_set_mode env) ESP_OK));
      [|destruct (negb (Z.eqb (r_esp_wifi_set_config env) ESP_OK));
        [|destruct (negb (Z.eqb (r_esp_wifi_start env) ESP_OK))]];
      destruct Hcases as (_ & _ & Hslot); auto. }
  rewrite Hrun. cbn [world_after].
  destruct (dispatch_all_invoke_pending_only events w') as (added & Hq' & Hinv).
  exists added. split.
  - unfold queued in *. rewrite Hq', Hq, app_nil_r. reflexivity.
  - intros c args Hin. destruct (Hinv _ _ Hin) as [H|[H|H]].
    + rewrite Hdi in H. discriminate.
    + destruct Hgot as [Hg|Hg]; rewrite Hg in H; [discriminate | left; exact H].
    + rewrite Hsc in H. right; exact H.
Qed.

Lemma connect_supersedes_pending_witness :
  connect_accepts myssid secret_options (Some (JsFunction 2)) = true /\
  forall events, exists added,
    queued (world_disconnect_pending (JsFunction 1))
      (dispatch_all events
         (world_after (jswrap_ESP32_wifi_connect env_ok myssid secret_options
                         (Some (JsFunction 2))
                         (world_disconnect_pending (JsFunction 1)))))
      added /\
    forall callback args,
      In (QueueEvents callback args) added ->
      Some (JsFunction 2) = Some callback \/
      g_jsScanCallback (world_disconnect_pending (JsFunction 1)) = Some callback.
Proof.
  split; [reflexivity|].
  exact (connect_supersedes_pending env_ok myssid secret_options (Some (JsFunction 2))
           (world_disconnect_pending (JsFunction 1)) eq_refl).
Defined.

(* ================================================================== *)
(** ** Formatted addresses fit their buffers *)

Lemma list_byte_of_string_append s1 s2 :
  list_byte_of_string (s1 ++ s2) = (list_byte_of_string s1 ++ list_byte_of_string s2)%list.
Proof.
  unfold list_byte_of_string.
  induction s1 as [|c s1 IH]; cbn; [reflexivity | now rewrite IH].
Qed.

Lemma length_append s1 s2 :
  String.length (s1 ++ s2) = (String.length s1 + String.length s2)%nat.
Proof. induction s1 as [|c s1 IH]; cbn; [reflexivity | now rewrite IH]. Qed.

Lemma plain_text_append s1 s2 : plain_text s1 -> plain_text s2 -> plain_text (s1 ++ s2).
Proof.
  unfold plain_text. intros H1 H2. rewrite list_byte_of_string_append.
  apply Forall_app. split; assumption.
Qed.

Lemma plain_text_of_length_spec lo hi s :
  plain_text_of_length lo hi s = true ->
  plain_text s /\ (lo <= String.length s <= hi)%nat.
Proof.
  unfold plain_text_of_length, plain_text. rewrite !andb_true_iff, !Nat.leb_le.
  intros [[Hlo Hhi] Hall]. split; [|lia].
  apply Forall_forall. intros b Hin.
  rewrite forallb_forall in Hall. specialize (Hall b Hin).
  apply isNUL_false. now apply negb_true_iff.
Qed.

(** A text without NUL, written to a buffer and read back. *)
Lemma jsvNewFromString_plain s : plain_text s -> jsvNewFromString (c_str s) = JsString s.
Proof.
  intros H. unfold jsvNewFromString, c_str.
  rewrite (cstring_nonNUL _ [] H), string_of_list_byte_of_string. reflexivity.
Qed.

Lemma octet_range x : 0 <= Z.land x 255 < 256.
Proof.
  change 255 with (Z.ones 8). rewrite Z.land_ones by lia.
  apply Z.mod_pos_bound. reflexivity.
Qed.

Lemma fmt_d_octets :
  forallb (fun k => plain_text_of_length 1 3 (fmt_d (Z.of_nat k))) (seq 0 256) = true.
Proof. vm_compute. reflexivity. Qed.

Lemma fmt_d_octet n :
  0 <= n < 256 -> plain_text (fmt_d n) /\ (1 <= String.length (fmt_d n) <= 3)%nat.
Proof.
  intros Hn. apply plain_text_of_length_spec.
  pose proof fmt_d_octets as H. rewrite forallb_forall in H.
  specialize (H (Z.to_nat n)). rewrite Z2Nat.id in H by lia.
  apply H. apply in_seq. lia.
Qed.

Lemma fmt_02x_plain b : plain_text_of_length 2 2 (fmt_02x b) = true.
Proof. destruct b; reflexivity. Qed.

Lemma plain_dot : plain_text ".".
Proof. repeat constructor; discriminate. Qed.

Lemma plain_colon : plain_text ":".
Proof. repeat constructor; discriminate. Qed.

Lemma fmt_IP_text addr :
  plain_text (fmt_IP addr) /\ (7 <= String.length (fmt_IP addr) <= 15)%nat.
Proof.
  unfold fmt_IP, ip4_addr1, ip4_addr2, ip4_addr3, ip4_addr4.
  destruct (fmt_d_octet _ (octet_range addr)) as [P1 L1].
  destruct (fmt_d_octet _ (octet_range (Z.shiftr addr 8))) as [P2 L2].
  destruct (fmt_d_octet _ (octet_range (Z.shiftr addr 16))) as [P3 L3].
  destruct (fmt_d_octet _ (octet_range (Z.shiftr addr 24))) as [P4 L4].
  split.
  - repeat (apply plain_text_append; [assumption || apply plain_dot|]). assumption.
  - rewrite !length_append. cbn [String.length]. lia.
Qed.

Lemma fmt_MAC_text a :
  plain_text (fmt_MAC a) /\ String.length (fmt_MAC a) = 17%nat.
Proof.
  unfold fmt_MAC.
  assert (H : forall b, plain_text (fmt_02x b) /\ String.length (fmt_02x b) = 2%nat).
  { intros b. destruct (plain_text_of_length_spec _ _ _ (fmt_02x_plain b)). split; [auto|lia]. }
  split.
  - repeat (apply plain_text_append; [apply H || apply plain_colon|]). apply H.
  - rewrite !length_append. cbn [String.length].
    rewrite !(proj2 (H _)). reflexivity.
Qed.

(** X13. The record published for a got-IP event has exactly the fields
    ip, netmask and gw, and each is a dotted-decimal text of 7 to 15
    characters, whatever the three address words are: with its
    terminator it fits the 16-byte buffer it is formatted into. *)
Theorem got_ip_record_fits
    (env : Env) (info : system_event_sta_got_ip_t) (wifi : JsVar) (w : World) :
  r_require_Wifi env = Some wifi ->
  queued w (world_after (event_handler env (EV_STA_GOT_IP info) w))
    (resolved (g_jsGotIpCallback w) [JsNull] ++
     [QueueObjectCallbacks wifi "#onconnected"
        [JsObject [("ip", JsString (fmt_IP (ip (ip_info info))));
                   ("netmask", JsString (fmt_IP (netmask (ip_info info))));
                   ("gw", JsString (fmt_IP (gw (ip_info info))))]]]) /\
  (7 <= String.length (fmt_IP (ip (ip_info info))) <= 15)%nat /\
  (7 <= String.length (fmt_IP (netmask (ip_info info))) <= 15)%nat /\
  (7 <= String.length (fmt_IP (gw (ip_info info))) <= 15)%nat.
Proof.
  intros Hwifi. rewrite got_ip_world. cbn [world_after].
  unfold queued, after_event, published, connected_details. cbn [queue].
  rewrite Hwifi.
  rewrite !(jsvNewFromString_plain _ (proj1 (fmt_IP_text _))).
  repeat split; apply fmt_IP_text.
Qed.

Lemma got_ip_record_fits_witness :
  r_require_Wifi env_ok = Some (JsObject []) /\
  queued world0 (world_after (event_handler env_ok (EV_STA_GOT_IP got_ip_info) world0))
    (resolved (g_jsGotIpCallback world0) [JsNull] ++
     [QueueObjectCallbacks (JsObject []) "#onconnected"
        [JsObject [("ip", JsString (fmt_IP (ip (ip_info got_ip_info))));
                   ("netmask", JsString (fmt_IP (netmask (ip_info got_ip_info))));
                   ("gw", JsString (fmt_IP (gw (ip_info got_ip_info))))]]]) /\
  (7 <= String.length (fmt_IP (ip (ip_info got_ip_info))) <= 15)%nat /\
  (7 <= String.length (fmt_IP (netmask (ip_info got_ip_info))) <= 15)%nat /\
  (7 <= String.length (fmt_IP (gw (ip_info got_ip_info))) <= 15)%nat.
Proof.
  split; [reflexivity|].
  exact (got_ip_record_fits env_ok got_ip_info (JsObject []) world0 eq_refl).
Defined.

(** A bounded, terminated copy read as a C string ends where the copied
    bytes end or where the source has a NUL. *)
Lemma cstring_stops src n :
  List.length (cstring (firstn n src ++ [NUL])) = List.length (firstn n src) \/
  nth_error src (List.length (cstring (firstn n src ++ [NUL]))) = Some NUL.
Proof.
  revert src. induction n as [|n IH]; intros src.
  - left. reflexivity.
  - destruct src as [|b rest].
    + left. reflexivity.
    + cbn [firstn app cstring]. destruct (isNUL b) eqn:E.
      * right. apply isNUL_true in E. subst b. reflexivity.
      * cbn [List.length nth_error]. destruct (IH rest) as [H|H].
        -- left. now rewrite H.
        -- right. exact H.
Qed.

(** X14. The record published for a disconnected event has exactly the
    fields ssid, mac and reason.  The ssid is the content of the event's
    ssid buffer up to its first NUL, 32 bytes at most: it has at most 32
    characters, none of them NUL, they are the leading bytes of the
    buffer, and it ends where the first 32 bytes of the buffer end or
    where the buffer has a NUL.  The mac has 17 characters; the reason, a
    byte, is a decimal text of 1 to 3 characters. *)
Theorem disconnected_record_fits
    (env : Env) (info : system_event_sta_disconnected_t) (wifi : JsVar) (w : World) :
  r_require_Wifi env = Some wifi ->
  0 <= disconnected_reason info < 256 ->
  exists ssid,
    queued w (world_after (event_handler env (EV_STA_DISCONNECTED info) w))
      (resolved (g_jsDisconnectCallback w) [] ++
       [QueueObjectCallbacks wifi "#ondisconnected"
          [JsObject [("ssid", JsString ssid);
                     ("mac", JsString (fmt_MAC (disconnected_bssid info)));
                     ("reason", JsString (fmt_d (disconnected_reason info)))]]]) /\
    (String.length ssid <= 32)%nat /\
    Forall nonNUL (list_byte_of_string ssid) /\
    firstn (String.length ssid) (disconnected_ssid info) = list_byte_of_string ssid /\
    (String.length ssid = List.length (firstn 32 (disconnected_ssid info)) \/
     nth_error (disconnected_ssid info) (String.length ssid) = Some NUL) /\
    String.length (fmt_MAC (disconnected_bssid info)) = 17%nat /\
    (1 <= String.length (fmt_d (disconnected_reason info)) <= 3)%nat.
Proof.
  intros Hwifi Hreason.
  exists (string_of_list_byte (cstring (firstn 32 (disconnected_ssid info) ++ [NUL]))).
  rewrite disconnected_world. cbn [world_after].
  unfold queued, after_event, published, disconnected_details. cbn [queue].
  rewrite Hwifi.
  rewrite (jsvNewFromString_plain _ (proj1 (fmt_MAC_text _))).
  rewrite (jsvNewFromString_plain _ (proj1 (fmt_d_octet _ Hreason))).
  rewrite length_string_of_list_byte, list_byte_of_string_of_list_byte.
  destruct (cstring_bounded (disconnected_ssid info) 32) as (Hlen & Hall & Hpre).
  pose proof (cstring_stops (disconnected_ssid info) 32) as Hstop.
  repeat split; try assumption; try apply fmt_MAC_text; apply (fmt_d_octet _ Hreason).
Qed.

Lemma disconnected_record_fits_witness :
  r_require_Wifi env_ok = Some (JsObject []) /\
  0 <= 201 < 256 /\
  exists ssid,
    queued world0
      (world_after
         (event_handler env_ok
            (EV_STA_DISCONNECTED {| disconnected_ssid := ap_ssid open_access_point;
                                    disconnected_bssid := [x5c; xcf; x7f; x01; x02; x03];
                                    disconnected_reason := 201 |}) world0))
      (resolved (g_jsDisconnectCallback world0) [] ++
       [QueueObjectCallbacks (JsObject []) "#ondisconnected"
          [JsObject [("ssid", JsString ssid);
                     ("mac", JsString (fmt_MAC [x5c; xcf; x7f; x01; x02; x03]));
                     ("reason", JsString (fmt_d 201))]]]) /\
    (String.length ssid <= 32)%nat /\
    Forall nonNUL (list_byte_of_string ssid) /\
    firstn (String.length ssid) (ap_ssid open_access_point) = list_byte_of_string ssid /\
    (String.length ssid = List.length (firstn 32 (ap_ssid open_access_point)) \/
     nth_error (ap_ssid open_access_point) (String.length ssid) = Some NUL) /\
    String.length (fmt_MAC [x5c; xcf; x7f; x01; x02; x03]) = 17%nat /\
    (1 <= String.length (fmt_d 201) <= 3)%nat.
Proof.
  assert (Hreason : 0 <= 201 < 256) by lia.
  split; [reflexivity|]. split; [exact Hreason|].
  exact (disconnected_record_fits env_ok
           {| disconnected_ssid := ap_ssid open_access_point;
              disconnected_bssid := [x5c; xcf; x7f; x01; x02; x03];
              disconnected_reason := 201 |} (JsObject []) world0 eq_refl Hreason).
Defined.

(* ================================================================== *)
(** ** IP information and status *)

(** X15. getIPInfo (behind getIP and getAPIP), with a callback that is
    absent, null or a function, asks the adapter for the addresses of the
    interface and then the driver for the MAC address of the matching
    wifi interface.  The result always has the field mac, 17 characters
    long; the fields ip, netmask and gw come before it when the adapter
    reports its addresses and are left out otherwise.  A function given
    as callback is invoked once with the result; no slot changes. *)
Theorem getIPInfo_result
    (q : QueryEnv) (jsCallback : JsVarRef) (interface : tcpip_adapter_if_t) (h : Host) :
  no_callback jsCallback \/ jsvIsFunction jsCallback = true ->
  exists result,
    result =
      JsObject (address_fields (r_tcpip_adapter_get_ip_info q interface) ++
                [("mac", JsString (fmt_MAC (r_esp_wifi_get_mac q (mac_interface interface))))])
    /\
    getIPInfo q jsCallback interface h =
      (Some result,
       {| world := after_event (world h) (g_jsDisconnectCallback (world h))
                     (g_jsGotIpCallback (world h)) (g_jsScanCallback (world h))
                     (resolved jsCallback [result]) [];
          queries := queries h ++
                     [tcpip_adapter_get_ip_info_call interface;
                      esp_wifi_get_mac_call (mac_interface interface)] |}) /\
    String.length (fmt_MAC (r_esp_wifi_get_mac q (mac_interface interface))) = 17%nat.
Proof.
  intros Hcb. eexists. split; [reflexivity|]. split; [|apply fmt_MAC_text].
  destruct h as [[d g s qu x v l] qs].
  unfold getIPInfo, tcpip_adapter_get_ip_info, esp_wifi_get_mac, query, qbind, qret,
    in_world, address_fields, after_event, resolved, networkGetAddressAsString,
    mac_interface, jsvNewObject.
  rewrite (jsvNewFromString_plain _ (proj1 (fmt_MAC_text _))).
  destruct (r_tcpip_adapter_get_ip_info q interface) as [err ipInfo].
  cbn [fst snd world queries].
  destruct Hcb as [[-> | ->] | Hfun].
  - destruct (Z.eqb err ESP_OK); cbn; rewrite ?app_nil_r, <- ?app_assoc; reflexivity.
  - destruct (Z.eqb err ESP_OK); cbn; rewrite ?app_nil_r, <- ?app_assoc; reflexivity.
  - destruct jsCallback as [[]|]; try discriminate.
    destruct (Z.eqb err ESP_OK); cbn; rewrite ?app_nil_r, <- ?app_assoc; reflexivity.
Qed.

Lemma getIPInfo_result_witness :
  (no_callback (Some (JsFunction 4)) \/ jsvIsFunction (Some (JsFunction 4)) = true) /\
  exists result,
    result =
      JsObject (address_fields (r_tcpip_adapter_get_ip_info query_env_example
                                  TCPIP_ADAPTER_IF_AP) ++
                [("mac", JsString (fmt_MAC (r_esp_wifi_get_mac query_env_example
                                              (mac_interface TCPIP_ADAPTER_IF_AP))))])
    /\
    getIPInfo query_env_example (Some (JsFunction 4)) TCPIP_ADAPTER_IF_AP host0 =
      (Some result,
       {| world := after_event (world host0) (g_jsDisconnectCallback (world host0))
                     (g_jsGotIpCallback (world host0)) (g_jsScanCallback (world host0))
                     (resolved (Some (JsFunction 4)) [result]) [];
          queries := queries host0 ++
                     [tcpip_adapter_get_ip_info_call TCPIP_ADAPTER_IF_AP;
                      esp_wifi_get_mac_call (mac_interface TCPIP_ADAPTER_IF_AP)] |}) /\
    String.length (fmt_MAC (r_esp_wifi_get_mac query_env_example
                              (mac_interface TCPIP_ADAPTER_IF_AP))) = 17%nat.
Proof.
  split; [right; reflexivity|].
  exact (getIPInfo_result query_env_example (Some (JsFunction 4)) TCPIP_ADAPTER_IF_AP
           host0 (or_intror eq_refl)).
Defined.

Example getIP_with_address :
  fst (jswrap_ESP32_wifi_getIP query_env_example None host0) =
  Some (JsObject [("ip", JsString "192.168.1.5"); ("netmask", JsString "255.255.255.0");
                  ("gw", JsString "192.168.1.1"); ("mac", JsString "24:0a:c4:00:11:22")]).
Proof. reflexivity. Qed.

Example getAPIP_without_address :
  fst (jswrap_ESP32_wifi_getAPIP query_env_example None host0) =
  Some (JsObject [("mac", JsString "24:0a:c4:00:11:23")]).
Proof. reflexivity. Qed.

(** X16. getIPInfo refuses a callback that is neither absent, nor null,
    nor a function: the error is raised, NULL is returned, and neither the
    adapter nor the driver is asked anything. *)
Theorem getIPInfo_refused
    (q : QueryEnv) (jsCallback : JsVarRef) (interface : tcpip_adapter_if_t) (h : Host) :
  refused_callback jsCallback ->
  exists w',
    getIPInfo q jsCallback interface h = (None, {| world := w'; queries := queries h |}) /\
    raised (world h) w' "Expecting callback function but got %v" [jsCallback] /\
    queued (world h) w' [] /\
    slots_unchanged (world h) w'.
Proof.
  intros Href. unfold getIPInfo. rewrite (refused_callback_guard _ Href).
  unfold in_world, qbind, qret, raised, queued, slots_unchanged.
  eexists. split; [reflexivity|]. cbn. rewrite app_nil_r. repeat split.
Qed.

Lemma getIPInfo_refused_witness :
  refused_callback (Some (JsString "cb")) /\
  exists w',
    getIPInfo query_env_example (Some (JsString "cb")) TCPIP_ADAPTER_IF_STA host0 =
      (None, {| world := w'; queries := queries host0 |}) /\
    raised (world host0) w' "Expecting callback function but got %v" [Some (JsString "cb")] /\
    queued (world host0) w' [] /\
    slots_unchanged (world host0) w'.
Proof.
  assert (Href : refused_callback (Some (JsString "cb"))) by (repeat split; discriminate).
  split; [exact Href|].
  exact (getIPInfo_refused query_env_example (Some (JsString "cb")) TCPIP_ADAPTER_IF_STA
           host0 Href).
Defined.

(** X17. getStatus does not look at its callback: whatever is passed,
    even something a sibling operation would refuse, nothing is raised,
    nothing is queued and the world is as it was.  It asks for the mode
    and then for the power-save type, and returns a record of exactly the
    fields mode and powersave, each one of five fixed names with unknown
    for any value the source does not name. *)
Theorem getStatus_result (q : QueryEnv) (jsCallback : JsVarRef) (h : Host) :
  exists mode powersave,
    jswrap_ESP32_wifi_getStatus q jsCallback h =
      (Some (JsObject [("mode", JsString mode); ("powersave", JsString powersave)]),
       {| world := world h;
          queries := queries h ++ [esp_wifi_get_mode_call; esp_wifi_get_ps_call] |}) /\
    In mode ["off"; "ap"; "sta"; "sta+ap"; "unknown"] /\
    In powersave ["light"; "mac"; "modem"; "none"; "unknown"] /\
    (forall value, r_esp_wifi_get_mode q = mode_other value -> mode = "unknown") /\
    (forall value, r_esp_wifi_get_ps q = WIFI_PS_other value -> powersave = "unknown").
Proof.
  unfold jswrap_ESP32_wifi_getStatus, esp_wifi_get_mode, esp_wifi_get_ps, query, qbind,
    qret.
  destruct h as [w qs]. cbn [world queries].
  destruct (r_esp_wifi_get_mode q) as [[]|m]; destruct (r_esp_wifi_get_ps q);
    (eexists; eexists; split;
     [cbn; rewrite <- app_assoc; reflexivity|];
     cbn; repeat split; try tauto; intros; congruence).
Qed.

Lemma getStatus_result_witness :
  r_esp_wifi_get_mode query_env_example = mode_named WIFI_MODE_STA /\
  fst (jswrap_ESP32_wifi_getStatus query_env_example (Some (JsInteger 42)) host0) =
  Some (JsObject [("mode", JsString "sta"); ("powersave", JsString "modem")]).
Proof.
  split; [reflexivity|].
  destruct (getStatus_result query_env_example (Some (JsInteger 42)) host0)
    as (mode & powersave & Hrun & _).
  rewrite Hrun. cbn [fst].
  vm_compute in Hrun. injection Hrun as <- <-. reflexivity.
Defined.

(* ================================================================== *)
(** ** The stored ssid *)

Lemma getAPDetails_ssid env w :
  jsvObjectGetChild (returned (jswrap_ESP32_wifi_getAPDetails env None w)) "ssid" =
  Some (JsString (string_of_list_byte
    (cstring (firstn 32 (apc_ssid (r_ap_config env) ++ apc_password (r_ap_config env)
                         ++ apc_after_password (r_ap_config env)) ++ [NUL])))).
Proof.
  unfold jswrap_ESP32_wifi_getAPDetails, esp_wifi_get_ap_config, vendor, jsvNewFromString,
    jsvNewObject.
  cbn -[cstring strncpy string_of_list_byte firstn].
  rewrite cstring_strncpy.
  destruct (apc_authmode (r_ap_config env)); reflexivity.
Qed.

Lemma firstn_field (field rest : list byte) n :
  List.length field = n -> firstn n (field ++ rest) = field.
Proof.
  intros <-. rewrite firstn_app, Nat.sub_diag, firstn_all. cbn. apply app_nil_r.
Qed.

(** X18. The ssid reported by getDetails and by getAPDetails is read
    from the 32-byte ssid field alone: it is the bytes of the field
    before its first NUL, all 32 if there is none, whatever password and
    other data follow the field in memory. *)
Theorem details_ssid_from_field_alone (env : Env) (w : World) :
  (List.length (sta_ssid (r_sta_config env)) = 32%nat ->
   exists ssid,
     jsvObjectGetChild (returned (jswrap_ESP32_wifi_getDetails env None w)) "ssid"
     = Some (JsString ssid) /\
     list_byte_of_string ssid = cstring (sta_ssid (r_sta_config env) ++ [NUL]) /\
     (String.length ssid <= 32)%nat) /\
  (List.length (apc_ssid (r_ap_config env)) = 32%nat ->
   exists ssid,
     jsvObjectGetChild (returned (jswrap_ESP32_wifi_getAPDetails env None w)) "ssid"
     = Some (JsString ssid) /\
     list_byte_of_string ssid = cstring (apc_ssid (r_ap_config env) ++ [NUL]) /\
     (String.length ssid <= 32)%nat).
Proof.
  split; intros Hlen.
  - rewrite getDetails_ssid, (firstn_field _ _ _ Hlen).
    eexists. split; [reflexivity|].
    rewrite length_string_of_list_byte, list_byte_of_string_of_list_byte.
    split; [reflexivity|].
    destruct (cstring_bounded (sta_ssid (r_sta_config env)) 32) as (Hle & _).
    rewrite <- Hlen in Hle at 1. rewrite firstn_all in Hle. exact Hle.
  - rewrite getAPDetails_ssid, (firstn_field _ _ _ Hlen).
    eexists. split; [reflexivity|].
    rewrite length_string_of_list_byte, list_byte_of_string_of_list_byte.
    split; [reflexivity|].
    destruct (cstring_bounded (apc_ssid (r_ap_config env)) 32) as (Hle & _).
    rewrite <- Hlen in Hle at 1. rewrite firstn_all in Hle. exact Hle.
Qed.

Lemma details_ssid_from_field_alone_witness :
  List.length (sta_ssid (r_sta_config env_ok)) = 32%nat /\
  exists ssid,
    jsvObjectGetChild (returned (jswrap_ESP32_wifi_getDetails env_ok None world0)) "ssid"
    = Some (JsString ssid) /\
    list_byte_of_string ssid = cstring (sta_ssid (r_sta_config env_ok) ++ [NUL]) /\
    (String.length ssid <= 32)%nat.
Proof.
  split; [reflexivity|].
  exact (proj1 (details_ssid_from_field_alone env_ok world0) eq_refl).
Defined.

(* ================================================================== *)
(** ** The last call of scan *)

(** X6. scan does not look at what esp_wifi_scan_start returns: once
    set-mode and start have succeeded, the scan is started without
    blocking and with hidden networks shown, and whatever status that
    call reports, nothing is logged or raised and the callback stays
    stored. *)
Theorem scan_start_status_ignored (env : Env) (jsCallback : JsVarRef) (w : World) :
  g_jsScanCallback w = None ->
  jsvIsFunction jsCallback = true ->
  r_esp_wifi_set_mode env = ESP_OK ->
  r_esp_wifi_start env = ESP_OK ->
  exists w',
    jswrap_ESP32_wifi_scan env jsCallback w = Done tt w' /\
    vendor_called w w'
      [esp_wifi_set_mode_call WIFI_MODE_STA; esp_wifi_start_call;
       esp_wifi_scan_start_call true false] /\
    logged w w' [] /\
    raised_nothing w w' /\
    queued w w' [] /\
    g_jsScanCallback w' = jsCallback.
Proof.
  intros Hfree Hfun Hmode Hstart.
  destruct (scan_accepted_run env jsCallback w Hfree Hfun)
    as (w' & Hrun & Hs & _ & _ & Hq & Hx & Hcases).
  cbv zeta in Hcases.
  rewrite (status_ok _ Hmode), (status_ok _ Hstart) in Hcases.
  destruct Hcases as [Hv Hl].
  exists w'. repeat split; assumption.
Qed.

Lemma scan_start_status_ignored_witness :
  g_jsScanCallback world0 = None /\
  jsvIsFunction (Some (JsFunction 1)) = true /\
  r_esp_wifi_set_mode env_scan_start_fails = ESP_OK /\
  r_esp_wifi_start env_scan_start_fails = ESP_OK /\
  r_esp_wifi_scan_start env_scan_start_fails <> ESP_OK /\
  exists w',
    jswrap_ESP32_wifi_scan env_scan_start_fails (Some (JsFunction 1)) world0 = Done tt w' /\
    vendor_called world0 w'
      [esp_wifi_set_mode_call WIFI_MODE_STA; esp_wifi_start_call;
       esp_wifi_scan_start_call true false] /\
    logged world0 w' [] /\
    raised_nothing world0 w' /\
    queued world0 w' [] /\
    g_jsScanCallback w' = Some (JsFunction 1).
Proof.
  repeat (split; [reflexivity || discriminate|]).
  exact (scan_start_status_ignored env_scan_start_fails (Some (JsFunction 1)) world0
           eq_refl eq_refl eq_refl eq_refl).
Defined.
